(** * The Requested Task Manager of golem, embedded in Rocq

    A shallow embedding of [golem/task/requestedtaskmanager.py]: the
    task and subtask tables, the map of application clients and the
    operations of [RequestedTaskManager], written as computations in a
    state-and-exception monad, followed by the properties of the
    specification that concern them. *)

From Stdlib Require Import ZArith.
From stdpp Require Import base decidable option list strings gmap.

Local Open Scope Z_scope.
Local Open Scope string_scope.
Local Open Scope list_scope.

(** ** Identifiers *)

Definition TaskId := string.
Definition SubtaskId := string.
Definition EnvId := string.

(** A Python [str] or [bytes] value.  [RequestedTaskManager._public_key]
    is annotated [bytes] while a node id is a [str] column; Python's [==]
    between the two kinds is [False] whatever their contents, which is
    what the derived equality on this type gives. *)
Inductive Key :=
| PyStr (s : string)
| PyBytes (b : string).

#[global] Instance Key_eq_dec : EqDecision Key.
Proof. solve_decision. Defined.

(** ** Statuses *)

Module TaskStatus.

(** Modelled from the spec: [golem.task.taskstate] is imported by the
    source but is not part of it; the members and the three predicates
    are those of the data model of the specification. *)
Inductive t :=
| creating | starting | sending | waiting | computing
| finished | aborted | timeout | failed.

#[global] Instance eq_dec : EqDecision t.
Proof. solve_decision. Defined.

Definition is_preparing (s : t) : bool :=
  match s with creating | starting => true | _ => false end.

Definition is_active (s : t) : bool :=
  match s with sending | waiting | computing | starting => true | _ => false end.

Definition is_completed (s : t) : bool :=
  match s with finished | aborted | timeout | failed => true | _ => false end.

End TaskStatus.

Module SubtaskStatus.

(** Modelled from the spec: [golem.task.taskstate.SubtaskStatus] is not
    part of the source; members and predicates are those of the
    specification. *)
Inductive t :=
| starting | downloading | verifying | finished | failure | cancelled.

#[global] Instance eq_dec : EqDecision t.
Proof. solve_decision. Defined.

Definition is_active (s : t) : bool :=
  match s with starting | downloading | verifying => true | _ => false end.

Definition is_finished (s : t) : bool :=
  match s with finished => true | _ => false end.

End SubtaskStatus.

(** ** Records of the source and rows of the store *)

Module CreateTaskParams.
Record t := mk {
  app_id : string;
  name : string;
  environment : EnvId;
  task_timeout : Z;
  subtask_timeout : Z;
  output_directory : string;
  resources : list string;
  max_subtasks : Z;
  max_price_per_hour : Z;
  concent_enabled : bool;
}.
End CreateTaskParams.

Module SubtaskDefinition.
Record t := mk {
  subtask_id : SubtaskId;
  resources : list string;
  params : string;
  deadline : Z;
}.
End SubtaskDefinition.

Module ComputingNode.
(** Modelled from the spec: [golem.model.ComputingNode] is not part of
    the source; a node is identified by its [node_id]. *)
Record t := mk {
  node_id : Key;
  name : string;
}.
End ComputingNode.

Module RequestedTask.
(** Modelled from the spec: the table [golem.model.RequestedTask] is
    not part of the source; the columns are the keyword arguments of
    [RequestedTask.create] in [create_task], the key is [task_id].
    Times are microseconds since the epoch, opaque maps are strings. *)
Record t := mk {
  task_id : TaskId;
  app_id : string;
  name : string;
  status : TaskStatus.t;
  environment : EnvId;
  task_timeout : Z;
  subtask_timeout : Z;
  start_time : Z;
  max_price_per_hour : Z;
  max_subtasks : Z;
  output_directory : string;
  resources : list string;
  app_params : string;
}.

Definition with_status (s : TaskStatus.t) (r : t) : t :=
  mk (task_id r) (app_id r) (name r) s (environment r) (task_timeout r)
     (subtask_timeout r) (start_time r) (max_price_per_hour r)
     (max_subtasks r) (output_directory r) (resources r) (app_params r).
End RequestedTask.

Module RequestedSubtask.
(** Modelled from the spec: the table [golem.model.RequestedSubtask] is
    not part of the source; the columns are the keyword arguments of
    [RequestedSubtask.create] in [get_next_subtask].  [task] holds the
    key of the owning task and [computing_node] the key of the provider;
    a subtask id identifies a row within its task, so the key of a row
    is the pair of [task] and [subtask_id]. *)
Record t := mk {
  task : TaskId;
  subtask_id : SubtaskId;
  status : SubtaskStatus.t;
  payload : string;
  inputs : list string;
  start_time : Z;
  price : Z;
  computing_node : Key;
}.

Definition with_status (s : SubtaskStatus.t) (r : t) : t :=
  mk (task r) (subtask_id r) s (payload r) (inputs r) (start_time r)
     (price r) (computing_node r).

Definition pk (r : t) : TaskId * SubtaskId := (task r, subtask_id r).
End RequestedSubtask.

Module Subtask.
(** The descriptor answered by the application to [next_subtask]
    ([golem_task_api.structs.Subtask]). *)
Record t := mk {
  subtask_id : SubtaskId;
  params : string;
  resources : list string;
}.
End Subtask.

(** The service built by [_get_task_api_service] and the client created
    from it; only the environment they are bound to is kept. *)
Record EnvironmentTaskApiService := { service_env : EnvId }.
Record RequestorAppClient := { client_service : EnvironmentTaskApiService }.

(** ** Exceptions, results and the trace of outside calls *)

Inductive Exception :=
| DoesNotExist                 (* peewee: [Model.get] found no row *)
| IntegrityError               (* peewee: [Model.create] on a key in use *)
| RuntimeError (msg : string)
| AssertionError
| KeyError (key : string)
| OverflowError                (* datetime: a duration or a date out of range *)
| AppClientError (msg : string). (* raised by a call to the application *)

#[global] Instance Exception_eq_dec : EqDecision Exception.
Proof. solve_decision. Defined.

Inductive Result (A : Type) :=
| Ok (a : A)
| Raise (e : Exception).
Arguments Ok {A} a.
Arguments Raise {A} e.

(** Calls that leave the manager: the application client, the
    environment manager, the directory manager and the compute timers. *)
Inductive Event :=
| ev_enabled (env_id : EnvId)
| ev_client_create (app_id : string) (env_id : EnvId)
| ev_clear_temporary (task_id : TaskId)
| ev_create_task (app_id : string) (task_id : TaskId) (max_subtasks : Z) (app_params : string)
| ev_has_pending_subtasks (app_id : string) (task_id : TaskId)
| ev_next_subtask (app_id : string) (task_id : TaskId)
| ev_verify (app_id : string) (task_id : TaskId) (subtask_id : SubtaskId)
| ev_shutdown (app_id : string)
| ev_timer_start (subtask_id : SubtaskId)
| ev_timer_finish (subtask_id : SubtaskId).

#[global] Instance Event_eq_dec : EqDecision Event.
Proof. solve_decision. Defined.

(** What the outside answers during one operation of the manager.  An
    operation calls each verb at most once, so one answer per verb is
    enough; successive operations each get their own [World]. *)
Record World := {
  generate_id : TaskId;                       (* idgenerator.generate_id *)
  default_now : Z;                            (* golem.model.default_now *)
  enabled : EnvId → bool;                     (* env_manager.enabled *)
  client_create : Result unit;                (* RequestorAppClient.create *)
  app_create_task : Result unit;
  app_has_pending_subtasks : Result bool;
  app_next_subtask : Result Subtask.t;
  app_verify : Result bool;
  app_shutdown : Result unit;
}.

(** ** State: the manager's fields and the shared store *)

Record RTM := mkRTM {
  _public_key : Key;
  _app_clients : gmap string RequestorAppClient;
  tasks : list RequestedTask.t;        (* table RequestedTask, in insertion order *)
  subtasks : list RequestedSubtask.t;  (* table RequestedSubtask *)
  trace : list Event;                  (* outside calls, oldest first *)
}.

(** [RequestedTaskManager.__init__] on an empty store. *)
Definition init (public_key : Key) : RTM :=
  mkRTM public_key ∅ [] [] [].

(** ** The monad of operations: state kept across a raised exception *)

Definition M (A : Type) : Type := RTM → Result A * RTM.

Definition ret {A} (a : A) : M A := λ σ, (Ok a, σ).

Definition bind {A B} (m : M A) (k : A → M B) : M B :=
  λ σ, match m σ with
       | (Ok a, σ') => k a σ'
       | (Raise e, σ') => (Raise e, σ')
       end.

Definition raise {A} (e : Exception) : M A := λ σ, (Raise e, σ).

Definition gets {A} (f : RTM → A) : M A := λ σ, (Ok (f σ), σ).

Definition modify (f : RTM → RTM) : M unit := λ σ, (Ok tt, f σ).

(** An awaited outside call: its answer is returned or raised. *)
Definition await {A} (r : Result A) : M A := λ σ, (r, σ).

Notation "'let*' x ':=' m 'in' k" := (bind m (λ x, k))
  (at level 10, x pattern, m at level 100, k at level 200).
Notation "m ';;' k" := (bind m (λ _, k))
  (at level 100, k at level 200, right associativity).

Definition emit (e : Event) : M unit :=
  modify (λ σ, mkRTM (_public_key σ) (_app_clients σ) (tasks σ) (subtasks σ)
                     (trace σ ++ [e])).

Definition set_tasks (f : list RequestedTask.t → list RequestedTask.t) : M unit :=
  modify (λ σ, mkRTM (_public_key σ) (_app_clients σ) (f (tasks σ)) (subtasks σ)
                     (trace σ)).

Definition set_subtasks (f : list RequestedSubtask.t → list RequestedSubtask.t) : M unit :=
  modify (λ σ, mkRTM (_public_key σ) (_app_clients σ) (tasks σ) (f (subtasks σ))
                     (trace σ)).

Definition set_app_clients
    (f : gmap string RequestorAppClient → gmap string RequestorAppClient) : M unit :=
  modify (λ σ, mkRTM (_public_key σ) (f (_app_clients σ)) (tasks σ) (subtasks σ)
                     (trace σ)).

(** ** The store's queries, as the source phrases them with peewee *)

(** The rows a [get] and a [save] address: the first row with the
    given id for [get], every row with the object's key for [save]. *)
Definition select_task (task_id : TaskId) (rows : list RequestedTask.t)
    : option RequestedTask.t :=
  List.find (λ r, bool_decide (RequestedTask.task_id r = task_id)) rows.

Definition update_task (row : RequestedTask.t) (rows : list RequestedTask.t)
    : list RequestedTask.t :=
  map (λ r, if bool_decide (RequestedTask.task_id r = RequestedTask.task_id row)
            then row else r) rows.

Definition select_subtask (subtask_id : SubtaskId) (rows : list RequestedSubtask.t)
    : option RequestedSubtask.t :=
  List.find (λ r, bool_decide (RequestedSubtask.subtask_id r = subtask_id)) rows.

Definition update_subtask (row : RequestedSubtask.t) (rows : list RequestedSubtask.t)
    : list RequestedSubtask.t :=
  map (λ r, if bool_decide (RequestedSubtask.pk r = RequestedSubtask.pk row)
            then row else r) rows.

(** [RequestedTask.get(RequestedTask.task_id == task_id)]: the first row
    with that id, [DoesNotExist] when there is none. *)
Definition RequestedTask_get (task_id : TaskId) : M RequestedTask.t :=
  let* rows := gets tasks in
  match select_task task_id rows with
  | Some r => ret r
  | None => raise DoesNotExist
  end.

(** [RequestedTask.create(...)]: a new row; the key must be free. *)
Definition RequestedTask_create (row : RequestedTask.t) : M RequestedTask.t :=
  let* rows := gets tasks in
  if List.existsb
       (λ r, bool_decide (RequestedTask.task_id r = RequestedTask.task_id row)) rows
  then raise IntegrityError
  else set_tasks (λ l, l ++ [row]) ;; ret row.

(** [task.save()]: the columns of the row with the object's key are
    overwritten with the object's fields. *)
Definition RequestedTask_save (row : RequestedTask.t) : M unit :=
  set_tasks (update_task row).

(** [RequestedSubtask.get(RequestedSubtask.subtask_id == subtask_id)]. *)
Definition RequestedSubtask_get (subtask_id : SubtaskId) : M RequestedSubtask.t :=
  let* rows := gets subtasks in
  match select_subtask subtask_id rows with
  | Some r => ret r
  | None => raise DoesNotExist
  end.

Definition RequestedSubtask_create (row : RequestedSubtask.t) : M RequestedSubtask.t :=
  let* rows := gets subtasks in
  if List.existsb
       (λ r, bool_decide (RequestedSubtask.pk r = RequestedSubtask.pk row)) rows
  then raise IntegrityError
  else set_subtasks (λ l, l ++ [row]) ;; ret row.

Definition RequestedSubtask_save (row : RequestedSubtask.t) : M unit :=
  set_subtasks (update_subtask row).

(** A query [Model.select(...).where(...)] is a value of its own: nothing
    is read from the store until it is executed, by [.scalar()] for a
    count or by iterating it. *)
Record SelectQuery (Row : Type) := Select { where_ : Row → bool }.
Arguments Select {Row} where_.
Arguments where_ {Row} s.

(** [query.scalar()] of a [select(fn.Count(key))]: the number of rows that
    satisfy the [where] clause (zero when there is none). *)
Definition scalar {Row} (q : SelectQuery Row) (table : list Row) : Z :=
  Z.of_nat (length (List.filter (where_ q) table)).

(** Iterating a query: the rows that satisfy the clause. *)
Definition execute {Row} (q : SelectQuery Row) (table : list Row) : list Row :=
  List.filter (where_ q) table.

(** Comparing a query that was not executed with [>=] is peewee's
    operator overloading for building SQL ([Node.__ge__]): the value is
    an [Expression] node with the query on the left and the number on
    the right, not a boolean; the store is not consulted. *)
Inductive Expression (Row : Type) :=
| OP_GTE (lhs : SelectQuery Row) (rhs : Z).
Arguments OP_GTE {Row} lhs rhs.

(** The truth value Python's [if] gives an [Expression]: the class
    defines neither [__bool__] nor [__len__], so it is true. *)
Definition truth {Row} (e : Expression Row) : bool := true.

(** Python's [datetime] module.  A date is its number of microseconds
    since the epoch, a duration its number of microseconds.  A
    [timedelta] holds between -999999999 and 999999999 whole days and a
    [datetime] lies between year 1 and year 9999; building a value
    outside raises [OverflowError]. *)
Definition timedelta_max_days : Z := 999999999.
Definition microseconds_per_day : Z := 86400000000.
Definition datetime_min : Z := -62135596800000000.  (* 0001-01-01 00:00:00 *)
Definition datetime_max : Z := 253402300799999999.  (* 9999-12-31 23:59:59.999999 *)

(** [timedelta(milliseconds=n)]. *)
Definition timedelta_milliseconds (n : Z) : Result Z :=
  let microseconds := 1000 * n in
  let days := microseconds / microseconds_per_day in
  if ((- timedelta_max_days <=? days) && (days <=? timedelta_max_days))%Z
  then Ok microseconds
  else Raise OverflowError.

(** [date + delta]. *)
Definition datetime_add (date delta : Z) : Result Z :=
  let sum := date + delta in
  if ((datetime_min <=? sum) && (sum <=? datetime_max))%Z
  then Ok sum
  else Raise OverflowError.

(** A [for] loop: the body is run on each element in turn; an exception
    ends the loop. *)
Fixpoint for_each {A} (xs : list A) (body : A → M unit) : M unit :=
  match xs with
  | [] => ret tt
  | x :: xs' => body x ;; for_each xs' body
  end.

(** ** The operations of [RequestedTaskManager] *)

(** [create_task]: the id comes from [idgenerator.generate_id]. *)
Definition create_task (w : World) (golem_params : CreateTaskParams.t)
    (app_params : string) : M TaskId :=
  let* task := RequestedTask_create
    {| RequestedTask.task_id := generate_id w;
       RequestedTask.app_id := CreateTaskParams.app_id golem_params;
       RequestedTask.name := CreateTaskParams.name golem_params;
       RequestedTask.status := TaskStatus.creating;
       RequestedTask.environment := CreateTaskParams.environment golem_params;
       RequestedTask.task_timeout := CreateTaskParams.task_timeout golem_params;
       RequestedTask.subtask_timeout := CreateTaskParams.subtask_timeout golem_params;
       RequestedTask.start_time := default_now w;
       RequestedTask.max_price_per_hour := CreateTaskParams.max_price_per_hour golem_params;
       RequestedTask.max_subtasks := CreateTaskParams.max_subtasks golem_params;
       RequestedTask.output_directory := CreateTaskParams.output_directory golem_params;
       RequestedTask.resources := CreateTaskParams.resources golem_params;
       RequestedTask.app_params := app_params |} in
  ret (RequestedTask.task_id task).

Definition _get_task_api_service (w : World) (app_id : string) (env_id : EnvId)
    : M EnvironmentTaskApiService :=
  emit (ev_enabled env_id) ;;
  if negb (enabled w env_id) then
    raise (RuntimeError
             ("Error connecting to app: " +:+ env_id +:+ ". environment not enabled"))
  else ret {| service_env := env_id |}.

Definition _get_app_client (w : World) (app_id : string) (env_id : EnvId)
    : M RequestorAppClient :=
  let* clients := gets _app_clients in
  match clients !! app_id with
  | Some client => ret client
  | None =>
      let* service := _get_task_api_service w app_id env_id in
      emit (ev_client_create app_id env_id) ;;
      await (client_create w) ;;
      let client := {| client_service := service |} in
      set_app_clients (insert app_id client) ;;
      ret client
  end.

Definition init_task (w : World) (task_id : TaskId) : M unit :=
  let* task := RequestedTask_get task_id in
  if negb (bool_decide (RequestedTask.status task = TaskStatus.creating)) then
    raise (RuntimeError ("Task " +:+ task_id +:+ " has already been initialized"))
  else
    emit (ev_clear_temporary task_id) ;;
    let* app_client :=
      _get_app_client w (RequestedTask.app_id task) (RequestedTask.environment task) in
    emit (ev_create_task (RequestedTask.app_id task) (RequestedTask.task_id task)
            (RequestedTask.max_subtasks task) (RequestedTask.app_params task)) ;;
    await (app_create_task w).

Definition start_task (task_id : TaskId) : M unit :=
  let* task := RequestedTask_get task_id in
  if negb (TaskStatus.is_preparing (RequestedTask.status task)) then
    raise (RuntimeError ("Task " +:+ task_id +:+ " has already been started"))
  else
    let task := RequestedTask.with_status TaskStatus.waiting task in
    RequestedTask_save task.

Definition task_exists (task_id : TaskId) : M bool :=
  let* rows := gets tasks in
  ret (List.existsb (λ r, bool_decide (RequestedTask.task_id r = task_id)) rows).

Definition has_pending_subtasks (w : World) (task_id : TaskId) : M bool :=
  let* task := RequestedTask_get task_id in
  let* app_client :=
    _get_app_client w (RequestedTask.app_id task) (RequestedTask.environment task) in
  emit (ev_has_pending_subtasks (RequestedTask.app_id task) (RequestedTask.task_id task)) ;;
  await (app_has_pending_subtasks w).

(** The count is executed with [.scalar()]: every status other than
    [finished] counts as unfinished. *)
Definition _get_unfinished_subtasks (task_id : TaskId)
    (computing_node : ComputingNode.t) : M Z :=
  let* rows := gets subtasks in
  let unfinished_subtask_count :=
    scalar
      (Select (λ r,
         bool_decide (RequestedSubtask.computing_node r
                      = ComputingNode.node_id computing_node)
         && bool_decide (RequestedSubtask.task r = task_id)
         && negb (bool_decide (RequestedSubtask.status r = SubtaskStatus.finished))))
      rows in
  ret unfinished_subtask_count.

Definition _shutdown_app_client (w : World) (app_id : string) : M unit :=
  let* rows := gets tasks in
  let unfinished_tasks :=
    scalar
      (Select (λ r,
         bool_decide (RequestedTask.app_id r = app_id)
         && bool_decide (RequestedTask.status r ∈
              [TaskStatus.sending; TaskStatus.waiting;
               TaskStatus.starting; TaskStatus.computing])))
      rows in
  if bool_decide (unfinished_tasks = 0) then
    let* clients := gets _app_clients in
    match clients !! app_id with
    | None => raise (KeyError app_id)
    | Some client =>
        emit (ev_shutdown app_id) ;;
        await (app_shutdown w) ;;
        set_app_clients (delete app_id)
    end
  else ret tt.

(** [get_next_subtask].  The deadline is computed after the row was
    created and before the timer is started: an [OverflowError] of the
    date arithmetic leaves the row in the table. *)
Definition get_next_subtask (w : World) (task_id : TaskId)
    (computing_node : ComputingNode.t) : M SubtaskDefinition.t :=
  let* task := RequestedTask_get task_id in
  let* public_key := gets _public_key in
  if bool_decide (ComputingNode.node_id computing_node = public_key) then
    raise (RuntimeError ("No subtasks for self. task_id=" +:+ task_id))
  else if negb (TaskStatus.is_active (RequestedTask.status task)) then
    raise (RuntimeError ("Task not active, no next subtask. task_id=" +:+ task_id))
  else
    let* unfinished := _get_unfinished_subtasks task_id computing_node in
    if (0 <? unfinished)%Z then
      raise (RuntimeError
               ("Provider has unfinished subtasks, no next subtask. "
                +:+ "task_id=" +:+ task_id))
    else
      let* pending := has_pending_subtasks w task_id in
      if negb pending then
        raise (RuntimeError ("Task not pending, no next subtask. task_id=" +:+ task_id))
      else
        let* app_client :=
          _get_app_client w (RequestedTask.app_id task)
            (RequestedTask.environment task) in
        emit (ev_next_subtask (RequestedTask.app_id task) (RequestedTask.task_id task)) ;;
        let* result := await (app_next_subtask w) in
        let* subtask := RequestedSubtask_create
          {| RequestedSubtask.task := RequestedTask.task_id task;
             RequestedSubtask.subtask_id := Subtask.subtask_id result;
             RequestedSubtask.status := SubtaskStatus.starting;
             RequestedSubtask.payload := Subtask.params result;
             RequestedSubtask.inputs := Subtask.resources result;
             RequestedSubtask.start_time := default_now w;
             RequestedSubtask.price := RequestedTask.max_price_per_hour task;
             RequestedSubtask.computing_node := ComputingNode.node_id computing_node |} in
        let* delta :=
          await (timedelta_milliseconds (RequestedTask.subtask_timeout task)) in
        let* deadline :=
          await (datetime_add (RequestedSubtask.start_time subtask) delta) in
        emit (ev_timer_start (RequestedSubtask.subtask_id subtask)) ;;
        ret {| SubtaskDefinition.subtask_id := RequestedSubtask.subtask_id subtask;
               SubtaskDefinition.resources := RequestedSubtask.inputs subtask;
               SubtaskDefinition.params := RequestedSubtask.payload subtask;
               SubtaskDefinition.deadline := deadline |}.

(** [verify].  The count of finished subtasks is built as a query but,
    unlike the two counts above, it is not executed: [finished_subtasks]
    is the query itself and [finished_subtasks >= task.max_subtasks] an
    [Expression], whose truth value decides the branch. *)
Definition verify (w : World) (task_id : TaskId) (subtask_id : SubtaskId) : M bool :=
  let* task := RequestedTask_get task_id in
  if negb (TaskStatus.is_active (RequestedTask.status task)) then
    raise (RuntimeError ("Task not active, can not verify. task_id=" +:+ task_id))
  else
    let* subtask := RequestedSubtask_get subtask_id in
    if negb (bool_decide (RequestedSubtask.task subtask = RequestedTask.task_id task))
    then raise AssertionError
    else
      let* app_client :=
        _get_app_client w (RequestedTask.app_id task) (RequestedTask.environment task) in
      let subtask := RequestedSubtask.with_status SubtaskStatus.verifying subtask in
      RequestedSubtask_save subtask ;;
      emit (ev_verify (RequestedTask.app_id task) (RequestedTask.task_id task) subtask_id) ;;
      let* result := await (app_verify w) in
      emit (ev_timer_finish subtask_id) ;;
      let subtask :=
        if result : bool
        then RequestedSubtask.with_status SubtaskStatus.finished subtask
        else RequestedSubtask.with_status SubtaskStatus.failure subtask in
      RequestedSubtask_save subtask ;;
      (if result then
         let finished_subtasks :=
           Select (λ r,
             bool_decide (RequestedSubtask.task r = RequestedTask.task_id task)
             && bool_decide (RequestedSubtask.status r = SubtaskStatus.finished)) in
         if truth (OP_GTE finished_subtasks (RequestedTask.max_subtasks task)) then
           let task := RequestedTask.with_status TaskStatus.finished task in
           RequestedTask_save task ;;
           _shutdown_app_client w (RequestedTask.app_id task)
         else ret tt
       else ret tt) ;;
      ret result.

Definition abort_task (w : World) (task_id : TaskId) : M unit :=
  let* task := RequestedTask_get task_id in
  if negb (TaskStatus.is_active (RequestedTask.status task)) then
    raise (RuntimeError ("Task not active, can not abort. task_id=" +:+ task_id))
  else
    let task := RequestedTask.with_status TaskStatus.aborted task in
    RequestedTask_save task ;;
    let subtasks_query :=
      Select (λ r,
        bool_decide (RequestedSubtask.task r = RequestedTask.task_id task)
        && bool_decide (RequestedSubtask.status r ∈
             [SubtaskStatus.starting; SubtaskStatus.downloading;
              SubtaskStatus.verifying])) in
    let* rows := gets subtasks in
    for_each (execute subtasks_query rows)
      (λ subtask,
         emit (ev_timer_finish (RequestedSubtask.subtask_id subtask)) ;;
         let subtask := RequestedSubtask.with_status SubtaskStatus.cancelled subtask in
         RequestedSubtask_save subtask) ;;
    _shutdown_app_client w (RequestedTask.app_id task).

(** [quit]: every client of the map is told to shut down; the calls are
    gathered in the returned deferred, so their failures are not raised
    here, and the map is left as it is. *)
Definition quit : M unit :=
  let* clients := gets _app_clients in
  if bool_decide (clients = ∅) then ret tt
  else for_each (map_to_list clients) (λ app, emit (ev_shutdown app.1)).

(** ** Error kinds of the specification

    The specification names abstract kinds of failure; each is the
    exception the source raises at the corresponding place. *)

Definition AlreadyInitialized (task_id : TaskId) : Exception :=
  RuntimeError ("Task " +:+ task_id +:+ " has already been initialized").

Definition AlreadyStarted (task_id : TaskId) : Exception :=
  RuntimeError ("Task " +:+ task_id +:+ " has already been started").

(** [TaskNotActive] as raised by [verify] and by [abort_task]. *)
Definition TaskNotActive_verify (task_id : TaskId) : Exception :=
  RuntimeError ("Task not active, can not verify. task_id=" +:+ task_id).

Definition TaskNotActive_abort (task_id : TaskId) : Exception :=
  RuntimeError ("Task not active, can not abort. task_id=" +:+ task_id).

(** The five admission rules of [get_next_subtask], in the order of the
    specification. *)
Inductive Rule :=
| rule_task_exists
| rule_not_self
| rule_task_active
| rule_no_unfinished
| rule_has_pending.

#[global] Instance Rule_eq_dec : EqDecision Rule.
Proof. solve_decision. Defined.

(** [AssignmentRefused] carries the rule: the exception by which
    [get_next_subtask] reports the violation of each rule. *)
Definition AssignmentRefused (rule : Rule) (task_id : TaskId) : Exception :=
  match rule with
  | rule_task_exists => DoesNotExist
  | rule_not_self => RuntimeError ("No subtasks for self. task_id=" +:+ task_id)
  | rule_task_active =>
      RuntimeError ("Task not active, no next subtask. task_id=" +:+ task_id)
  | rule_no_unfinished =>
      RuntimeError ("Provider has unfinished subtasks, no next subtask. "
                    +:+ "task_id=" +:+ task_id)
  | rule_has_pending =>
      RuntimeError ("Task not pending, no next subtask. task_id=" +:+ task_id)
  end.

(** ** Sequences of operations *)

(** The operations that write to the state or call outside; the
    read-only accessors ([task_exists], [is_task_finished] and the
    directory getters) change nothing and are left out. *)
Inductive Call :=
| call_create_task (golem_params : CreateTaskParams.t) (app_params : string)
| call_init_task (task_id : TaskId)
| call_start_task (task_id : TaskId)
| call_has_pending_subtasks (task_id : TaskId)
| call_get_next_subtask (task_id : TaskId) (computing_node : ComputingNode.t)
| call_verify (task_id : TaskId) (subtask_id : SubtaskId)
| call_abort_task (task_id : TaskId)
| call_quit.

(** The state a call leaves behind, whether it returns or raises. *)
Definition exec (wc : World * Call) (σ : RTM) : RTM :=
  let w := wc.1 in
  match wc.2 with
  | call_create_task golem_params app_params =>
      (create_task w golem_params app_params σ).2
  | call_init_task task_id => (init_task w task_id σ).2
  | call_start_task task_id => (start_task task_id σ).2
  | call_has_pending_subtasks task_id => (has_pending_subtasks w task_id σ).2
  | call_get_next_subtask task_id computing_node =>
      (get_next_subtask w task_id computing_node σ).2
  | call_verify task_id subtask_id => (verify w task_id subtask_id σ).2
  | call_abort_task task_id => (abort_task w task_id σ).2
  | call_quit => (quit σ).2
  end.

Definition exec_all (calls : list (World * Call)) (σ : RTM) : RTM :=
  fold_left (λ σ wc, exec wc σ) calls σ.

(** The states of a manager built on an empty store. *)
Definition reachable (public_key : Key) (σ : RTM) : Prop :=
  ∃ calls, σ = exec_all calls (init public_key).

(** The number of finished subtasks of a task, as the specification
    counts them. *)
Definition finished_count (task_id : TaskId) (rows : list RequestedSubtask.t) : Z :=
  Z.of_nat (length (filter
    (λ r, RequestedSubtask.task r = task_id
          ∧ RequestedSubtask.status r = SubtaskStatus.finished) rows)).

(** ** Notions used by the statements *)

(** No [shutdown] among a list of outside calls. *)
Definition no_shutdown (evs : list Event) : Prop :=
  ∀ app_id, ev_shutdown app_id ∉ evs.

(** The client for an application can be handed out: it is in the map,
    or the environment is enabled and the client's creation succeeds. *)
Definition client_available (w : World) (σ : RTM) (app_id : string) (env_id : EnvId)
    : Prop :=
  is_Some (_app_clients σ !! app_id)
  ∨ (enabled w env_id = true ∧ client_create w = Ok tt).

(** The provider's subtasks of a task whose status is not [finished],
    counted as rule 4 of the specification words it. *)
Definition unfinished_of_provider (task_id : TaskId) (computing_node : ComputingNode.t)
    (rows : list RequestedSubtask.t) : nat :=
  length (filter
    (λ r, RequestedSubtask.computing_node r = ComputingNode.node_id computing_node
          ∧ RequestedSubtask.task r = task_id
          ∧ RequestedSubtask.status r ≠ SubtaskStatus.finished) rows).

(** The admission rules of the specification, each as what it demands
    and as what violates it. *)
Definition rule_holds (w : World) (σ : RTM) (task_id : TaskId)
    (computing_node : ComputingNode.t) (rule : Rule) : Prop :=
  match rule with
  | rule_task_exists => is_Some (select_task task_id (tasks σ))
  | rule_not_self => ComputingNode.node_id computing_node ≠ _public_key σ
  | rule_task_active =>
      ∃ t, select_task task_id (tasks σ) = Some t
           ∧ TaskStatus.is_active (RequestedTask.status t) = true
  | rule_no_unfinished =>
      unfinished_of_provider task_id computing_node (subtasks σ) = 0%nat
  | rule_has_pending => (has_pending_subtasks w task_id σ).1 = Ok true
  end.

Definition rule_violated (w : World) (σ : RTM) (task_id : TaskId)
    (computing_node : ComputingNode.t) (rule : Rule) : Prop :=
  match rule with
  | rule_task_exists => select_task task_id (tasks σ) = None
  | rule_not_self => ComputingNode.node_id computing_node = _public_key σ
  | rule_task_active =>
      ∃ t, select_task task_id (tasks σ) = Some t
           ∧ TaskStatus.is_active (RequestedTask.status t) = false
  | rule_no_unfinished =>
      unfinished_of_provider task_id computing_node (subtasks σ) ≠ 0%nat
  | rule_has_pending => (has_pending_subtasks w task_id σ).1 = Ok false
  end.

(** The rules listed before a rule. *)
Definition rules_before (rule : Rule) : list Rule :=
  match rule with
  | rule_task_exists => []
  | rule_not_self => [rule_task_exists]
  | rule_task_active => [rule_task_exists; rule_not_self]
  | rule_no_unfinished => [rule_task_exists; rule_not_self; rule_task_active]
  | rule_has_pending =>
      [rule_task_exists; rule_not_self; rule_task_active; rule_no_unfinished]
  end.

(** One pass of the loop of [abort_task] seen from one row of the table:
    the row is overwritten by each selected subtask that has its key. *)
Definition cancel_row (selected : list RequestedSubtask.t) (r : RequestedSubtask.t)
    : RequestedSubtask.t :=
  fold_left
    (λ r s, if bool_decide (RequestedSubtask.pk r = RequestedSubtask.pk s)
            then RequestedSubtask.with_status SubtaskStatus.cancelled s else r)
    selected r.

(** The subtasks [abort_task] selects for cancelling. *)
Definition abort_selected (task_id : TaskId) (rows : list RequestedSubtask.t)
    : list RequestedSubtask.t :=
  List.filter
    (λ r, bool_decide (RequestedSubtask.task r = task_id)
          && SubtaskStatus.is_active (RequestedSubtask.status r)) rows.

(** A concrete run: the scenario of the repository's tests. *)
Module Scenario.

Definition public_key : Key := PyBytes "0xdeadbeef".

(** Every outside call succeeds; [verify] answers [answer]. *)
Definition world (answer : bool) : World :=
  {| generate_id := "t1";
     default_now := 1000;
     enabled := λ _, true;
     client_create := Ok tt;
     app_create_task := Ok tt;
     app_has_pending_subtasks := Ok true;
     app_next_subtask := Ok (Subtask.mk "s1" "{}" []);
     app_verify := Ok answer;
     app_shutdown := Ok tt |}.

(** The same world with a second descriptor for [next_subtask]. *)
Definition world_s2 : World :=
  {| generate_id := "t1";
     default_now := 2000;
     enabled := λ _, true;
     client_create := Ok tt;
     app_create_task := Ok tt;
     app_has_pending_subtasks := Ok true;
     app_next_subtask := Ok (Subtask.mk "s2" "{}" []);
     app_verify := Ok true;
     app_shutdown := Ok tt |}.

Definition golem_params (max_subtasks : Z) : CreateTaskParams.t :=
  CreateTaskParams.mk "a" "a" "a" 1 1 "output" [] max_subtasks 1 false.

Definition provider : ComputingNode.t := ComputingNode.mk (PyStr "abc") "abc".

(** [create_task], [init_task], [start_task]. *)
Definition started_calls (max_subtasks : Z) : list (World * Call) :=
  [ (world true, call_create_task (golem_params max_subtasks) "{}");
    (world true, call_init_task "t1");
    (world true, call_start_task "t1") ].

Definition started (max_subtasks : Z) : RTM :=
  exec_all (started_calls max_subtasks) (init public_key).

(** ... then [get_next_subtask] for the provider: subtask [s1]. *)
Definition assigned_calls (max_subtasks : Z) : list (World * Call) :=
  started_calls max_subtasks
  ++ [ (world true, call_get_next_subtask "t1" provider) ].

Definition assigned (max_subtasks : Z) : RTM :=
  exec_all (assigned_calls max_subtasks) (init public_key).

(** ... then [verify] of [s1] with the application's answer. *)
Definition verified_calls (max_subtasks : Z) (answer : bool) : list (World * Call) :=
  assigned_calls max_subtasks ++ [ (world answer, call_verify "t1" "s1") ].

Definition verified (max_subtasks : Z) (answer : bool) : RTM :=
  exec_all (verified_calls max_subtasks answer) (init public_key).

(** [create_task] and [start_task] without [init_task]. *)
Definition uninitialized_calls : list (World * Call) :=
  [ (world true, call_create_task (golem_params 1) "{}");
    (world true, call_start_task "t1") ].

Definition uninitialized : RTM := exec_all uninitialized_calls (init public_key).

End Scenario.

(** The rows the scenario leaves in the two tables. *)
Module ScenarioRows.

Definition task_row (max_subtasks : Z) (status : TaskStatus.t) : RequestedTask.t :=
  {| RequestedTask.task_id := "t1";
     RequestedTask.app_id := "a";
     RequestedTask.name := "a";
     RequestedTask.status := status;
     RequestedTask.environment := "a";
     RequestedTask.task_timeout := 1;
     RequestedTask.subtask_timeout := 1;
     RequestedTask.start_time := 1000;
     RequestedTask.max_price_per_hour := 1;
     RequestedTask.max_subtasks := max_subtasks;
     RequestedTask.output_directory := "output";
     RequestedTask.resources := [];
     RequestedTask.app_params := "{}" |}.

Definition subtask_row (status : SubtaskStatus.t) : RequestedSubtask.t :=
  {| RequestedSubtask.task := "t1";
     RequestedSubtask.subtask_id := "s1";
     RequestedSubtask.status := status;
     RequestedSubtask.payload := "{}";
     RequestedSubtask.inputs := [];
     RequestedSubtask.start_time := 1000;
     RequestedSubtask.price := 1;
     RequestedSubtask.computing_node := PyStr "abc" |}.

(** The state after [create_task] alone. *)
Definition created : RTM :=
  exec_all [ (Scenario.world true, call_create_task (Scenario.golem_params 1) "{}") ]
    (init Scenario.public_key).

End ScenarioRows.

(** The scenario at the limits of a [get_next_subtask] that is admitted:
    an application that hands out an id a second time, and subtask
    timeouts beyond what [datetime] can represent. *)
Module ScenarioLimits.

Definition second_provider : ComputingNode.t := ComputingNode.mk (PyStr "xyz") "xyz".

(** One day more than [timedelta] spans, in milliseconds. *)
Definition timeout_beyond_timedelta : Z := 86400000000000000.

(** A duration [timedelta] holds, and that reaches past the year 9999
    from 1970 on. *)
Definition timeout_beyond_datetime : Z := 253402300799999.

Definition golem_params (subtask_timeout : Z) : CreateTaskParams.t :=
  CreateTaskParams.mk "a" "a" "a" 1 subtask_timeout "output" [] 1 1 false.

(** [create_task], [init_task], [start_task] with the given
    [subtask_timeout]. *)
Definition started_calls (subtask_timeout : Z) : list (World * Call) :=
  [ (Scenario.world true, call_create_task (golem_params subtask_timeout) "{}");
    (Scenario.world true, call_init_task "t1");
    (Scenario.world true, call_start_task "t1") ].

Definition started (subtask_timeout : Z) : RTM :=
  exec_all (started_calls subtask_timeout) (init Scenario.public_key).

End ScenarioLimits.

(** What one operation of the manager can do to the two tables. *)
Inductive db_step (σ σ' : RTM) : Prop :=
| step_none :
    tasks σ' = tasks σ → subtasks σ' = subtasks σ → db_step σ σ'
| step_task_created row :
    select_task (RequestedTask.task_id row) (tasks σ) = None →
    tasks σ' = tasks σ ++ [row] → subtasks σ' = subtasks σ → db_step σ σ'
| step_task_started t :
    select_task (RequestedTask.task_id t) (tasks σ) = Some t →
    TaskStatus.is_preparing (RequestedTask.status t) = true →
    tasks σ' = update_task (RequestedTask.with_status TaskStatus.waiting t) (tasks σ) →
    subtasks σ' = subtasks σ → db_step σ σ'
| step_subtask_created t row :
    select_task (RequestedSubtask.task row) (tasks σ) = Some t →
    RequestedSubtask.computing_node row ≠ _public_key σ →
    (∀ r, r ∈ subtasks σ → RequestedSubtask.pk r ≠ RequestedSubtask.pk row) →
    tasks σ' = tasks σ → subtasks σ' = subtasks σ ++ [row] → db_step σ σ'
| step_subtask_verified t s st :
    select_task (RequestedSubtask.task s) (tasks σ) = Some t →
    TaskStatus.is_active (RequestedTask.status t) = true →
    s ∈ subtasks σ →
    st ≠ SubtaskStatus.finished →
    tasks σ' = tasks σ →
    subtasks σ' = update_subtask (RequestedSubtask.with_status st s) (subtasks σ) →
    db_step σ σ'
| step_task_finished t s :
    select_task (RequestedSubtask.task s) (tasks σ) = Some t →
    TaskStatus.is_active (RequestedTask.status t) = true →
    s ∈ subtasks σ →
    tasks σ' = update_task (RequestedTask.with_status TaskStatus.finished t) (tasks σ) →
    subtasks σ'
      = update_subtask (RequestedSubtask.with_status SubtaskStatus.finished s)
          (subtasks σ) →
    db_step σ σ'
| step_task_aborted t :
    select_task (RequestedTask.task_id t) (tasks σ) = Some t →
    TaskStatus.is_active (RequestedTask.status t) = true →
    tasks σ' = update_task (RequestedTask.with_status TaskStatus.aborted t) (tasks σ) →
    subtasks σ'
      = map (cancel_row (abort_selected (RequestedTask.task_id t) (subtasks σ)))
          (subtasks σ) →
    db_step σ σ'.

(** The key of a subtask row (task and subtask id) is held by one row. *)
Definition keys_unique (σ : RTM) : Prop :=
  NoDup (map RequestedSubtask.pk (subtasks σ)).

(** Every subtask row belongs to a task of the store. *)
Definition subtasks_have_task (σ : RTM) : Prop :=
  ∀ r, r ∈ subtasks σ → is_Some (select_task (RequestedSubtask.task r) (tasks σ)).

(** No subtask row is assigned to the manager's own key. *)
Definition no_self_assignment (σ : RTM) : Prop :=
  ∀ r, r ∈ subtasks σ → RequestedSubtask.computing_node r ≠ _public_key σ.

Definition consistent (σ : RTM) : Prop :=
  keys_unique σ ∧ subtasks_have_task σ ∧ no_self_assignment σ.

(** The provider [node] holds a row of the task that is not finished, or
    that is finished in a task that is completed. *)
Definition blocked (task_id : TaskId) (node : Key) (σ : RTM) : Prop :=
  ∃ t r, select_task task_id (tasks σ) = Some t
         ∧ r ∈ subtasks σ
         ∧ RequestedSubtask.task r = task_id
         ∧ RequestedSubtask.computing_node r = node
         ∧ (RequestedSubtask.status r ≠ SubtaskStatus.finished
            ∨ TaskStatus.is_completed (RequestedTask.status t) = true).

(** ** The transitions of the store, in full

    What one operation does to the two tables, with what the operation
    checked before writing. *)
Inductive store_step (σ σ' : RTM) : Prop :=
| store_same :
    tasks σ' = tasks σ → subtasks σ' = subtasks σ → store_step σ σ'
| store_task_created row :
    select_task (RequestedTask.task_id row) (tasks σ) = None →
    RequestedTask.status row = TaskStatus.creating →
    tasks σ' = tasks σ ++ [row] → subtasks σ' = subtasks σ → store_step σ σ'
| store_task_started t :
    select_task (RequestedTask.task_id t) (tasks σ) = Some t →
    TaskStatus.is_preparing (RequestedTask.status t) = true →
    tasks σ' = update_task (RequestedTask.with_status TaskStatus.waiting t) (tasks σ) →
    subtasks σ' = subtasks σ → store_step σ σ'
| store_subtask_assigned t row :
    select_task (RequestedSubtask.task row) (tasks σ) = Some t →
    TaskStatus.is_active (RequestedTask.status t) = true →
    RequestedSubtask.status row = SubtaskStatus.starting →
    RequestedSubtask.computing_node row ≠ _public_key σ →
    tasks σ' = tasks σ → subtasks σ' = subtasks σ ++ [row] → store_step σ σ'
| store_subtask_verified t s st :
    select_task (RequestedSubtask.task s) (tasks σ) = Some t →
    TaskStatus.is_active (RequestedTask.status t) = true →
    s ∈ subtasks σ →
    st ≠ SubtaskStatus.finished →
    tasks σ' = tasks σ →
    subtasks σ' = update_subtask (RequestedSubtask.with_status st s) (subtasks σ) →
    store_step σ σ'
| store_task_finished t s :
    select_task (RequestedSubtask.task s) (tasks σ) = Some t →
    TaskStatus.is_active (RequestedTask.status t) = true →
    s ∈ subtasks σ →
    tasks σ' = update_task (RequestedTask.with_status TaskStatus.finished t) (tasks σ) →
    subtasks σ'
      = update_subtask (RequestedSubtask.with_status SubtaskStatus.finished s)
          (subtasks σ) →
    store_step σ σ'
| store_task_aborted t :
    select_task (RequestedTask.task_id t) (tasks σ) = Some t →
    TaskStatus.is_active (RequestedTask.status t) = true →
    tasks σ' = update_task (RequestedTask.with_status TaskStatus.aborted t) (tasks σ) →
    subtasks σ'
      = map (cancel_row (abort_selected (RequestedTask.task_id t) (subtasks σ)))
          (subtasks σ) →
    store_step σ σ'.

(** A task in [aborted] has no subtask in an active status. *)
Definition aborted_without_active (σ : RTM) : Prop :=
  ∀ task_id t r,
    select_task task_id (tasks σ) = Some t →
    RequestedTask.status t = TaskStatus.aborted →
    r ∈ subtasks σ → RequestedSubtask.task r = task_id →
    SubtaskStatus.is_active (RequestedSubtask.status r) = false.

(** A task in [finished] has a finished subtask. *)
Definition finished_with_finished (σ : RTM) : Prop :=
  ∀ task_id t,
    select_task task_id (tasks σ) = Some t →
    RequestedTask.status t = TaskStatus.finished →
    ∃ r, r ∈ subtasks σ ∧ RequestedSubtask.task r = task_id
         ∧ RequestedSubtask.status r = SubtaskStatus.finished.

(** Every subtask row belongs to a task that has left [creating]. *)
Definition subtasks_of_started (σ : RTM) : Prop :=
  ∀ r, r ∈ subtasks σ →
       ∃ t, select_task (RequestedSubtask.task r) (tasks σ) = Some t
            ∧ RequestedTask.status t ≠ TaskStatus.creating.

(** The tasks of an application that keep its client alive: those in the
    four statuses listed in [_shutdown_app_client]. *)
Definition app_has_active_task (app_id : string) (rows : list RequestedTask.t) : Prop :=
  ∃ r, r ∈ rows ∧ RequestedTask.app_id r = app_id
       ∧ TaskStatus.is_active (RequestedTask.status r) = true.

(** Further worlds of the scenario. *)
Module ScenarioWorlds.

(** The application raises on [verify]. *)
Definition verify_raises : World :=
  {| generate_id := "t1";
     default_now := 1000;
     enabled := λ _, true;
     client_create := Ok tt;
     app_create_task := Ok tt;
     app_has_pending_subtasks := Ok true;
     app_next_subtask := Ok (Subtask.mk "s1" "{}" []);
     app_verify := Raise (AppClientError "verify");
     app_shutdown := Ok tt |}.

(** The environment is not enabled. *)
Definition env_disabled : World :=
  {| generate_id := "t1";
     default_now := 1000;
     enabled := λ _, false;
     client_create := Ok tt;
     app_create_task := Ok tt;
     app_has_pending_subtasks := Ok true;
     app_next_subtask := Ok (Subtask.mk "s1" "{}" []);
     app_verify := Ok true;
     app_shutdown := Ok tt |}.

(** A second task ["t2"] of the same application. *)
Definition second_task : World :=
  {| generate_id := "t2";
     default_now := 3000;
     enabled := λ _, true;
     client_create := Ok tt;
     app_create_task := Ok tt;
     app_has_pending_subtasks := Ok true;
     app_next_subtask := Ok (Subtask.mk "s1" "{}" []);
     app_verify := Ok true;
     app_shutdown := Ok tt |}.

(** Two started tasks of application ["a"], the first with a subtask. *)
Definition two_tasks : RTM :=
  exec_all
    [ (second_task, call_create_task (Scenario.golem_params 1) "{}");
      (second_task, call_start_task "t2") ]
    (Scenario.assigned 1).

(** The row of task ["t2"] in [two_tasks]. *)
Definition second_row : RequestedTask.t :=
  {| RequestedTask.task_id := "t2";
     RequestedTask.app_id := "a";
     RequestedTask.name := "a";
     RequestedTask.status := TaskStatus.waiting;
     RequestedTask.environment := "a";
     RequestedTask.task_timeout := 1;
     RequestedTask.subtask_timeout := 1;
     RequestedTask.start_time := 3000;
     RequestedTask.max_price_per_hour := 1;
     RequestedTask.max_subtasks := 1;
     RequestedTask.output_directory := "output";
     RequestedTask.resources := [];
     RequestedTask.app_params := "{}" |}.

(** [create_task] then [init_task]: a client and no active task. *)
Definition initialized : RTM :=
  exec_all [ (Scenario.world true, call_init_task "t1") ] ScenarioRows.created.

(** The client the scenario creates for application ["a"]. *)
Definition client : RequestorAppClient :=
  {| client_service := {| service_env := "a" |} |}.

End ScenarioWorlds.

(** ** The pooling marketplace ([golem/marketplace/pooling_marketplace.py]) *)

Module RequestorPoolingMarketStrategy.

(** An offer: of [golem.marketplace.marketplace.Offer], which is not part
    of the source, the strategy reads only [task_id]; the rest is kept
    opaque. *)
Record Offer := mkOffer {
  task_id : string;
  rest : string;
}.

(** The class variable [_pools]. *)
Definition Pools := gmap string (list Offer).

(** [add]: an empty pool is made for a task seen for the first time, then
    the offer is appended to the task's pool. *)
Definition add (offer : Offer) (_pools : gmap string (list Offer))
    : gmap string (list Offer) :=
  let _pools :=
    if bool_decide (is_Some (_pools !! task_id offer)) then _pools
    else <[task_id offer := []]> _pools in
  alter (λ pool, pool ++ [offer]) (task_id offer) _pools.

Definition get_task_offer_count (task : string) (_pools : gmap string (list Offer))
    : nat :=
  match _pools !! task with
  | Some pool => length pool
  | None => 0%nat
  end.

(** [clear_offers_for_task]: the task's pool is popped when there is one. *)
Definition clear_offers_for_task (task : string) (_pools : gmap string (list Offer))
    : gmap string (list Offer) :=
  if bool_decide (is_Some (_pools !! task)) then delete task _pools else _pools.

Definition reset (_pools : gmap string (list Offer)) : gmap string (list Offer) := ∅.

End RequestorPoolingMarketStrategy.

(** * Properties *)

(** ** Rows addressed by [get] and [save] *)

Lemma select_task_Some task_id rows t :
  select_task task_id rows = Some t →
  RequestedTask.task_id t = task_id ∧ t ∈ rows.
Proof.
  unfold select_task. intros H. apply find_some in H as [Hin Hb].
  apply bool_decide_eq_true in Hb. split; [done|]. by apply list_elem_of_In.
Qed.

Lemma select_task_update_eq task_id rows t row :
  select_task task_id rows = Some t →
  RequestedTask.task_id row = task_id →
  select_task task_id (update_task row rows) = Some row.
Proof.
  unfold select_task, update_task. intros Hsel Hrow.
  induction rows as [|a rows IH]; simpl in *; [done|].
  subst task_id.
  destruct (decide (RequestedTask.task_id a = RequestedTask.task_id row)) as [E|E].
  - rewrite (bool_decide_true _ E). by rewrite bool_decide_true.
  - rewrite (bool_decide_false _ E) in Hsel |- *.
    rewrite (bool_decide_false _ E). by apply IH.
Qed.

Lemma select_task_update_ne task_id rows row :
  RequestedTask.task_id row ≠ task_id →
  select_task task_id (update_task row rows) = select_task task_id rows.
Proof.
  unfold select_task, update_task. intros Hrow.
  induction rows as [|a rows IH]; simpl; [done|].
  destruct (decide (RequestedTask.task_id a = RequestedTask.task_id row)) as [E|E].
  - rewrite (bool_decide_true _ E). simpl.
    rewrite (bool_decide_false _ Hrow).
    rewrite bool_decide_false by congruence. apply IH.
  - rewrite (bool_decide_false _ E). simpl. by rewrite IH.
Qed.

Lemma select_subtask_Some subtask_id rows s :
  select_subtask subtask_id rows = Some s →
  RequestedSubtask.subtask_id s = subtask_id ∧ s ∈ rows.
Proof.
  unfold select_subtask. intros H. apply find_some in H as [Hin Hb].
  apply bool_decide_eq_true in Hb. split; [done|]. by apply list_elem_of_In.
Qed.

Lemma select_subtask_update_eq subtask_id rows s row :
  select_subtask subtask_id rows = Some s →
  RequestedSubtask.pk row = RequestedSubtask.pk s →
  select_subtask subtask_id (update_subtask row rows) = Some row.
Proof.
  unfold select_subtask, update_subtask. intros Hsel Hpk.
  assert (Hsid : RequestedSubtask.subtask_id row = subtask_id).
  { apply select_subtask_Some in Hsel as [<- _].
    unfold RequestedSubtask.pk in Hpk. congruence. }
  induction rows as [|a rows IH]; simpl in *; [done|].
  destruct (decide (RequestedSubtask.subtask_id a = subtask_id)) as [Ha|Ha].
  - rewrite (bool_decide_true _ Ha) in Hsel. simplify_eq.
    rewrite (bool_decide_true (RequestedSubtask.pk s = RequestedSubtask.pk row))
      by (unfold RequestedSubtask.pk in *; congruence).
    by rewrite bool_decide_true.
  - rewrite (bool_decide_false _ Ha) in Hsel.
    rewrite (bool_decide_false (RequestedSubtask.pk a = RequestedSubtask.pk row)).
    2:{ unfold RequestedSubtask.pk. intros E. simplify_eq. }
    rewrite (bool_decide_false _ Ha). by apply IH.
Qed.

(** ** [start_task] *)

(** C6.  On an existing task, [start_task] raises [AlreadyStarted]
    exactly when the status is not preparing; otherwise it returns, the
    task's row has status [waiting], which is active, and a second
    [start_task] on the task raises [AlreadyStarted]. *)
Theorem start_task_AlreadyStarted_iff (σ : RTM) (task_id : TaskId) (t : RequestedTask.t) :
  select_task task_id (tasks σ) = Some t →
  ((start_task task_id σ).1 = Raise (AlreadyStarted task_id)
     ↔ TaskStatus.is_preparing (RequestedTask.status t) = false)
  ∧ (TaskStatus.is_preparing (RequestedTask.status t) = true →
     let σ' := (start_task task_id σ).2 in
     (start_task task_id σ).1 = Ok tt
     ∧ select_task task_id (tasks σ')
       = Some (RequestedTask.with_status TaskStatus.waiting t)
     ∧ TaskStatus.is_active TaskStatus.waiting = true
     ∧ start_task task_id σ' = (Raise (AlreadyStarted task_id), σ')).
Proof.
  intros Hsel.
  pose proof (select_task_Some _ _ _ Hsel) as [Hid _].
  unfold start_task, RequestedTask_get, RequestedTask_save, set_tasks, modify,
    bind, gets, ret, raise.
  rewrite Hsel.
  destruct (TaskStatus.is_preparing (RequestedTask.status t)) eqn:Hprep; simpl.
  - split; [split; discriminate|]. intros _.
    erewrite select_task_update_eq by eauto. simpl. done.
  - split; [done|]. discriminate.
Qed.

(** ** The application client map *)

Lemma _get_app_client_frame w app_id env_id σ :
  let σ' := (_get_app_client w app_id env_id σ).2 in
  _public_key σ' = _public_key σ ∧ tasks σ' = tasks σ ∧ subtasks σ' = subtasks σ
  ∧ ∃ evs, trace σ' = trace σ ++ evs ∧ no_shutdown evs.
Proof.
  unfold _get_app_client, _get_task_api_service, bind, gets, emit, modify, await,
    set_app_clients, ret, raise; simpl.
  destruct (_app_clients σ !! app_id); simpl.
  { repeat split; try done. exists []. rewrite app_nil_r. split; [done|].
    intros a. apply not_elem_of_nil. }
  destruct (enabled w env_id); simpl.
  - destruct (client_create w) as [[]|e]; simpl; repeat split; try done.
    all: exists [ev_enabled env_id; ev_client_create app_id env_id].
    all: rewrite <- app_assoc; split; [done|].
    all: intros a Ha; repeat (apply elem_of_cons in Ha as [Ha|Ha]; [done|]).
    all: by apply elem_of_nil in Ha.
  - repeat split; try done. exists [ev_enabled env_id]. split; [done|].
    intros a Ha. apply elem_of_cons in Ha as [Ha|Ha]; [done|].
    by apply elem_of_nil in Ha.
Qed.

Lemma _get_app_client_available w app_id env_id σ :
  client_available w σ app_id env_id →
  ∃ client, (_get_app_client w app_id env_id σ).1 = Ok client
            ∧ is_Some (_app_clients (_get_app_client w app_id env_id σ).2 !! app_id).
Proof.
  unfold client_available, _get_app_client, _get_task_api_service, bind, gets, emit,
    modify, await, set_app_clients, ret, raise; simpl.
  intros [[c Hc]|[Hen Hcr]].
  - rewrite Hc. simpl. exists c. rewrite Hc. eauto.
  - destruct (_app_clients σ !! app_id) as [c|] eqn:Hc; simpl.
    + exists c. rewrite Hc. eauto.
    + rewrite Hen, Hcr. simpl. eexists. split; [done|].
      rewrite lookup_insert_eq. eauto.
Qed.

(** Unfolding the monad: one step of symbolic execution. *)
Ltac mrun :=
  cbv beta iota delta
    [bind gets ret raise modify await emit set_tasks set_subtasks set_app_clients
     RequestedTask_get RequestedTask_save RequestedSubtask_get
     RequestedSubtask_save RequestedTask_create RequestedSubtask_create];
  cbn [fst snd _public_key _app_clients tasks subtasks trace].

Ltac mrun_in H :=
  cbv beta iota delta
    [bind gets ret raise modify await emit set_tasks set_subtasks set_app_clients
     RequestedTask_get RequestedTask_save RequestedSubtask_get
     RequestedSubtask_save RequestedTask_create RequestedSubtask_create] in H;
  cbn [fst snd _public_key _app_clients tasks subtasks trace] in H.

(** ** [init_task] *)

(** C7.  On an existing task, [init_task] raises [AlreadyInitialized]
    when the status is not [creating] and leaves the state as it was;
    whatever the application answers, the task table after [init_task] is
    the table before it, so a task in [creating] stays there: a further
    [init_task] whose outside calls succeed returns, and only
    [start_task] moves the task to [waiting]. *)
Theorem init_task_status_unchanged (w : World) (σ : RTM) (task_id : TaskId)
    (t : RequestedTask.t) :
  select_task task_id (tasks σ) = Some t →
  let σ' := (init_task w task_id σ).2 in
  (RequestedTask.status t ≠ TaskStatus.creating →
     init_task w task_id σ = (Raise (AlreadyInitialized task_id), σ))
  ∧ tasks σ' = tasks σ
  ∧ (RequestedTask.status t = TaskStatus.creating →
     select_task task_id (tasks σ') = Some t
     ∧ (∀ w', enabled w' (RequestedTask.environment t) = true →
              client_create w' = Ok tt → app_create_task w' = Ok tt →
              (init_task w' task_id σ').1 = Ok tt)
     ∧ select_task task_id (tasks (start_task task_id σ').2)
       = Some (RequestedTask.with_status TaskStatus.waiting t)).
Proof.
  intros Hsel.
  assert (Htasks : ∀ w0 σ0, tasks (init_task w0 task_id σ0).2 = tasks σ0).
  { intros w0 σ0. unfold init_task. mrun.
    destruct (select_task task_id (tasks σ0)) as [t0|]; [|done].
    case_bool_decide; [|done]. cbn [negb].
    match goal with |- context [_get_app_client ?w ?a ?e ?s] =>
      pose proof (_get_app_client_frame w a e s) as (_ & Ht & _);
      destruct (_get_app_client w a e s) as [[c|e0] σ2] end;
      simpl in Ht; [|done].
    by destruct (app_create_task w0). }
  simpl. split; [|split; [apply Htasks|]].
  - intros Hst. unfold init_task. mrun.
    rewrite Hsel. by rewrite bool_decide_false.
  - intros Hst. rewrite Htasks. split; [done|]. split.
    + intros w' Hen Hcr Hok.
      set (σ' := (init_task w task_id σ).2).
      assert (Hsel' : select_task task_id (tasks σ') = Some t)
        by (unfold σ'; by rewrite Htasks).
      unfold init_task. mrun. rewrite Hsel'.
      rewrite bool_decide_true by done. cbn [negb].
      match goal with |- context [_get_app_client ?w ?a ?e ?s] =>
        destruct (_get_app_client_available w a e s) as (c & Hc & _);
        [by right|];
        destruct (_get_app_client w a e s) as [[c'|e0] σ2] end;
        simpl in Hc; [|done].
      by rewrite Hok.
    + unfold start_task. mrun.
      rewrite Htasks, Hsel, Hst.
      cbn [TaskStatus.is_preparing negb tasks snd]. rewrite Htasks.
      apply select_task_Some in Hsel as Hid. destruct Hid as [Hid _].
      by erewrite select_task_update_eq.
Qed.

(** ** What each operation does to the two tables *)

Lemma _shutdown_app_client_frame w app_id σ :
  let σ' := (_shutdown_app_client w app_id σ).2 in
  _public_key σ' = _public_key σ ∧ tasks σ' = tasks σ ∧ subtasks σ' = subtasks σ.
Proof.
  unfold _shutdown_app_client. mrun.
  case_bool_decide; [|done].
  destruct (_app_clients σ !! app_id); [|done].
  by destruct (app_shutdown w).
Qed.

Lemma update_subtask_twice row1 row2 rows :
  RequestedSubtask.pk row1 = RequestedSubtask.pk row2 →
  update_subtask row2 (update_subtask row1 rows) = update_subtask row2 rows.
Proof.
  intros Hpk. unfold update_subtask. rewrite map_map. apply map_ext. intros r.
  destruct (decide (RequestedSubtask.pk r = RequestedSubtask.pk row1)) as [E|E].
  - rewrite (bool_decide_true _ E). rewrite !bool_decide_true; congruence.
  - by rewrite (bool_decide_false _ E).
Qed.

Lemma verify_effect w task_id subtask_id σ :
  let σ' := (verify w task_id subtask_id σ).2 in
  _public_key σ' = _public_key σ
  ∧ ((tasks σ' = tasks σ ∧ subtasks σ' = subtasks σ)
     ∨ ∃ t s,
         select_task task_id (tasks σ) = Some t
         ∧ TaskStatus.is_active (RequestedTask.status t) = true
         ∧ select_subtask subtask_id (subtasks σ) = Some s
         ∧ RequestedSubtask.task s = task_id
         ∧ ((∃ st, st ≠ SubtaskStatus.finished
                   ∧ subtasks σ' = update_subtask (RequestedSubtask.with_status st s)
                                     (subtasks σ)
                   ∧ tasks σ' = tasks σ)
            ∨ (subtasks σ'
               = update_subtask
                   (RequestedSubtask.with_status SubtaskStatus.finished s) (subtasks σ)
               ∧ tasks σ'
                 = update_task (RequestedTask.with_status TaskStatus.finished t)
                     (tasks σ)))).
Proof.
  unfold verify. mrun.
  destruct (select_task task_id (tasks σ)) as [t|] eqn:Hsel; [|by auto].
  pose proof (select_task_Some _ _ _ Hsel) as [Hid _].
  destruct (TaskStatus.is_active (RequestedTask.status t)) eqn:Hact;
    cbn [negb]; [|by auto].
  destruct (select_subtask subtask_id (subtasks σ)) as [s|] eqn:Hs; [|by auto].
  case_bool_decide as Hown; cbn [negb]; [|by auto].
  match goal with |- context [_get_app_client ?w ?a ?e ?s] =>
    pose proof (_get_app_client_frame w a e s) as (Hk & Ht & Hsub & _);
    destruct (_get_app_client w a e s) as [[c|e0] σ1] end;
    simpl in Hk, Ht, Hsub; [|by auto].
  rewrite Hk, Ht, Hsub.
  destruct (app_verify w) as [[]|e1].
  - cbn [truth].
    match goal with |- context [_shutdown_app_client ?w ?a ?s] =>
      pose proof (_shutdown_app_client_frame w a s) as (Hk' & Ht' & Hsub');
      destruct (_shutdown_app_client w a s) as [[u|e2] σ2] end;
      simpl in Hk', Ht', Hsub'.
    all: split; [done|right; exists t, s]; cbn [snd].
    all: rewrite Ht', Hsub', update_subtask_twice by done.
    all: repeat split; try done; try congruence.
    all: by right.
  - split; [done|]. right. exists t, s. cbn [snd subtasks tasks].
    repeat split; try done; try congruence.
    left. exists SubtaskStatus.failure. rewrite update_subtask_twice by done.
    done.
  - split; [done|]. right. exists t, s. cbn [snd subtasks tasks].
    repeat split; try done; try congruence.
    left. exists SubtaskStatus.verifying. done.
Qed.

(** ** [verify] *)

(** C3.  When the task is active, the subtask is a row of the task and
    the application answers [false] to [verify], the call returns
    [false], the subtask's row ends with status [failure], the task table
    is unchanged, so the task is still active, and no [shutdown] is
    sent to an application client. *)
Theorem verify_false_failure (w : World) (σ : RTM) (task_id : TaskId)
    (subtask_id : SubtaskId) (t : RequestedTask.t) (s : RequestedSubtask.t) :
  select_task task_id (tasks σ) = Some t →
  TaskStatus.is_active (RequestedTask.status t) = true →
  select_subtask subtask_id (subtasks σ) = Some s →
  RequestedSubtask.task s = task_id →
  client_available w σ (RequestedTask.app_id t) (RequestedTask.environment t) →
  app_verify w = Ok false →
  let σ' := (verify w task_id subtask_id σ).2 in
  (verify w task_id subtask_id σ).1 = Ok false
  ∧ select_subtask subtask_id (subtasks σ')
    = Some (RequestedSubtask.with_status SubtaskStatus.failure s)
  ∧ tasks σ' = tasks σ
  ∧ select_task task_id (tasks σ') = Some t
  ∧ (∃ evs, trace σ' = trace σ ++ evs ∧ no_shutdown evs)
  ∧ is_Some (_app_clients σ' !! RequestedTask.app_id t).
Proof.
  intros Hsel Hact Hs Hown Hav Hverify.
  pose proof (select_task_Some _ _ _ Hsel) as [Hid _].
  unfold verify. mrun. rewrite Hsel, Hact. cbn [negb]. rewrite Hs.
  rewrite bool_decide_true by congruence. cbn [negb].
  pose proof (_get_app_client_frame w (RequestedTask.app_id t)
                (RequestedTask.environment t) σ) as (_ & Ht & Hsub & evs & Htr & Hno).
  destruct (_get_app_client_available _ _ _ _ Hav) as (c & Hc & Hin).
  destruct (_get_app_client w _ _ σ) as [[c'|e0] σ1]; simpl in *; [|done].
  rewrite Hverify. cbn [fst snd tasks subtasks trace _app_clients].
  rewrite Ht, Hsub, Htr.
  split; [done|]. split.
  { rewrite update_subtask_twice by done.
    by eapply select_subtask_update_eq. }
  split; [done|]. split; [done|]. split; [|done].
  exists (evs ++ [ev_verify (RequestedTask.app_id t) (RequestedTask.task_id t) subtask_id;
                  ev_timer_finish subtask_id]).
  split; [by rewrite <- !app_assoc|].
  intros a Ha. apply elem_of_app in Ha as [Ha|Ha]; [by eapply Hno|].
  repeat (apply elem_of_cons in Ha as [Ha|Ha]; [done|]).
  by apply elem_of_nil in Ha.
Qed.

(** ** [get_next_subtask] *)

Lemma List_filter_decide {A} (P : A → Prop) `{!∀ x, Decision (P x)}
    (f : A → bool) (l : list A) :
  (∀ x, f x = bool_decide (P x)) → List.filter f l = filter P l.
Proof.
  intros Hf. induction l as [|a l IH]; [done|].
  rewrite filter_cons. cbn [List.filter]. rewrite Hf, IH.
  unfold bool_decide, decide. by destruct (H a).
Qed.

Lemma _get_unfinished_subtasks_count task_id computing_node σ :
  _get_unfinished_subtasks task_id computing_node σ
  = (Ok (Z.of_nat (unfinished_of_provider task_id computing_node (subtasks σ))), σ).
Proof.
  unfold _get_unfinished_subtasks, unfinished_of_provider, scalar. mrun.
  do 3 f_equal. cbn [where_]. f_equal. apply List_filter_decide. intros r.
  rewrite !bool_decide_and, bool_decide_not. by rewrite andb_assoc.
Qed.

Lemma _get_app_client_present w app_id env_id σ client :
  _app_clients σ !! app_id = Some client →
  _get_app_client w app_id env_id σ = (Ok client, σ).
Proof. intros H. unfold _get_app_client. mrun. by rewrite H. Qed.

Lemma has_pending_subtasks_frame w task_id σ :
  let σ' := (has_pending_subtasks w task_id σ).2 in
  _public_key σ' = _public_key σ ∧ tasks σ' = tasks σ ∧ subtasks σ' = subtasks σ.
Proof.
  unfold has_pending_subtasks. mrun.
  destruct (select_task task_id (tasks σ)) as [t|]; [|done].
  match goal with |- context [_get_app_client ?w ?a ?e ?s] =>
    pose proof (_get_app_client_frame w a e s) as (Hk & Ht & Hsub & _);
    destruct (_get_app_client w a e s) as [[c|e0] σ1] end;
    simpl in Hk, Ht, Hsub; [|done].
  by destruct (app_has_pending_subtasks w).
Qed.

Lemma has_pending_subtasks_Ok w task_id σ t b :
  select_task task_id (tasks σ) = Some t →
  (has_pending_subtasks w task_id σ).1 = Ok b →
  is_Some (_app_clients (has_pending_subtasks w task_id σ).2 !! RequestedTask.app_id t).
Proof.
  unfold has_pending_subtasks. mrun. intros ->.
  pose proof (_get_app_client_frame w (RequestedTask.app_id t)
                (RequestedTask.environment t) σ) as _.
  unfold _get_app_client, _get_task_api_service. mrun.
  destruct (_app_clients σ !! RequestedTask.app_id t) as [c|] eqn:Hc.
  - destruct (app_has_pending_subtasks w); [|done]. simpl. rewrite Hc. eauto.
  - destruct (enabled w (RequestedTask.environment t)); cbn [negb]; [|done].
    destruct (client_create w) as [[]|]; [|done].
    destruct (app_has_pending_subtasks w); [|done]. simpl.
    rewrite lookup_insert_eq. eauto.
Qed.

Lemma get_next_subtask_not_active w σ task_id computing_node t :
  select_task task_id (tasks σ) = Some t →
  ComputingNode.node_id computing_node ≠ _public_key σ →
  TaskStatus.is_active (RequestedTask.status t) = false →
  get_next_subtask w task_id computing_node σ
  = (Raise (AssignmentRefused rule_task_active task_id), σ).
Proof.
  intros Ht Hself Hact. unfold get_next_subtask. mrun.
  by rewrite Ht, (bool_decide_false _ Hself), Hact.
Qed.

Lemma get_next_subtask_unfinished w σ task_id computing_node t :
  select_task task_id (tasks σ) = Some t →
  ComputingNode.node_id computing_node ≠ _public_key σ →
  TaskStatus.is_active (RequestedTask.status t) = true →
  unfinished_of_provider task_id computing_node (subtasks σ) ≠ 0%nat →
  get_next_subtask w task_id computing_node σ
  = (Raise (AssignmentRefused rule_no_unfinished task_id), σ).
Proof.
  intros Ht Hself Hact Hcnt. unfold get_next_subtask. mrun.
  rewrite Ht, (bool_decide_false _ Hself), Hact. cbn [negb].
  rewrite _get_unfinished_subtasks_count.
  destruct (Z.ltb_spec 0
    (Z.of_nat (unfinished_of_provider task_id computing_node (subtasks σ))));
    [done|lia].
Qed.

(** C4.  The admission rules are checked in the order of the
    specification: when the rules listed before a rule hold and that rule
    is violated, [get_next_subtask] raises the [AssignmentRefused] of that
    rule and the subtask table is left as it was. *)
Theorem get_next_subtask_first_violation (w : World) (σ : RTM) (task_id : TaskId)
    (computing_node : ComputingNode.t) (rule : Rule) :
  (∀ r, r ∈ rules_before rule → rule_holds w σ task_id computing_node r) →
  rule_violated w σ task_id computing_node rule →
  (get_next_subtask w task_id computing_node σ).1
    = Raise (AssignmentRefused rule task_id)
  ∧ subtasks (get_next_subtask w task_id computing_node σ).2 = subtasks σ.
Proof.
  intros Hbefore Hviol.
  unfold get_next_subtask. mrun.
  destruct rule; simpl in Hviol.
  - by rewrite Hviol.
  - destruct (Hbefore rule_task_exists) as [t Ht]; [set_solver|].
    rewrite Ht. by rewrite bool_decide_true.
  - destruct Hviol as (t & Ht & Hact).
    pose proof (Hbefore rule_not_self ltac:(set_solver)) as Hself. simpl in Hself.
    rewrite Ht, (bool_decide_false _ Hself), Hact. done.
  - destruct (Hbefore rule_task_active ltac:(set_solver)) as (t & Ht & Hact).
    pose proof (Hbefore rule_not_self ltac:(set_solver)) as Hself. simpl in Hself.
    pose proof (get_next_subtask_unfinished w σ task_id computing_node t
                  Ht Hself Hact Hviol) as Hrun.
    unfold get_next_subtask in Hrun. mrun_in Hrun. by rewrite Hrun.
  - destruct (Hbefore rule_task_active ltac:(set_solver)) as (t & Ht & Hact).
    pose proof (Hbefore rule_not_self ltac:(set_solver)) as Hself. simpl in Hself.
    pose proof (Hbefore rule_no_unfinished ltac:(set_solver)) as Hcnt.
    simpl in Hcnt.
    rewrite Ht, (bool_decide_false _ Hself), Hact. cbn [negb].
    rewrite _get_unfinished_subtasks_count, Hcnt.
    change (0 <? Z.of_nat 0)%Z with false. cbv beta iota.
    pose proof (has_pending_subtasks_frame w task_id σ) as (_ & _ & Hsub).
    destruct (has_pending_subtasks w task_id σ) as [[b|e] σ1]; simpl in *;
      [|done].
    by simplify_eq.
Qed.

(** ** Dates *)

Lemma timedelta_milliseconds_Ok (n : Z) :
  (- timedelta_max_days ≤ 1000 * n / microseconds_per_day ≤ timedelta_max_days)%Z →
  timedelta_milliseconds n = Ok (1000 * n)%Z.
Proof.
  intros [Hlo Hhi]. unfold timedelta_milliseconds. cbv zeta.
  apply Z.leb_le in Hlo, Hhi. by rewrite Hlo, Hhi.
Qed.

Lemma datetime_add_Ok (date delta : Z) :
  (datetime_min ≤ date + delta ≤ datetime_max)%Z →
  datetime_add date delta = Ok (date + delta)%Z.
Proof.
  intros [Hlo Hhi]. unfold datetime_add. cbv zeta.
  apply Z.leb_le in Hlo, Hhi. by rewrite Hlo, Hhi.
Qed.

Lemma timedelta_milliseconds_inv (n : Z) (r : Result Z) :
  timedelta_milliseconds n = r →
  r = Ok (1000 * n)%Z ∨ r = Raise OverflowError.
Proof.
  intros <-. unfold timedelta_milliseconds. cbv zeta.
  destruct (_ && _); auto.
Qed.

Lemma datetime_add_inv (date delta : Z) (r : Result Z) :
  datetime_add date delta = r →
  r = Ok (date + delta)%Z ∨ r = Raise OverflowError.
Proof.
  intros <-. unfold datetime_add. cbv zeta.
  destruct (_ && _); auto.
Qed.

(** C5.  When every admission rule holds, the application answers
    [next_subtask] with a descriptor, the descriptor's id is not yet a
    subtask of the task, and [start_time] plus [subtask_timeout]
    milliseconds is a date ([subtask_timeout] milliseconds within the
    range of [timedelta], the sum within the range of [datetime]),
    [get_next_subtask] appends one row with status [starting], the
    descriptor's params as payload and resources as inputs, the task's
    [max_price_per_hour] as price and the given provider as computing
    node, and returns the definition with the row's id, resources and
    params and the deadline [start_time] plus [subtask_timeout]
    milliseconds. *)
Theorem get_next_subtask_success (w : World) (σ : RTM) (task_id : TaskId)
    (computing_node : ComputingNode.t) (t : RequestedTask.t) (d : Subtask.t) :
  select_task task_id (tasks σ) = Some t →
  (∀ rule, rule_holds w σ task_id computing_node rule) →
  app_next_subtask w = Ok d →
  (∀ r, r ∈ subtasks σ →
        RequestedSubtask.pk r ≠ (task_id, Subtask.subtask_id d)) →
  (- timedelta_max_days
    ≤ 1000 * RequestedTask.subtask_timeout t / microseconds_per_day
    ≤ timedelta_max_days)%Z →
  (datetime_min
    ≤ default_now w + 1000 * RequestedTask.subtask_timeout t
    ≤ datetime_max)%Z →
  let row :=
    {| RequestedSubtask.task := task_id;
       RequestedSubtask.subtask_id := Subtask.subtask_id d;
       RequestedSubtask.status := SubtaskStatus.starting;
       RequestedSubtask.payload := Subtask.params d;
       RequestedSubtask.inputs := Subtask.resources d;
       RequestedSubtask.start_time := default_now w;
       RequestedSubtask.price := RequestedTask.max_price_per_hour t;
       RequestedSubtask.computing_node := ComputingNode.node_id computing_node |} in
  let σ' := (get_next_subtask w task_id computing_node σ).2 in
  (get_next_subtask w task_id computing_node σ).1
    = Ok {| SubtaskDefinition.subtask_id := Subtask.subtask_id d;
            SubtaskDefinition.resources := Subtask.resources d;
            SubtaskDefinition.params := Subtask.params d;
            SubtaskDefinition.deadline :=
              default_now w + 1000 * RequestedTask.subtask_timeout t |}
  ∧ subtasks σ' = subtasks σ ++ [row]
  ∧ tasks σ' = tasks σ
  ∧ ev_timer_start (Subtask.subtask_id d) ∈ trace σ'.
Proof.
  intros Ht Hrules Hnext Hfresh Hdelta Hdate.
  pose proof (select_task_Some _ _ _ Ht) as [Hid _].
  pose proof (Hrules rule_not_self) as Hself.
  destruct (Hrules rule_task_active) as (t' & Ht' & Hact).
  pose proof (Hrules rule_no_unfinished) as Hcnt.
  pose proof (Hrules rule_has_pending) as Hpend.
  simpl in Hself, Hcnt, Hpend. simplify_eq.
  unfold get_next_subtask. mrun.
  rewrite Ht, (bool_decide_false _ Hself), Hact. cbn [negb].
  rewrite _get_unfinished_subtasks_count, Hcnt.
  change (0 <? Z.of_nat 0)%Z with false. cbv beta iota.
  pose proof (has_pending_subtasks_frame w (RequestedTask.task_id t) σ)
    as (_ & Htasks & Hsub).
  destruct (has_pending_subtasks_Ok _ _ _ _ _ Ht Hpend) as [c Hc].
  destruct (has_pending_subtasks w (RequestedTask.task_id t) σ) as [[b|e] σ1];
    simpl in *; [|done].
  simplify_eq. cbn [negb].
  rewrite (_get_app_client_present _ _ _ _ _ Hc), Hnext.
  cbn [tasks subtasks trace]. rewrite Hsub.
  match goal with |- context [List.existsb ?f ?l] =>
    assert (Hex : List.existsb f l = false) end.
  { destruct (List.existsb _ _) eqn:E; [|done].
    apply existsb_exists in E as (r & Hin & Hr).
    apply bool_decide_eq_true in Hr. apply list_elem_of_In in Hin.
    by destruct (Hfresh r Hin). }
  rewrite Hex. cbv beta iota. cbn [RequestedSubtask.start_time].
  rewrite (timedelta_milliseconds_Ok _ Hdelta). cbv beta iota.
  rewrite (datetime_add_Ok _ _ Hdate). cbn.
  repeat split; try done.
  apply elem_of_app. right. apply elem_of_cons. by left.
Qed.

(** ** [abort_task] *)

Lemma for_each_spec {A} (xs : list A) (body : A → M unit) (f : A → RTM → RTM) σ :
  (∀ x σ0, body x σ0 = (Ok tt, f x σ0)) →
  for_each xs body σ = (Ok tt, fold_left (λ σ0 x, f x σ0) xs σ).
Proof.
  intros Hbody. revert σ. induction xs as [|x xs IH]; intros σ; [done|].
  cbn [for_each fold_left]. unfold bind. rewrite Hbody. apply IH.
Qed.

Lemma cancel_loop_state (selected : list RequestedSubtask.t) σ :
  let σ' :=
    fold_left
      (λ σ0 s,
         mkRTM (_public_key σ0) (_app_clients σ0) (tasks σ0)
           (update_subtask (RequestedSubtask.with_status SubtaskStatus.cancelled s)
              (subtasks σ0))
           (trace σ0 ++ [ev_timer_finish (RequestedSubtask.subtask_id s)]))
      selected σ in
  _public_key σ' = _public_key σ ∧ _app_clients σ' = _app_clients σ
  ∧ tasks σ' = tasks σ
  ∧ subtasks σ' = map (cancel_row selected) (subtasks σ).
Proof.
  revert σ. induction selected as [|s selected IH]; intros σ.
  - simpl. by rewrite map_id.
  - cbn [fold_left].
    match goal with |- context [fold_left ?f selected ?σ1] =>
      destruct (IH σ1) as (Hk & Hc & Ht & Hs) end.
    cbn zeta. rewrite Hk, Hc, Ht, Hs. repeat split; try done.
    cbn [subtasks]. unfold update_subtask. rewrite map_map.
    apply map_ext. intros r. done.
Qed.

Lemma cancel_row_pk selected r :
  RequestedSubtask.pk (cancel_row selected r) = RequestedSubtask.pk r.
Proof.
  revert r. induction selected as [|s selected IH]; intros r; [done|].
  unfold cancel_row in *. cbn [fold_left]. rewrite IH.
  case_bool_decide as E; [|done]. by rewrite E.
Qed.

Lemma cancel_row_cancelled selected r :
  RequestedSubtask.status r = SubtaskStatus.cancelled →
  RequestedSubtask.status (cancel_row selected r) = SubtaskStatus.cancelled.
Proof.
  revert r. induction selected as [|s selected IH]; intros r Hr; [done|].
  unfold cancel_row in *. cbn [fold_left]. apply IH.
  by case_bool_decide.
Qed.

Lemma cancel_row_id_or_cancelled selected r :
  cancel_row selected r = r
  ∨ RequestedSubtask.status (cancel_row selected r) = SubtaskStatus.cancelled.
Proof.
  revert r. induction selected as [|s selected IH]; intros r; [by left|].
  unfold cancel_row in *. cbn [fold_left].
  case_bool_decide as E; [|apply IH].
  right. by apply (cancel_row_cancelled selected).
Qed.

Lemma cancel_row_selected selected r s :
  s ∈ selected → RequestedSubtask.pk s = RequestedSubtask.pk r →
  RequestedSubtask.status (cancel_row selected r) = SubtaskStatus.cancelled.
Proof.
  revert r. induction selected as [|a selected IH]; intros r Hin Hpk.
  - by apply elem_of_nil in Hin.
  - unfold cancel_row in *. cbn [fold_left].
    apply elem_of_cons in Hin as [->|Hin].
    + rewrite bool_decide_true by done.
      by apply (cancel_row_cancelled selected).
    + apply IH; [done|]. case_bool_decide as E; [|done].
      by rewrite Hpk, E.
Qed.

Lemma cancel_row_other selected r :
  (∀ s, s ∈ selected → RequestedSubtask.pk s ≠ RequestedSubtask.pk r) →
  cancel_row selected r = r.
Proof.
  revert r. induction selected as [|a selected IH]; intros r Hne; [done|].
  unfold cancel_row in *. cbn [fold_left].
  rewrite bool_decide_false.
  - apply IH. intros s Hs. apply Hne. by right.
  - intros E. eapply Hne; [by left|done].
Qed.

Lemma SubtaskStatus_is_active_list (s : SubtaskStatus.t) :
  bool_decide (s ∈ [SubtaskStatus.starting; SubtaskStatus.downloading;
                    SubtaskStatus.verifying])
  = SubtaskStatus.is_active s.
Proof. by destruct s; vm_compute. Qed.

Lemma abort_task_effect w task_id σ :
  let σ' := (abort_task w task_id σ).2 in
  _public_key σ' = _public_key σ
  ∧ ((tasks σ' = tasks σ ∧ subtasks σ' = subtasks σ)
     ∨ ∃ t, select_task task_id (tasks σ) = Some t
            ∧ TaskStatus.is_active (RequestedTask.status t) = true
            ∧ tasks σ'
              = update_task (RequestedTask.with_status TaskStatus.aborted t) (tasks σ)
            ∧ subtasks σ'
              = map (cancel_row (abort_selected task_id (subtasks σ))) (subtasks σ)).
Proof.
  unfold abort_task. mrun.
  destruct (select_task task_id (tasks σ)) as [t|] eqn:Hsel; [|by auto].
  pose proof (select_task_Some _ _ _ Hsel) as [Hid _].
  destruct (TaskStatus.is_active (RequestedTask.status t)) eqn:Hact;
    cbn [negb]; [|by auto].
  erewrite for_each_spec by (intros; reflexivity).
  match goal with |- context [fold_left ?f ?sel ?σ1] =>
    pose proof (cancel_loop_state sel σ1) as HL; cbn zeta in HL;
    set (σL := fold_left f sel σ1) in *;
    cbn [tasks subtasks _public_key _app_clients] in HL;
    destruct HL as (Hk & Hc & Ht & Hs)
  end.
  clearbody σL.
  match goal with |- context [_shutdown_app_client ?w ?a ?s] =>
    destruct (_shutdown_app_client_frame w a s) as (Hk' & Ht' & Hs');
    destruct (_shutdown_app_client w a s) as [[u|e] σ2]
  end.
  all: cbn [snd] in *; split; [congruence|].
  all: right; exists t; repeat split; try done; try congruence.
  all: rewrite Hs', Hs; unfold execute, abort_selected; cbn [where_].
  all: f_equal; f_equal; apply filter_ext; intros r.
  all: rewrite SubtaskStatus_is_active_list; by rewrite <- Hid.
Qed.

Lemma abort_selected_elem task_id rows r :
  r ∈ abort_selected task_id rows
  ↔ r ∈ rows ∧ RequestedSubtask.task r = task_id
    ∧ SubtaskStatus.is_active (RequestedSubtask.status r) = true.
Proof.
  unfold abort_selected. rewrite list_elem_of_In, filter_In, <- list_elem_of_In.
  rewrite andb_true_iff, bool_decide_eq_true. tauto.
Qed.

(** C8.  On an existing task, [abort_task] raises [TaskNotActive] when
    the task is not active and changes nothing; when the task is active,
    whether the teardown that follows returns or raises, the task's row
    has status [aborted], every row that was a subtask of the task with
    status [starting], [downloading] or [verifying] has status
    [cancelled], the subtasks of other tasks are as they were, and no
    subtask of the aborted task is left in an active status. *)
Theorem abort_task_cancels_active (w : World) (σ : RTM) (task_id : TaskId)
    (t : RequestedTask.t) :
  select_task task_id (tasks σ) = Some t →
  let σ' := (abort_task w task_id σ).2 in
  (TaskStatus.is_active (RequestedTask.status t) = false →
     abort_task w task_id σ = (Raise (TaskNotActive_abort task_id), σ))
  ∧ (TaskStatus.is_active (RequestedTask.status t) = true →
     select_task task_id (tasks σ')
       = Some (RequestedTask.with_status TaskStatus.aborted t)
     ∧ (∀ i r, subtasks σ !! i = Some r →
          ∃ r', subtasks σ' !! i = Some r'
                ∧ RequestedSubtask.pk r' = RequestedSubtask.pk r
                ∧ (RequestedSubtask.task r = task_id →
                   RequestedSubtask.status r ∈
                     [SubtaskStatus.starting; SubtaskStatus.downloading;
                      SubtaskStatus.verifying] →
                   RequestedSubtask.status r' = SubtaskStatus.cancelled)
                ∧ (RequestedSubtask.task r ≠ task_id → r' = r))
     ∧ (∀ r', r' ∈ subtasks σ' → RequestedSubtask.task r' = task_id →
          SubtaskStatus.is_active (RequestedSubtask.status r') = false)).
Proof.
  intros Hsel. cbn zeta. split.
  { intros Hact. unfold abort_task. mrun. by rewrite Hsel, Hact. }
  intros Hact.
  pose proof (select_task_Some _ _ _ Hsel) as [Hid _].
  destruct (abort_task_effect w task_id σ) as (_ & [[Ht Hs]|(t' & Ht' & _ & Ht & Hs)]).
  { exfalso. revert Ht. unfold abort_task. mrun. rewrite Hsel, Hact. cbn [negb].
    erewrite for_each_spec by (intros; reflexivity).
    match goal with |- context [fold_left ?f ?sel ?σ1] =>
      pose proof (cancel_loop_state sel σ1) as HL; cbn zeta in HL;
      set (σL := fold_left f sel σ1) in *;
      cbn [tasks subtasks _public_key _app_clients] in HL;
      destruct HL as (_ & _ & Ht1 & _)
    end.
    clearbody σL.
    match goal with |- context [_shutdown_app_client ?w ?a ?s] =>
      destruct (_shutdown_app_client_frame w a s) as (_ & Ht2 & _);
      destruct (_shutdown_app_client w a s) as [[u|e] σ2]
    end.
    all: cbn [snd tasks] in *; rewrite Ht2, Ht1; intros E.
    all: pose proof (select_task_update_eq _ _ _
           (RequestedTask.with_status TaskStatus.aborted t) Hsel Hid) as Hnew.
    all: rewrite E, Hsel in Hnew; simplify_eq.
    all: by destruct t as [? ? ? []]. }
  simplify_eq. rewrite Ht, Hs. split; [by eapply select_task_update_eq|].
  set (sel := abort_selected (RequestedTask.task_id t) (subtasks σ)).
  split.
  - intros i r Hi. exists (cancel_row sel r).
    rewrite list_lookup_fmap, Hi. split; [done|].
    split; [apply cancel_row_pk|]. split.
    + intros Htask Hst. apply (cancel_row_selected sel r r); [|done].
      apply abort_selected_elem. split; [by eapply list_elem_of_lookup_2|].
      split; [done|]. rewrite <- SubtaskStatus_is_active_list.
      by apply bool_decide_eq_true.
    + intros Hne. apply cancel_row_other. intros s Hs' Hpk.
      apply abort_selected_elem in Hs' as (_ & Htask & _).
      unfold RequestedSubtask.pk in Hpk. congruence.
  - intros r' Hin Htask.
    apply list_elem_of_fmap in Hin as (r & -> & Hin).
    destruct (SubtaskStatus.is_active _) eqn:Hra; [exfalso|done].
    destruct (cancel_row_id_or_cancelled sel r) as [E|E].
    + rewrite E in Htask, Hra.
      assert (Hsel' : r ∈ sel) by (by apply abort_selected_elem).
      pose proof (cancel_row_selected sel r r Hsel' eq_refl) as Hc.
      rewrite E in Hc. by rewrite Hc in Hra.
    + by rewrite E in Hra.
Qed.

(** ** Reachable states and the completion test of [verify] *)

Lemma reachable_exec_all public_key calls : reachable public_key (exec_all calls (init public_key)).
Proof. by exists calls. Qed.

Lemma exec_all_app calls1 calls2 σ :
  exec_all (calls1 ++ calls2) σ = exec_all calls2 (exec_all calls1 σ).
Proof. apply fold_left_app. Qed.

(** When [verify] gets [true] from the application, the task's row is
    set to [finished] whatever the number of finished subtasks is. *)
Lemma verify_true_task_finished (w : World) (σ : RTM) (task_id : TaskId)
    (subtask_id : SubtaskId) (t : RequestedTask.t) (s : RequestedSubtask.t) :
  select_task task_id (tasks σ) = Some t →
  TaskStatus.is_active (RequestedTask.status t) = true →
  select_subtask subtask_id (subtasks σ) = Some s →
  RequestedSubtask.task s = task_id →
  client_available w σ (RequestedTask.app_id t) (RequestedTask.environment t) →
  app_verify w = Ok true →
  let σ' := (verify w task_id subtask_id σ).2 in
  select_subtask subtask_id (subtasks σ')
    = Some (RequestedSubtask.with_status SubtaskStatus.finished s)
  ∧ select_task task_id (tasks σ')
    = Some (RequestedTask.with_status TaskStatus.finished t).
Proof.
  intros Hsel Hact Hs Hown Hav Hverify.
  pose proof (select_task_Some _ _ _ Hsel) as [Hid _].
  destruct (verify_effect w task_id subtask_id σ) as (_ & Heff).
  revert Heff. unfold verify. mrun. rewrite Hsel, Hact. cbn [negb]. rewrite Hs.
  rewrite bool_decide_true by congruence. cbn [negb].
  destruct (_get_app_client_available _ _ _ _ Hav) as (c & Hc & _).
  pose proof (_get_app_client_frame w (RequestedTask.app_id t)
                (RequestedTask.environment t) σ) as (_ & Ht & Hsub & _).
  destruct (_get_app_client w _ _ σ) as [[c'|e0] σ1]; simpl in Hc, Ht, Hsub; [|done].
  rewrite Hverify. cbn [truth].
  match goal with |- context [_shutdown_app_client ?w ?a ?s] =>
    pose proof (_shutdown_app_client_frame w a s) as (_ & Ht' & Hsub');
    destruct (_shutdown_app_client w a s) as [[u|e2] σ2] end.
  all: cbn [snd tasks subtasks] in *; intros _; rewrite Ht', Hsub', Ht, Hsub.
  all: rewrite update_subtask_twice by done.
  all: split; [by eapply select_subtask_update_eq|by eapply select_task_update_eq].
Qed.

(** C1.  A task of two subtasks, one of them assigned: when the
    application answers [true] to [verify], the subtask is finished, one
    subtask of the task is finished, which is less than [max_subtasks],
    and yet the task's row is set to [finished] and the application
    client is shut down. *)
Theorem verify_true_finishes_task_below_max_subtasks :
  let σ := Scenario.assigned 2 in
  let run := verify (Scenario.world true) "t1" "s1" σ in
  (RequestedTask.status <$> select_task "t1" (tasks σ)) = Some TaskStatus.waiting
  ∧ (RequestedTask.max_subtasks <$> select_task "t1" (tasks σ)) = Some 2
  ∧ run.1 = Ok true
  ∧ (RequestedSubtask.status <$> select_subtask "s1" (subtasks run.2))
    = Some SubtaskStatus.finished
  ∧ finished_count "t1" (subtasks run.2) = 1
  ∧ (RequestedTask.status <$> select_task "t1" (tasks run.2))
    = Some TaskStatus.finished
  ∧ trace run.2 = trace σ ++ [ev_verify "a" "t1" "s1"; ev_timer_finish "s1";
                              ev_shutdown "a"].
Proof. vm_compute. done. Qed.

(** C2.  A reachable state in which a task is [finished] while the
    number of its finished subtasks is below its [max_subtasks]. *)
Theorem finished_task_below_max_subtasks_reachable :
  let σ := Scenario.verified 2 true in
  reachable Scenario.public_key σ
  ∧ ∃ t, select_task "t1" (tasks σ) = Some t
         ∧ RequestedTask.status t = TaskStatus.finished
         ∧ finished_count "t1" (subtasks σ) = 1
         ∧ RequestedTask.max_subtasks t = 2
         ∧ ¬ (finished_count "t1" (subtasks σ) >= RequestedTask.max_subtasks t).
Proof.
  split; [apply reachable_exec_all|].
  eexists. split; [vm_compute; reflexivity|]. repeat split. by vm_compute.
Qed.

(** ** The teardown sweep on an absent client *)

Lemma TaskStatus_is_active_list (s : TaskStatus.t) :
  bool_decide (s ∈ [TaskStatus.sending; TaskStatus.waiting;
                    TaskStatus.starting; TaskStatus.computing])
  = TaskStatus.is_active s.
Proof. by destruct s; vm_compute. Qed.

(** The sweep raises [KeyError] when no task of the application is left
    in the four listed statuses and the map has no entry for it. *)
Lemma _shutdown_app_client_KeyError w app_id σ :
  (∀ r, r ∈ tasks σ → RequestedTask.app_id r = app_id →
        TaskStatus.is_active (RequestedTask.status r) = false) →
  _app_clients σ !! app_id = None →
  _shutdown_app_client w app_id σ = (Raise (KeyError app_id), σ).
Proof.
  intros Hnone Hc. unfold _shutdown_app_client, scalar. mrun. cbn [where_].
  match goal with |- context [List.filter ?f ?l] =>
    assert (Hf : List.filter f l = []) end.
  { induction (tasks σ) as [|r l IH]; [done|]. cbn [List.filter].
    rewrite TaskStatus_is_active_list.
    case_bool_decide as E; cbn [andb].
    - rewrite (Hnone r) by (done || by left). apply IH.
      intros r' Hr'. apply Hnone. by right.
    - apply IH. intros r' Hr'. apply Hnone. by right. }
  rewrite Hf. cbn [length Z.of_nat]. rewrite bool_decide_true by done.
  by rewrite Hc.
Qed.

Lemma abort_task_KeyError (w : World) (σ : RTM) (task_id : TaskId)
    (t : RequestedTask.t) :
  select_task task_id (tasks σ) = Some t →
  TaskStatus.is_active (RequestedTask.status t) = true →
  _app_clients σ !! RequestedTask.app_id t = None →
  (∀ r, r ∈ tasks σ → RequestedTask.app_id r = RequestedTask.app_id t →
        TaskStatus.is_active (RequestedTask.status r) = true →
        RequestedTask.task_id r = task_id) →
  (abort_task w task_id σ).1 = Raise (KeyError (RequestedTask.app_id t))
  ∧ select_task task_id (tasks (abort_task w task_id σ).2)
    = Some (RequestedTask.with_status TaskStatus.aborted t).
Proof.
  intros Hsel Hact Hc Honly.
  pose proof (select_task_Some _ _ _ Hsel) as [Hid _].
  unfold abort_task. mrun. rewrite Hsel, Hact. cbn [negb].
  erewrite for_each_spec by (intros; reflexivity).
  match goal with |- context [fold_left ?f ?sel ?σ1] =>
    pose proof (cancel_loop_state sel σ1) as HL; cbn zeta in HL;
    set (σL := fold_left f sel σ1) in *;
    cbn [tasks subtasks _public_key _app_clients] in HL;
    destruct HL as (_ & Hcl & Ht & _)
  end.
  clearbody σL.
  change (RequestedTask.app_id (RequestedTask.with_status TaskStatus.aborted t))
    with (RequestedTask.app_id t).
  rewrite _shutdown_app_client_KeyError.
  - cbn [fst snd]. rewrite Ht. split; [done|]. by eapply select_task_update_eq.
  - rewrite Ht. intros r Hr Happ. unfold update_task in Hr.
    apply list_elem_of_fmap in Hr as (r0 & -> & Hr0).
    case_bool_decide as E; [done|].
    destruct (TaskStatus.is_active (RequestedTask.status r0)) eqn:Hr0act; [|done].
    destruct E. rewrite (Honly r0 Hr0 Happ Hr0act). done.
  - by rewrite Hcl.
Qed.

(** C9.  Whatever the key, the parameters and the outside's answers: on
    the state reached by [create_task] then [start_task], without
    [init_task], the map has no client for the task's application and
    [abort_task] raises [KeyError], which is not [TaskNotActive], while
    the task's row has already been set to [aborted]. *)
Theorem abort_task_uninitialized_KeyError (public_key : Key) (w1 w2 w3 : World)
    (golem_params : CreateTaskParams.t) (app_params : string) :
  let task_id := generate_id w1 in
  let app_id := CreateTaskParams.app_id golem_params in
  let σ := exec_all [ (w1, call_create_task golem_params app_params);
                      (w2, call_start_task task_id) ] (init public_key) in
  reachable public_key σ
  ∧ _app_clients σ !! app_id = None
  ∧ (abort_task w3 task_id σ).1 = Raise (KeyError app_id)
  ∧ KeyError app_id ≠ TaskNotActive_abort task_id
  ∧ (RequestedTask.status <$> select_task task_id (tasks (abort_task w3 task_id σ).2))
    = Some TaskStatus.aborted.
Proof.
  cbn zeta. split; [apply reachable_exec_all|].
  set (row0 :=
    {| RequestedTask.task_id := generate_id w1;
       RequestedTask.app_id := CreateTaskParams.app_id golem_params;
       RequestedTask.name := CreateTaskParams.name golem_params;
       RequestedTask.status := TaskStatus.creating;
       RequestedTask.environment := CreateTaskParams.environment golem_params;
       RequestedTask.task_timeout := CreateTaskParams.task_timeout golem_params;
       RequestedTask.subtask_timeout := CreateTaskParams.subtask_timeout golem_params;
       RequestedTask.start_time := default_now w1;
       RequestedTask.max_price_per_hour :=
         CreateTaskParams.max_price_per_hour golem_params;
       RequestedTask.max_subtasks := CreateTaskParams.max_subtasks golem_params;
       RequestedTask.output_directory :=
         CreateTaskParams.output_directory golem_params;
       RequestedTask.resources := CreateTaskParams.resources golem_params;
       RequestedTask.app_params := app_params |}).
  set (row := RequestedTask.with_status TaskStatus.waiting row0).
  assert (Hσ : exec_all [ (w1, call_create_task golem_params app_params);
                          (w2, call_start_task (generate_id w1)) ] (init public_key)
               = mkRTM public_key ∅ [row] [] []).
  { unfold exec_all, exec. cbn [fold_left fst snd].
    change (create_task w1 golem_params app_params (init public_key)).2
      with (mkRTM public_key ∅ [row0] [] []).
    subst row row0. unfold start_task. mrun. unfold select_task.
    cbn [List.find RequestedTask.task_id].
    rewrite bool_decide_true by done.
    cbn [TaskStatus.is_preparing RequestedTask.status negb snd].
    unfold update_task.
    cbn [map tasks subtasks trace _public_key _app_clients RequestedTask.task_id
         RequestedTask.with_status].
    by rewrite bool_decide_true. }
  rewrite Hσ. clear Hσ.
  assert (Hsel : select_task (generate_id w1) [row] = Some row).
  { unfold select_task. cbn. by rewrite bool_decide_true. }
  destruct (abort_task_KeyError w3 (mkRTM public_key ∅ [row] [] [])
              (generate_id w1) row) as (Hres & Hrow); try done.
  { intros r Hr _ _. apply list_elem_of_singleton in Hr. by subst. }
  split; [done|]. split; [done|]. split; [done|]. by rewrite Hrow.
Qed.

(** ** The theorems at the scenario of the tests *)

Lemma start_task_AlreadyStarted_iff_witness :
  select_task "t1" (tasks ScenarioRows.created)
    = Some (ScenarioRows.task_row 1 TaskStatus.creating)
  ∧ (start_task "t1" ScenarioRows.created).1 = Ok tt
  ∧ (start_task "t1" (start_task "t1" ScenarioRows.created).2).1
    = Raise (AlreadyStarted "t1").
Proof.
  destruct (start_task_AlreadyStarted_iff ScenarioRows.created "t1"
              (ScenarioRows.task_row 1 TaskStatus.creating))
    as [_ Hstart]; [reflexivity|].
  destruct (Hstart eq_refl) as (Hok & _ & _ & Hagain).
  split; [reflexivity|]. split; [exact Hok|]. by rewrite Hagain.
Defined.

Lemma init_task_status_unchanged_witness :
  select_task "t1" (tasks ScenarioRows.created)
    = Some (ScenarioRows.task_row 1 TaskStatus.creating)
  ∧ tasks (init_task (Scenario.world true) "t1" ScenarioRows.created).2
    = tasks ScenarioRows.created.
Proof.
  split; [reflexivity|].
  apply (init_task_status_unchanged (Scenario.world true) ScenarioRows.created "t1"
           (ScenarioRows.task_row 1 TaskStatus.creating)).
  reflexivity.
Defined.

Lemma verify_false_failure_witness :
  select_task "t1" (tasks (Scenario.assigned 1))
    = Some (ScenarioRows.task_row 1 TaskStatus.waiting)
  ∧ select_subtask "s1" (subtasks (Scenario.assigned 1))
    = Some (ScenarioRows.subtask_row SubtaskStatus.starting)
  ∧ (verify (Scenario.world false) "t1" "s1" (Scenario.assigned 1)).1 = Ok false
  ∧ select_subtask "s1"
      (subtasks (verify (Scenario.world false) "t1" "s1" (Scenario.assigned 1)).2)
    = Some (ScenarioRows.subtask_row SubtaskStatus.failure).
Proof.
  split; [reflexivity|]. split; [reflexivity|].
  destruct (verify_false_failure (Scenario.world false) (Scenario.assigned 1)
              "t1" "s1" (ScenarioRows.task_row 1 TaskStatus.waiting)
              (ScenarioRows.subtask_row SubtaskStatus.starting))
    as (Hres & Hrow & _); try reflexivity.
  - right. split; reflexivity.
  - split; [exact Hres|exact Hrow].
Defined.

Lemma get_next_subtask_first_violation_witness :
  rule_violated (Scenario.world true) (Scenario.assigned 2) "t1" Scenario.provider
    rule_no_unfinished
  ∧ (get_next_subtask (Scenario.world_s2) "t1" Scenario.provider
       (Scenario.assigned 2)).1
    = Raise (AssignmentRefused rule_no_unfinished "t1").
Proof.
  assert (Hviol : ∀ w, rule_violated w (Scenario.assigned 2) "t1" Scenario.provider
                         rule_no_unfinished).
  { intros w. vm_compute. discriminate. }
  split; [apply Hviol|].
  apply (get_next_subtask_first_violation Scenario.world_s2 (Scenario.assigned 2)
           "t1" Scenario.provider rule_no_unfinished); [|apply Hviol].
  intros r Hr.
  apply elem_of_cons in Hr as [->|Hr]; [vm_compute; eauto|].
  apply elem_of_cons in Hr as [->|Hr]; [vm_compute; discriminate|].
  apply elem_of_cons in Hr as [->|Hr]; [|by apply elem_of_nil in Hr].
  exists (ScenarioRows.task_row 2 TaskStatus.waiting). split; reflexivity.
Defined.

Lemma get_next_subtask_success_witness :
  select_task "t1" (tasks (Scenario.started 1))
    = Some (ScenarioRows.task_row 1 TaskStatus.waiting)
  ∧ (get_next_subtask (Scenario.world true) "t1" Scenario.provider
       (Scenario.started 1)).1
    = Ok (SubtaskDefinition.mk "s1" [] "{}" 2000)
  ∧ subtasks (get_next_subtask (Scenario.world true) "t1" Scenario.provider
                (Scenario.started 1)).2
    = [ScenarioRows.subtask_row SubtaskStatus.starting].
Proof.
  split; [reflexivity|].
  destruct (get_next_subtask_success (Scenario.world true) (Scenario.started 1)
              "t1" Scenario.provider (ScenarioRows.task_row 1 TaskStatus.waiting)
              (Subtask.mk "s1" "{}" []))
    as (Hres & Hrows & _).
  - reflexivity.
  - intros [].
    + vm_compute. eauto.
    + vm_compute. discriminate.
    + exists (ScenarioRows.task_row 1 TaskStatus.waiting). split; reflexivity.
    + reflexivity.
    + reflexivity.
  - reflexivity.
  - intros r Hr. by apply elem_of_nil in Hr.
  - split; apply Z.leb_le; reflexivity.
  - split; apply Z.leb_le; reflexivity.
  - split; [exact Hres|exact Hrows].
Defined.

(** C5, as the specification states it, fails at the scenario's
    limits.  Every admission rule holds in each of the three calls.
    The application hands out [s1] a second time: the call raises
    [IntegrityError] and the subtask table is as it was.  The task's
    [subtask_timeout] is beyond what [timedelta] spans, or the deadline
    is past the last [datetime]: the call raises [OverflowError], no
    definition is returned, [s1] is left in the table in [starting] and
    no timer was started. *)
Lemma get_next_subtask_success_counterexample :
  let w := Scenario.world true in
  let reused :=
    get_next_subtask w "t1" ScenarioLimits.second_provider (Scenario.assigned 2) in
  let beyond_timedelta :=
    get_next_subtask w "t1" Scenario.provider
      (ScenarioLimits.started ScenarioLimits.timeout_beyond_timedelta) in
  let beyond_datetime :=
    get_next_subtask w "t1" Scenario.provider
      (ScenarioLimits.started ScenarioLimits.timeout_beyond_datetime) in
  ((∀ rule, rule_holds w (Scenario.assigned 2) "t1" ScenarioLimits.second_provider rule)
   ∧ reused.1 = Raise IntegrityError
   ∧ subtasks reused.2 = subtasks (Scenario.assigned 2))
  ∧ ((∀ rule, rule_holds w (ScenarioLimits.started ScenarioLimits.timeout_beyond_timedelta)
                "t1" Scenario.provider rule)
     ∧ beyond_timedelta.1 = Raise OverflowError
     ∧ subtasks beyond_timedelta.2 = [ScenarioRows.subtask_row SubtaskStatus.starting]
     ∧ ev_timer_start "s1" ∉ trace beyond_timedelta.2)
  ∧ ((∀ rule, rule_holds w (ScenarioLimits.started ScenarioLimits.timeout_beyond_datetime)
                "t1" Scenario.provider rule)
     ∧ beyond_datetime.1 = Raise OverflowError
     ∧ subtasks beyond_datetime.2 = [ScenarioRows.subtask_row SubtaskStatus.starting]
     ∧ ev_timer_start "s1" ∉ trace beyond_datetime.2).
Proof.
  cbv zeta. split; [|split].
  - split; [|split; reflexivity].
    intros [].
    + vm_compute. eauto.
    + vm_compute. discriminate.
    + eexists. split; reflexivity.
    + reflexivity.
    + reflexivity.
  - split; [|split; [reflexivity|split; [reflexivity|]]].
    + intros [].
      * vm_compute. eauto.
      * vm_compute. discriminate.
      * eexists. split; reflexivity.
      * reflexivity.
      * reflexivity.
    + apply (bool_decide_unpack _). vm_compute. exact I.
  - split; [|split; [reflexivity|split; [reflexivity|]]].
    + intros [].
      * vm_compute. eauto.
      * vm_compute. discriminate.
      * eexists. split; reflexivity.
      * reflexivity.
      * reflexivity.
    + apply (bool_decide_unpack _). vm_compute. exact I.
Qed.

Lemma abort_task_cancels_active_witness :
  select_task "t1" (tasks (Scenario.assigned 1))
    = Some (ScenarioRows.task_row 1 TaskStatus.waiting)
  ∧ select_task "t1"
      (tasks (abort_task (Scenario.world true) "t1" (Scenario.assigned 1)).2)
    = Some (ScenarioRows.task_row 1 TaskStatus.aborted)
  ∧ ∀ r', r' ∈ subtasks (abort_task (Scenario.world true) "t1"
                           (Scenario.assigned 1)).2 →
          RequestedSubtask.task r' = "t1" →
          SubtaskStatus.is_active (RequestedSubtask.status r') = false.
Proof.
  split; [reflexivity|].
  destruct (abort_task_cancels_active (Scenario.world true) (Scenario.assigned 1)
              "t1" (ScenarioRows.task_row 1 TaskStatus.waiting))
    as [_ Hactive]; [reflexivity|].
  destruct (Hactive eq_refl) as (Hrow & _ & Hnone).
  split; [exact Hrow|exact Hnone].
Defined.

(** ** The transitions of the store *)

Lemma create_task_effect w golem_params app_params σ :
  let σ' := (create_task w golem_params app_params σ).2 in
  _public_key σ' = _public_key σ ∧ db_step σ σ'.
Proof.
  unfold create_task. mrun.
  match goal with |- context [List.existsb ?f ?l] =>
    destruct (List.existsb f l) eqn:E end.
  - split; [done|]. by apply step_none.
  - split; [done|]. eapply step_task_created; cbn [snd tasks subtasks]; [|done..].
    unfold select_task. cbn [RequestedTask.task_id].
    match goal with |- List.find ?f ?l = None => destruct (List.find f l) eqn:F end;
      [|done].
    apply find_some in F as [Hin Hb]. apply bool_decide_eq_true in Hb.
    assert (List.existsb
      (λ r, bool_decide (RequestedTask.task_id r = generate_id w)) (tasks σ) = true)
      as E'.
    { apply existsb_exists. eexists. split; [done|]. by apply bool_decide_eq_true. }
    cbn [RequestedTask.task_id] in E. congruence.
Qed.

Lemma init_task_frame w task_id σ :
  let σ' := (init_task w task_id σ).2 in
  _public_key σ' = _public_key σ ∧ tasks σ' = tasks σ ∧ subtasks σ' = subtasks σ.
Proof.
  unfold init_task. mrun.
  destruct (select_task task_id (tasks σ)) as [t0|]; [|done].
  case_bool_decide; [|done]. cbn [negb].
  match goal with |- context [_get_app_client ?w ?a ?e ?s] =>
    pose proof (_get_app_client_frame w a e s) as (Hk & Ht & Hs & _);
    destruct (_get_app_client w a e s) as [[c|e0] σ2] end;
    simpl in Hk, Ht, Hs; [|done].
  by destruct (app_create_task w).
Qed.

Lemma start_task_effect task_id σ :
  let σ' := (start_task task_id σ).2 in
  _public_key σ' = _public_key σ ∧ db_step σ σ'.
Proof.
  unfold start_task. mrun.
  destruct (select_task task_id (tasks σ)) as [t|] eqn:Hsel;
    [|split; [done|by apply step_none]].
  pose proof (select_task_Some _ _ _ Hsel) as [Hid _].
  destruct (TaskStatus.is_preparing (RequestedTask.status t)) eqn:Hp; cbn [negb];
    (split; [done|]); [|by apply step_none].
  eapply (step_task_started _ _ t); try done. by rewrite Hid.
Qed.

Lemma get_next_subtask_effect w task_id computing_node σ :
  let σ' := (get_next_subtask w task_id computing_node σ).2 in
  _public_key σ' = _public_key σ ∧ db_step σ σ'.
Proof.
  unfold get_next_subtask. mrun.
  destruct (select_task task_id (tasks σ)) as [t|] eqn:Hsel;
    [|split; [done|by apply step_none]].
  pose proof (select_task_Some _ _ _ Hsel) as [Hid _].
  case_bool_decide; [split; [done|by apply step_none]|].
  destruct (TaskStatus.is_active (RequestedTask.status t)) eqn:Hact; cbn [negb];
    [|split; [done|by apply step_none]].
  rewrite _get_unfinished_subtasks_count.
  destruct (0 <? _)%Z; [split; [done|by apply step_none]|].
  pose proof (has_pending_subtasks_frame w task_id σ) as (Hk & Ht & Hs).
  destruct (has_pending_subtasks w task_id σ) as [[b|e] σ1]; simpl in Hk, Ht, Hs;
    [|split; [done|by apply step_none]].
  destruct b; cbn [negb]; [|split; [done|by apply step_none]].
  match goal with |- context [_get_app_client ?w ?a ?e ?s] =>
    pose proof (_get_app_client_frame w a e s) as (Hk' & Ht' & Hs' & _);
    destruct (_get_app_client w a e s) as [[c|e0] σ2] end;
    simpl in Hk', Ht', Hs'; cbn [snd];
    [|split; [congruence|apply step_none; congruence]].
  destruct (app_next_subtask w) as [d|e1]; cbn [snd tasks subtasks _public_key];
    [|split; [congruence|apply step_none; cbn [tasks subtasks]; congruence]].
  match goal with |- context [List.existsb ?f ?l] =>
    destruct (List.existsb f l) eqn:E end; cbn [snd tasks subtasks _public_key].
  { split; [congruence|]. apply step_none; cbn [tasks subtasks]; congruence. }
  cbn [RequestedSubtask.start_time].
  destruct (timedelta_milliseconds _) as [delta|e2]; cbv beta iota;
    [destruct (datetime_add _ _) as [deadline|e3]; cbv beta iota|];
    cbn [snd tasks subtasks _public_key].
  all: split; [congruence|].
  all: eapply (step_subtask_created _ _ t); cbn [tasks subtasks];
    [ | | | | rewrite Hs', Hs; reflexivity ];
    [ cbn [RequestedSubtask.task]; by subst task_id
    | done
    | intros r Hr Hpk; rewrite <- Hs, <- Hs' in Hr;
      apply not_true_iff_false in E; apply E;
      apply existsb_exists; exists r; split; [by apply list_elem_of_In|];
      by apply bool_decide_eq_true
    | congruence ].
Qed.

Lemma verify_db_step w task_id subtask_id σ :
  let σ' := (verify w task_id subtask_id σ).2 in
  _public_key σ' = _public_key σ ∧ db_step σ σ'.
Proof.
  destruct (verify_effect w task_id subtask_id σ)
    as (Hk & [[Ht Hs]|(t & s & Hsel & Hact & Hsub & Hown & Hcase)]);
    cbn zeta; (split; [done|]); [by apply step_none|].
  apply select_subtask_Some in Hsub as [_ Hin]. subst task_id.
  destruct Hcase as [(st & Hst & Hs & Ht)|[Hs Ht]].
  - by eapply (step_subtask_verified _ _ t s st).
  - by eapply (step_task_finished _ _ t s).
Qed.

Lemma abort_task_db_step w task_id σ :
  let σ' := (abort_task w task_id σ).2 in
  _public_key σ' = _public_key σ ∧ db_step σ σ'.
Proof.
  destruct (abort_task_effect w task_id σ)
    as (Hk & [[Ht Hs]|(t & Hsel & Hact & Ht & Hs)]);
    cbn zeta; (split; [done|]); [by apply step_none|].
  pose proof (select_task_Some _ _ _ Hsel) as [Hid _]. subst task_id.
  by eapply (step_task_aborted _ _ t).
Qed.

Lemma quit_frame σ :
  let σ' := (quit σ).2 in
  _public_key σ' = _public_key σ ∧ tasks σ' = tasks σ ∧ subtasks σ' = subtasks σ.
Proof.
  unfold quit. mrun. case_bool_decide as Hne; [done|]. clear Hne.
  erewrite for_each_spec by (intros; reflexivity). cbn [snd].
  generalize (map_to_list (_app_clients σ)). intros apps. revert σ.
  induction apps as [|app apps IH]; intros σ; [done|].
  cbn [fold_left]. by destruct (IH (mkRTM (_public_key σ) (_app_clients σ) (tasks σ)
    (subtasks σ) (trace σ ++ [ev_shutdown app.1]))) as (-> & -> & ->).
Qed.

Lemma exec_db_step wc σ :
  _public_key (exec wc σ) = _public_key σ ∧ db_step σ (exec wc σ).
Proof.
  destruct wc as [w []]; unfold exec; cbn [fst snd].
  - apply create_task_effect.
  - destruct (init_task_frame w task_id σ) as (Hk & Ht & Hs).
    split; [done|by apply step_none].
  - apply start_task_effect.
  - destruct (has_pending_subtasks_frame w task_id σ) as (Hk & Ht & Hs).
    split; [done|by apply step_none].
  - apply get_next_subtask_effect.
  - apply verify_db_step.
  - apply abort_task_db_step.
  - destruct (quit_frame σ) as (Hk & Ht & Hs). split; [done|by apply step_none].
Qed.

(** ** Invariants of the store *)

Lemma select_task_app_Some task_id rows rows' t :
  select_task task_id rows = Some t → select_task task_id (rows ++ rows') = Some t.
Proof.
  unfold select_task. induction rows as [|a rows IH]; [done|].
  cbn [app List.find]. by destruct (bool_decide _).
Qed.

Lemma select_task_update_is_Some task_id row rows :
  is_Some (select_task task_id rows) →
  is_Some (select_task task_id (update_task row rows)).
Proof.
  intros [t Ht]. destruct (decide (RequestedTask.task_id row = task_id)) as [E|E].
  - erewrite select_task_update_eq; eauto.
  - rewrite select_task_update_ne by done. eauto.
Qed.

Lemma db_step_select_task_is_Some σ σ' task_id :
  db_step σ σ' →
  is_Some (select_task task_id (tasks σ)) → is_Some (select_task task_id (tasks σ')).
Proof.
  intros Hstep [t0 Ht0].
  destruct Hstep as [Ht _|row _ Ht _|t _ _ Ht _|t row _ _ _ Ht _|t s st _ _ _ _ Ht _
                    |t s _ _ _ Ht _|t _ _ Ht _]; rewrite Ht; eauto.
  - erewrite select_task_app_Some; eauto.
  - apply select_task_update_is_Some; eauto.
  - apply select_task_update_is_Some; eauto.
  - apply select_task_update_is_Some; eauto.
Qed.

Lemma map_pk_update_subtask row rows :
  map RequestedSubtask.pk (update_subtask row rows) = map RequestedSubtask.pk rows.
Proof.
  unfold update_subtask. rewrite map_map. apply map_ext. intros r.
  by case_bool_decide.
Qed.

Lemma map_pk_cancel_row selected rows :
  map RequestedSubtask.pk (map (cancel_row selected) rows)
  = map RequestedSubtask.pk rows.
Proof. rewrite map_map. apply map_ext. intros r. apply cancel_row_pk. Qed.

Lemma keys_unique_step σ σ' : db_step σ σ' → keys_unique σ → keys_unique σ'.
Proof.
  unfold keys_unique. intros Hstep Hnd.
  destruct Hstep as [_ Hs|row _ _ Hs|t _ _ _ Hs|t row _ _ Hfresh _ Hs
                    |t s st _ _ _ _ _ Hs|t s _ _ _ _ Hs|t _ _ _ Hs]; rewrite Hs;
    try done.
  - rewrite map_app. apply NoDup_app. split; [done|]. split.
    + intros k Hk Hk'. apply list_elem_of_singleton in Hk'. subst k.
      apply list_elem_of_fmap in Hk as (r & Hpk & Hr).
      by apply (Hfresh r).
    + apply NoDup_singleton.
  - by rewrite map_pk_update_subtask.
  - by rewrite map_pk_update_subtask.
  - by rewrite map_pk_cancel_row.
Qed.

Lemma keys_unique_inj σ r s :
  keys_unique σ → r ∈ subtasks σ → s ∈ subtasks σ →
  RequestedSubtask.pk r = RequestedSubtask.pk s → r = s.
Proof.
  unfold keys_unique. induction (subtasks σ) as [|a l IH]; intros Hnd Hr Hs Hpk.
  - by apply elem_of_nil in Hr.
  - cbn [map] in Hnd. apply NoDup_cons in Hnd as [Ha Hnd].
    apply elem_of_cons in Hr as [->|Hr]; apply elem_of_cons in Hs as [->|Hs].
    + done.
    + destruct Ha. rewrite Hpk. by apply (list_elem_of_fmap_2 RequestedSubtask.pk).
    + destruct Ha. rewrite <- Hpk. by apply (list_elem_of_fmap_2 RequestedSubtask.pk).
    + by apply IH.
Qed.

Lemma cancel_row_from selected r :
  cancel_row selected r = r
  ∨ ∃ s, s ∈ selected
         ∧ cancel_row selected r
           = RequestedSubtask.with_status SubtaskStatus.cancelled s.
Proof.
  revert r. induction selected as [|a selected IH]; intros r; [by left|].
  unfold cancel_row in *. cbn [fold_left]. case_bool_decide as E.
  - right. destruct (IH (RequestedSubtask.with_status SubtaskStatus.cancelled a))
      as [Hid|(s & Hs & Heq)].
    + exists a. split; [by left|done].
    + exists s. split; [by right|done].
  - destruct (IH r) as [Hid|(s & Hs & Heq)]; [by left|].
    right. exists s. split; [by right|done].
Qed.

Lemma update_subtask_elem row rows r' :
  r' ∈ update_subtask row rows → r' = row ∨ r' ∈ rows.
Proof.
  unfold update_subtask. intros Hin.
  apply list_elem_of_fmap in Hin as (r & -> & Hr). case_bool_decide; auto.
Qed.

(** Where a row of the subtask table after a step comes from: a row of
    the table before it with the same task and provider, or a new row of
    an existing task whose provider is not the manager. *)
Lemma db_step_row_origin σ σ' r' :
  db_step σ σ' → r' ∈ subtasks σ' →
  (∃ r, r ∈ subtasks σ
        ∧ RequestedSubtask.task r = RequestedSubtask.task r'
        ∧ RequestedSubtask.computing_node r = RequestedSubtask.computing_node r')
  ∨ (is_Some (select_task (RequestedSubtask.task r') (tasks σ))
     ∧ RequestedSubtask.computing_node r' ≠ _public_key σ).
Proof.
  intros Hstep Hin.
  destruct Hstep as [_ Hs|row _ _ Hs|t _ _ _ Hs|t row Hsel Hnode _ _ Hs
                    |t s st _ _ Hsin _ _ Hs|t s _ _ Hsin _ Hs|t _ _ _ Hs];
    rewrite Hs in Hin; try (left; by exists r').
  - apply elem_of_app in Hin as [Hin|Hin]; [left; by exists r'|].
    apply list_elem_of_singleton in Hin. subst r'. right. eauto.
  - apply update_subtask_elem in Hin as [->|Hin]; left; [by exists s|by exists r'].
  - apply update_subtask_elem in Hin as [->|Hin]; left; [by exists s|by exists r'].
  - apply list_elem_of_fmap in Hin as (r & -> & Hr). left.
    destruct (cancel_row_from (abort_selected (RequestedTask.task_id t) (subtasks σ)) r)
      as [->|(s & Hsel & ->)]; [by exists r|].
    apply abort_selected_elem in Hsel as (Hsin & _). by exists s.
Qed.

Lemma consistent_step σ σ' :
  _public_key σ' = _public_key σ → db_step σ σ' → consistent σ → consistent σ'.
Proof.
  intros Hk Hstep (Hu & Hfk & Hself). split; [by eapply keys_unique_step|]. split.
  - intros r' Hr'. eapply db_step_select_task_is_Some; [done|].
    destruct (db_step_row_origin _ _ _ Hstep Hr') as [(r & Hr & Ht & _)|[Hsome _]];
      [|done].
    rewrite <- Ht. by apply Hfk.
  - intros r' Hr'. rewrite Hk.
    destruct (db_step_row_origin _ _ _ Hstep Hr') as [(r & Hr & _ & Hn)|[_ Hn]];
      [|done].
    rewrite <- Hn. by apply Hself.
Qed.

Lemma consistent_init public_key : consistent (init public_key).
Proof.
  split; [apply NoDup_nil_2|].
  split; intros r Hr; by apply elem_of_nil in Hr.
Qed.

Lemma consistent_exec_all calls σ :
  consistent σ →
  consistent (exec_all calls σ) ∧ _public_key (exec_all calls σ) = _public_key σ.
Proof.
  revert σ. induction calls as [|wc calls IH]; intros σ Hc; [done|].
  cbn [exec_all fold_left]. destruct (exec_db_step wc σ) as [Hk Hstep].
  destruct (IH (exec wc σ)) as [Hc' Hk']; [by eapply consistent_step|].
  split; [done|]. unfold exec_all in Hk'. congruence.
Qed.

Lemma TaskStatus_preparing_not_completed (s : TaskStatus.t) :
  TaskStatus.is_preparing s = true → TaskStatus.is_completed s = false.
Proof. by destruct s. Qed.

Lemma TaskStatus_active_not_completed (s : TaskStatus.t) :
  TaskStatus.is_active s = true → TaskStatus.is_completed s = false.
Proof. by destruct s. Qed.

Lemma update_subtask_elem_2 row rows r :
  r ∈ rows →
  (if bool_decide (RequestedSubtask.pk r = RequestedSubtask.pk row) then row else r)
    ∈ update_subtask row rows.
Proof.
  intros Hr. unfold update_subtask.
  apply list_elem_of_fmap. by exists r.
Qed.

(** A blocked provider stays blocked: the row that blocks it can only
    become finished together with its task. *)
Lemma blocked_step task_id node σ σ' :
  keys_unique σ → db_step σ σ' → blocked task_id node σ → blocked task_id node σ'.
Proof.
  intros Hu Hstep (t0 & r & Hsel0 & Hr & Htask & Hnode & Hdisj).
  pose proof (select_task_Some _ _ _ Hsel0) as [Hid0 _]. unfold blocked.
  destruct Hstep as [Ht Hs|row _ Ht Hs|t Hsel Hprep Ht Hs|t row _ _ _ Ht Hs
                    |t s st Hsel Hact Hsin Hst Ht Hs|t s Hsel Hact Hsin Ht Hs
                    |t Hsel Hact Ht Hs].
  - exists t0, r. by rewrite Ht, Hs.
  - exists t0, r. rewrite Ht, Hs. split; [by apply select_task_app_Some|done].
  - destruct (decide (RequestedTask.task_id t = task_id)) as [E|E].
    + rewrite E in Hsel. simplify_eq.
      exists (RequestedTask.with_status TaskStatus.waiting t0), r.
      rewrite Ht, Hs. split; [by eapply select_task_update_eq|].
      repeat split; try done. left. destruct Hdisj as [|Hc]; [done|].
      by rewrite (TaskStatus_preparing_not_completed _ Hprep) in Hc.
    + exists t0, r. rewrite Ht, Hs. by rewrite select_task_update_ne.
  - exists t0, r. rewrite Ht, Hs. repeat split; try done.
    apply elem_of_app. by left.
  - rewrite Ht, Hs.
    pose proof (update_subtask_elem_2 (RequestedSubtask.with_status st s) _ r Hr)
      as Hr'.
    case_bool_decide as E.
    + assert (r = s) by (by eapply keys_unique_inj). subst s.
      exists t0, (RequestedSubtask.with_status st r). repeat split; try done.
      by left.
    + by exists t0, r.
  - pose proof (select_task_Some _ _ _ Hsel) as [Hid _].
    rewrite Ht, Hs.
    pose proof (update_subtask_elem_2
      (RequestedSubtask.with_status SubtaskStatus.finished s) _ r Hr) as Hr'.
    destruct (decide (RequestedTask.task_id t = task_id)) as [E|E].
    + rewrite <- Hid, E in Hsel. simplify_eq.
      exists (RequestedTask.with_status TaskStatus.finished t0).
      case_bool_decide as E'.
      * assert (r = s) by (by eapply keys_unique_inj). subst s.
        exists (RequestedSubtask.with_status SubtaskStatus.finished r).
        split; [by eapply select_task_update_eq|]. repeat split; try done.
        by right.
      * exists r. split; [by eapply select_task_update_eq|].
        repeat split; try done. by right.
    + rewrite bool_decide_false in Hr'.
      2:{ unfold RequestedSubtask.pk. intros E'. injection E' as E1 E2.
          cbn in E1. congruence. }
      exists t0, r. by rewrite select_task_update_ne.
  - rewrite Ht, Hs.
    set (sel := abort_selected (RequestedTask.task_id t) (subtasks σ)).
    destruct (decide (RequestedTask.task_id t = task_id)) as [E|E].
    + rewrite E in Hsel. simplify_eq.
      exists (RequestedTask.with_status TaskStatus.aborted t0), (cancel_row sel r).
      split; [by eapply select_task_update_eq|].
      split; [by apply (list_elem_of_fmap_2 (cancel_row sel))|].
      assert (Hfrom : cancel_row sel r = r
                      ∨ cancel_row sel r
                        = RequestedSubtask.with_status SubtaskStatus.cancelled r).
      { destruct (cancel_row_from sel r) as [->|(s & Hs' & Heq)]; [by left|].
        right. rewrite Heq. f_equal.
        apply abort_selected_elem in Hs' as (Hsin & _).
        eapply keys_unique_inj; try done.
        rewrite <- (cancel_row_pk sel r), Heq. done. }
      destruct Hfrom as [->| ->]; repeat split; try done; by right.
    + exists t0, r. rewrite select_task_update_ne by done.
      rewrite <- (cancel_row_other sel r) at 1.
      * split; [done|].
        split; [by apply (list_elem_of_fmap_2 (cancel_row sel))|done].
      * intros s Hs' Hpk. apply abort_selected_elem in Hs' as (_ & Hts & _).
        unfold RequestedSubtask.pk in Hpk. congruence.
Qed.

Lemma blocked_exec_all task_id node calls σ :
  keys_unique σ → blocked task_id node σ →
  blocked task_id node (exec_all calls σ).
Proof.
  revert σ. induction calls as [|wc calls IH]; intros σ Hu Hb; [done|].
  cbn [exec_all fold_left]. destruct (exec_db_step wc σ) as [_ Hstep].
  apply IH; [by eapply keys_unique_step|by eapply blocked_step].
Qed.

(** A blocked provider is refused, whatever the outside answers: by
    rule 4 while its task is active, by rule 3 otherwise; the state is
    left as it was. *)
Lemma blocked_refused w task_id computing_node σ :
  ComputingNode.node_id computing_node ≠ _public_key σ →
  blocked task_id (ComputingNode.node_id computing_node) σ →
  ∃ t, select_task task_id (tasks σ) = Some t
       ∧ get_next_subtask w task_id computing_node σ
         = (Raise (AssignmentRefused
                     (if TaskStatus.is_active (RequestedTask.status t)
                      then rule_no_unfinished else rule_task_active) task_id), σ).
Proof.
  intros Hself (t & r & Hsel & Hr & Htask & Hnode & Hdisj).
  exists t. split; [done|].
  destruct (TaskStatus.is_active (RequestedTask.status t)) eqn:Hact.
  - apply (get_next_subtask_unfinished w σ task_id computing_node t); try done.
    unfold unfinished_of_provider.
    assert (Hin : r ∈ filter
      (λ r, RequestedSubtask.computing_node r = ComputingNode.node_id computing_node
            ∧ RequestedSubtask.task r = task_id
            ∧ RequestedSubtask.status r ≠ SubtaskStatus.finished) (subtasks σ)).
    { apply list_elem_of_filter. repeat split; try done.
      destruct Hdisj as [|Hc]; [done|].
      by rewrite (TaskStatus_active_not_completed _ Hact) in Hc. }
    destruct (filter _ _); [by apply elem_of_nil in Hin|done].
  - by apply (get_next_subtask_not_active w σ task_id computing_node t).
Qed.

(** C10.  In a run of the manager from an empty store: once a row of
    task [task_id] assigned to the provider has status [failure] or
    [cancelled], then after any further operations, and whatever the
    application answers (to [has_pending_subtasks] in particular),
    [get_next_subtask] for that task and provider raises
    [AssignmentRefused] and leaves the state as it was: by rule 4 (the
    provider has an unfinished subtask) while the task is active, by
    rule 3 (task not active) otherwise. *)
Theorem get_next_subtask_refused_after_failure (public_key : Key)
    (before after : list (World * Call)) (w : World) (task_id : TaskId)
    (computing_node : ComputingNode.t) (r : RequestedSubtask.t) :
  let σ := exec_all before (init public_key) in
  let σ' := exec_all after σ in
  r ∈ subtasks σ →
  RequestedSubtask.task r = task_id →
  RequestedSubtask.computing_node r = ComputingNode.node_id computing_node →
  RequestedSubtask.status r = SubtaskStatus.failure
  ∨ RequestedSubtask.status r = SubtaskStatus.cancelled →
  ∃ t, select_task task_id (tasks σ') = Some t
       ∧ get_next_subtask w task_id computing_node σ'
         = (Raise (AssignmentRefused
                     (if TaskStatus.is_active (RequestedTask.status t)
                      then rule_no_unfinished else rule_task_active) task_id), σ').
Proof.
  intros σ σ' Hr Htask Hnode Hst.
  destruct (consistent_exec_all before (init public_key) (consistent_init _))
    as [(Hu & Hfk & Hself) Hk]. fold σ in Hu, Hfk, Hself, Hk.
  destruct (consistent_exec_all after σ) as [_ Hk']; [done|]. fold σ' in Hk'.
  apply blocked_refused.
  - rewrite Hk', <- Hnode. by apply Hself.
  - apply blocked_exec_all; [done|].
    destruct (Hfk r Hr) as [t Ht]. rewrite Htask in Ht.
    exists t, r. repeat split; try done. left. by destruct Hst as [-> | ->].
Qed.

Lemma get_next_subtask_refused_after_failure_witness :
  let σ := Scenario.verified 2 false in
  let σ' := exec_all [ (Scenario.world true, call_verify "t1" "s1") ] σ in
  ScenarioRows.subtask_row SubtaskStatus.failure ∈ subtasks σ
  ∧ ∃ rule, (get_next_subtask Scenario.world_s2 "t1" Scenario.provider σ').1
            = Raise (AssignmentRefused rule "t1").
Proof.
  assert (Hin : ScenarioRows.subtask_row SubtaskStatus.failure
                ∈ subtasks (Scenario.verified 2 false)).
  { vm_compute. by left. }
  split; [exact Hin|].
  destruct (get_next_subtask_refused_after_failure Scenario.public_key
              (Scenario.verified_calls 2 false)
              [ (Scenario.world true, call_verify "t1" "s1") ]
              Scenario.world_s2 "t1" Scenario.provider
              (ScenarioRows.subtask_row SubtaskStatus.failure))
    as (t & _ & Hres); try reflexivity.
  - exact Hin.
  - by left.
  - eexists. exact (f_equal fst Hres).
Defined.

(** The two ways of the refusal, on the run of the scenario: after a
    failed verification the provider is refused by rule 4, and after the
    failed subtask is verified again with success, by rule 3, the task
    being finished with one finished subtask of two. *)
Example refused_after_failure_scenario :
  let σ := Scenario.verified 2 false in
  let σ' := exec_all [ (Scenario.world true, call_verify "t1" "s1") ] σ in
  (get_next_subtask Scenario.world_s2 "t1" Scenario.provider σ).1
    = Raise (AssignmentRefused rule_no_unfinished "t1")
  ∧ subtasks σ' = [ScenarioRows.subtask_row SubtaskStatus.finished]
  ∧ tasks σ' = [ScenarioRows.task_row 2 TaskStatus.finished]
  ∧ (get_next_subtask Scenario.world_s2 "t1" Scenario.provider σ').1
    = Raise (AssignmentRefused rule_task_active "t1").
Proof. by vm_compute. Qed.

(** ** The repository's tests, run on the embedding *)

(** [test_create_task] and [test_init_task]: the row is [creating] before
    and after [init_task], which consults the environment manager and
    calls [create_task] on the client. *)
Example test_init_task :
  let σ := (init_task (Scenario.world true) "t1" ScenarioRows.created).2 in
  tasks ScenarioRows.created = [ScenarioRows.task_row 1 TaskStatus.creating]
  ∧ tasks σ = [ScenarioRows.task_row 1 TaskStatus.creating]
  ∧ trace σ = [ev_clear_temporary "t1"; ev_enabled "a"; ev_client_create "a" "a";
               ev_create_task "a" "t1" 1 "{}"].
Proof. by vm_compute. Qed.

(** [test_start_task]. *)
Example test_start_task :
  tasks (Scenario.started 1) = [ScenarioRows.task_row 1 TaskStatus.waiting].
Proof. by vm_compute. Qed.

(** [test_get_next_subtask]. *)
Example test_get_next_subtask :
  subtasks (Scenario.assigned 1) = [ScenarioRows.subtask_row SubtaskStatus.starting]
  ∧ count_occ Event_eq_dec (trace (Scenario.assigned 1)) (ev_next_subtask "a" "t1")
    = 1%nat.
Proof. by vm_compute. Qed.

(** [test_verify]: one subtask of one; the task completes and the client
    is shut down once. *)
Example test_verify :
  let run := verify (Scenario.world true) "t1" "s1" (Scenario.assigned 1) in
  run.1 = Ok true
  ∧ tasks run.2 = [ScenarioRows.task_row 1 TaskStatus.finished]
  ∧ subtasks run.2 = [ScenarioRows.subtask_row SubtaskStatus.finished]
  ∧ count_occ Event_eq_dec (trace run.2) (ev_shutdown "a") = 1%nat
  ∧ _app_clients run.2 !! "a" = None.
Proof. by vm_compute. Qed.

(** [test_verify_failed]. *)
Example test_verify_failed :
  let run := verify (Scenario.world false) "t1" "s1" (Scenario.assigned 1) in
  run.1 = Ok false
  ∧ tasks run.2 = [ScenarioRows.task_row 1 TaskStatus.waiting]
  ∧ subtasks run.2 = [ScenarioRows.subtask_row SubtaskStatus.failure]
  ∧ count_occ Event_eq_dec (trace run.2) (ev_shutdown "a") = 0%nat.
Proof. by vm_compute. Qed.

(** [test_abort]. *)
Example test_abort :
  let run := abort_task (Scenario.world true) "t1" (Scenario.assigned 1) in
  run.1 = Ok tt
  ∧ tasks run.2 = [ScenarioRows.task_row 1 TaskStatus.aborted]
  ∧ subtasks run.2 = [ScenarioRows.subtask_row SubtaskStatus.cancelled]
  ∧ count_occ Event_eq_dec (trace run.2) (ev_shutdown "a") = 1%nat.
Proof. by vm_compute. Qed.

(** Aborting the task that was started without [init_task]. *)
Example abort_task_uninitialized_scenario :
  let run := abort_task (Scenario.world true) "t1" Scenario.uninitialized in
  run.1 = Raise (KeyError "a")
  ∧ tasks run.2 = [ScenarioRows.task_row 1 TaskStatus.aborted].
Proof. by vm_compute. Qed.

(** * Further properties of the manager *)

(** ** The transitions, as each operation makes them *)

Lemma create_task_store_step w golem_params app_params σ :
  store_step σ (create_task w golem_params app_params σ).2.
Proof.
  unfold create_task. mrun.
  match goal with |- context [List.existsb ?f ?l] =>
    destruct (List.existsb f l) eqn:E end.
  - by apply store_same.
  - eapply store_task_created; cbn [snd tasks subtasks].
    3: reflexivity. 3: reflexivity. 2: reflexivity.
    unfold select_task. cbn [RequestedTask.task_id].
    match goal with |- List.find ?f ?l = None => destruct (List.find f l) eqn:F end;
      [|done].
    apply find_some in F as [Hin Hb].
    apply not_true_iff_false in E. destruct E.
    apply existsb_exists. eauto.
Qed.

Lemma start_task_store_step task_id σ : store_step σ (start_task task_id σ).2.
Proof.
  unfold start_task. mrun.
  destruct (select_task task_id (tasks σ)) as [t|] eqn:Hsel; [|by apply store_same].
  pose proof (select_task_Some _ _ _ Hsel) as [Hid _].
  destruct (TaskStatus.is_preparing (RequestedTask.status t)) eqn:Hp; cbn [negb];
    [|by apply store_same].
  eapply (store_task_started _ _ t); try done. by rewrite Hid.
Qed.

Lemma get_next_subtask_store_step w task_id computing_node σ :
  store_step σ (get_next_subtask w task_id computing_node σ).2.
Proof.
  unfold get_next_subtask. mrun.
  destruct (select_task task_id (tasks σ)) as [t|] eqn:Hsel; [|by apply store_same].
  pose proof (select_task_Some _ _ _ Hsel) as [Hid _].
  case_bool_decide; [by apply store_same|].
  destruct (TaskStatus.is_active (RequestedTask.status t)) eqn:Hact; cbn [negb];
    [|by apply store_same].
  rewrite _get_unfinished_subtasks_count.
  destruct (0 <? _)%Z; [by apply store_same|].
  pose proof (has_pending_subtasks_frame w task_id σ) as (Hk & Ht & Hs).
  destruct (has_pending_subtasks w task_id σ) as [[b|e] σ1]; simpl in Hk, Ht, Hs;
    [|by apply store_same].
  destruct b; cbn [negb]; [|by apply store_same].
  match goal with |- context [_get_app_client ?w ?a ?e ?s] =>
    pose proof (_get_app_client_frame w a e s) as (Hk' & Ht' & Hs' & _);
    destruct (_get_app_client w a e s) as [[c|e0] σ2] end;
    simpl in Hk', Ht', Hs'; cbn [snd]; [|apply store_same; congruence].
  destruct (app_next_subtask w) as [d|e1]; cbn [snd tasks subtasks _public_key];
    [|apply store_same; cbn [tasks subtasks]; congruence].
  match goal with |- context [List.existsb ?f ?l] =>
    destruct (List.existsb f l) eqn:E end; cbn [snd tasks subtasks _public_key].
  { apply store_same; cbn [tasks subtasks]; congruence. }
  cbn [RequestedSubtask.start_time].
  destruct (timedelta_milliseconds _) as [delta|e2]; cbv beta iota;
    [destruct (datetime_add _ _) as [deadline|e3]; cbv beta iota|];
    cbn [snd tasks subtasks _public_key].
  all: eapply (store_subtask_assigned _ _ t); cbn [tasks subtasks];
    [ | | | | | rewrite Hs', Hs; reflexivity ];
    [ cbn [RequestedSubtask.task]; by subst task_id
    | done | done | done | congruence ].
Qed.

Lemma exec_store_step wc σ : store_step σ (exec wc σ).
Proof.
  destruct wc as [w []]; unfold exec; cbn [fst snd].
  - apply create_task_store_step.
  - destruct (init_task_frame w task_id σ) as (_ & Ht & Hs). by apply store_same.
  - apply start_task_store_step.
  - destruct (has_pending_subtasks_frame w task_id σ) as (_ & Ht & Hs).
    by apply store_same.
  - apply get_next_subtask_store_step.
  - destruct (verify_effect w task_id subtask_id σ)
      as (_ & [[Ht Hs]|(t & s & Hsel & Hact & Hsub & Hown & Hcase)]);
      [by apply store_same|].
    apply select_subtask_Some in Hsub as [_ Hin]. subst task_id.
    destruct Hcase as [(st & Hst & Hs & Ht)|[Hs Ht]].
    + by eapply (store_subtask_verified _ _ t s st).
    + by eapply (store_task_finished _ _ t s).
  - destruct (abort_task_effect w task_id σ)
      as (_ & [[Ht Hs]|(t & Hsel & Hact & Ht & Hs)]); [by apply store_same|].
    pose proof (select_task_Some _ _ _ Hsel) as [Hid _]. subst task_id.
    by eapply (store_task_aborted _ _ t).
  - destruct (quit_frame σ) as (_ & Ht & Hs). by apply store_same.
Qed.

(** An invariant of the transitions holds along every run. *)
Lemma exec_all_invariant (P : RTM → Prop) :
  (∀ σ σ', _public_key σ' = _public_key σ → store_step σ σ' → P σ → P σ') →
  ∀ calls σ, P σ → P (exec_all calls σ).
Proof.
  intros Hstep calls. induction calls as [|wc calls IH]; intros σ HP; [done|].
  cbn [exec_all fold_left]. apply IH.
  destruct (exec_db_step wc σ) as [Hk _].
  eapply Hstep; [done|apply exec_store_step|done].
Qed.

Lemma select_task_app task_id rows row :
  select_task task_id (rows ++ [row])
  = match select_task task_id rows with
    | Some t => Some t
    | None => if bool_decide (RequestedTask.task_id row = task_id)
              then Some row else None
    end.
Proof.
  unfold select_task. induction rows as [|a rows IH]; [done|].
  simpl. by destruct (bool_decide (RequestedTask.task_id a = task_id)).
Qed.

Lemma select_task_update task_id row rows :
  select_task task_id (update_task row rows)
  = if bool_decide (RequestedTask.task_id row = task_id)
    then (λ _, row) <$> select_task task_id rows
    else select_task task_id rows.
Proof.
  case_bool_decide as E; [|by apply select_task_update_ne].
  destruct (select_task task_id rows) as [t|] eqn:Hsel.
  - by erewrite select_task_update_eq.
  - unfold select_task, update_task in *. cbn.
    induction rows as [|a rows IH]; [done|]. cbn [List.find map] in *.
    destruct (decide (RequestedTask.task_id a = task_id)) as [Ha|Ha].
    + by rewrite (bool_decide_true _ Ha) in Hsel.
    + rewrite (bool_decide_false _ Ha) in Hsel.
      rewrite (bool_decide_false (RequestedTask.task_id a = RequestedTask.task_id row))
        by congruence.
      rewrite (bool_decide_false _ Ha). by apply IH.
Qed.

(** ** The life of a task row *)

Lemma TaskStatus_completed_not_preparing (s : TaskStatus.t) :
  TaskStatus.is_completed s = true → TaskStatus.is_preparing s = false.
Proof. by destruct s. Qed.

Lemma TaskStatus_completed_not_active (s : TaskStatus.t) :
  TaskStatus.is_completed s = true → TaskStatus.is_active s = false.
Proof. by destruct s. Qed.

(** What a transition does to the row [get] returns for an id: it stays,
    or it is the same row with status [waiting] (from a preparing
    status), [finished] or [aborted] (from an active status). *)
Lemma store_step_select_task σ σ' task_id t :
  store_step σ σ' → select_task task_id (tasks σ) = Some t →
  select_task task_id (tasks σ') = Some t
  ∨ (TaskStatus.is_preparing (RequestedTask.status t) = true
     ∧ select_task task_id (tasks σ')
       = Some (RequestedTask.with_status TaskStatus.waiting t))
  ∨ (TaskStatus.is_active (RequestedTask.status t) = true
     ∧ ∃ st, (st = TaskStatus.finished ∨ st = TaskStatus.aborted)
             ∧ select_task task_id (tasks σ')
               = Some (RequestedTask.with_status st t)).
Proof.
  intros Hstep Hsel.
  destruct Hstep as [Ht _|row _ _ Ht _|t0 Hsel0 Hp Ht _|t0 row _ _ _ _ Ht _
                    |t0 s st _ _ _ _ Ht _|t0 s Hsel0 Hact _ Ht _|t0 Hsel0 Hact Ht _];
    rewrite Ht; try (by left).
  - left. by rewrite select_task_app, Hsel.
  - rewrite select_task_update. case_bool_decide as E; [|by left].
    cbn [RequestedTask.task_id RequestedTask.with_status] in E.
    rewrite E, Hsel in Hsel0. injection Hsel0 as ->.
    right. left. by rewrite Hsel.
  - rewrite select_task_update. case_bool_decide as E; [|by left].
    cbn [RequestedTask.task_id RequestedTask.with_status] in E.
    pose proof (select_task_Some _ _ _ Hsel0) as [Hid _].
    rewrite <- Hid, E, Hsel in Hsel0. injection Hsel0 as ->.
    right. right. split; [done|].
    exists TaskStatus.finished. rewrite Hsel. auto.
  - rewrite select_task_update. case_bool_decide as E; [|by left].
    cbn [RequestedTask.task_id RequestedTask.with_status] in E.
    rewrite E, Hsel in Hsel0. injection Hsel0 as ->.
    right. right. split; [done|].
    exists TaskStatus.aborted. rewrite Hsel. auto.
Qed.


(** X4.  Only the status of a task row ever changes: after any
    operations the row [get] returns for the id is the row it returned
    before, up to its status. *)
Theorem task_fields_immutable (calls : list (World * Call)) (σ : RTM)
    (task_id : TaskId) (t : RequestedTask.t) :
  select_task task_id (tasks σ) = Some t →
  ∃ st, select_task task_id (tasks (exec_all calls σ))
        = Some (RequestedTask.with_status st t).
Proof.
  intros Hsel.
  apply (exec_all_invariant
    (λ σ, ∃ st, select_task task_id (tasks σ) = Some (RequestedTask.with_status st t)));
    [|exists (RequestedTask.status t); by destruct t].
  intros σ0 σ1 _ Hstep [st Hsel0].
  destruct (store_step_select_task _ _ _ _ Hstep Hsel0)
    as [H|[[_ H]|(_ & st' & _ & H)]]; eauto.
Qed.

Lemma task_exists_select task_id σ :
  task_exists task_id σ
  = (Ok (bool_decide (is_Some (select_task task_id (tasks σ)))), σ).
Proof.
  unfold task_exists. mrun. do 2 f_equal. unfold select_task.
  induction (tasks σ) as [|a l IH]; cbn [List.existsb List.find].
  - rewrite bool_decide_false; [done|]. by intros [? ?].
  - destruct (bool_decide (RequestedTask.task_id a = task_id)); cbn [orb]; [|done].
    rewrite bool_decide_true; eauto.
Qed.

(** X2.  Tasks are never deleted: once [task_exists] answers [true] for
    an id it answers [true] after any further operations; and it never
    changes the state. *)
Theorem task_exists_persistent (calls : list (World * Call)) (σ : RTM)
    (task_id : TaskId) :
  (task_exists task_id σ).1 = Ok true →
  task_exists task_id (exec_all calls σ) = (Ok true, exec_all calls σ).
Proof.
  rewrite !task_exists_select. cbn [fst]. intros H. injection H as H.
  apply bool_decide_eq_true in H.
  rewrite bool_decide_true; [done|].
  apply (exec_all_invariant (λ σ, is_Some (select_task task_id (tasks σ))));
    [|done].
  intros σ0 σ1 _ Hstep [t Ht].
  destruct (store_step_select_task _ _ _ _ Hstep Ht)
    as [H'|[[_ H']|(_ & st' & _ & H')]]; eauto.
Qed.

(** X1.  When the generated id is not yet a task, [create_task] returns
    it and appends one row in [creating] that copies the parameters and
    starts now; it touches neither the subtasks nor the clients and calls
    nothing outside; afterwards [task_exists] answers [true] for the id
    and the rows of the other tasks are found as before. *)
Theorem create_task_then_exists (w : World) (golem_params : CreateTaskParams.t)
    (app_params : string) (σ : RTM) :
  select_task (generate_id w) (tasks σ) = None →
  let run := create_task w golem_params app_params σ in
  run.1 = Ok (generate_id w)
  ∧ tasks run.2
    = tasks σ ++
      [ {| RequestedTask.task_id := generate_id w;
           RequestedTask.app_id := CreateTaskParams.app_id golem_params;
           RequestedTask.name := CreateTaskParams.name golem_params;
           RequestedTask.status := TaskStatus.creating;
           RequestedTask.environment := CreateTaskParams.environment golem_params;
           RequestedTask.task_timeout := CreateTaskParams.task_timeout golem_params;
           RequestedTask.subtask_timeout :=
             CreateTaskParams.subtask_timeout golem_params;
           RequestedTask.start_time := default_now w;
           RequestedTask.max_price_per_hour :=
             CreateTaskParams.max_price_per_hour golem_params;
           RequestedTask.max_subtasks := CreateTaskParams.max_subtasks golem_params;
           RequestedTask.output_directory :=
             CreateTaskParams.output_directory golem_params;
           RequestedTask.resources := CreateTaskParams.resources golem_params;
           RequestedTask.app_params := app_params |} ]
  ∧ subtasks run.2 = subtasks σ
  ∧ _app_clients run.2 = _app_clients σ
  ∧ trace run.2 = trace σ
  ∧ task_exists (generate_id w) run.2 = (Ok true, run.2)
  ∧ (∀ task_id t, select_task task_id (tasks σ) = Some t →
                  select_task task_id (tasks run.2) = Some t).
Proof.
  intros Hfresh. cbn zeta.
  assert (Hex : List.existsb
    (λ r, bool_decide (RequestedTask.task_id r = generate_id w)) (tasks σ) = false).
  { pose proof (task_exists_select (generate_id w) σ) as H.
    unfold task_exists in H. mrun_in H. injection H as H. rewrite H, Hfresh.
    apply bool_decide_false. by intros [? ?]. }
  rewrite task_exists_select.
  unfold create_task. mrun. cbn [RequestedTask.task_id]. rewrite Hex.
  cbn [fst snd tasks subtasks _app_clients trace].
  repeat split; try done.
  - rewrite bool_decide_true; [done|].
    rewrite select_task_app, Hfresh. cbn [RequestedTask.task_id].
    rewrite bool_decide_true by done. eauto.
  - intros task_id t Ht. by apply select_task_app_Some.
Qed.

(** ** Invariants of the subtask table *)

Lemma cancelled_rows_not_active task_id rows r' :
  r' ∈ map (cancel_row (abort_selected task_id rows)) rows →
  RequestedSubtask.task r' = task_id →
  SubtaskStatus.is_active (RequestedSubtask.status r') = false.
Proof.
  intros Hin Htask. set (sel := abort_selected task_id rows) in *.
  apply list_elem_of_fmap in Hin as (r & -> & Hin).
  destruct (SubtaskStatus.is_active _) eqn:Hra; [exfalso|done].
  destruct (cancel_row_id_or_cancelled sel r) as [E|E].
  - rewrite E in Htask, Hra.
    assert (Hsel' : r ∈ sel) by (by apply abort_selected_elem).
    pose proof (cancel_row_selected sel r r Hsel' eq_refl) as Hc.
    rewrite E in Hc. by rewrite Hc in Hra.
  - by rewrite E in Hra.
Qed.

Lemma cancel_row_other_task task_id rows r :
  RequestedSubtask.task r ≠ task_id →
  cancel_row (abort_selected task_id rows) r = r.
Proof.
  intros Hne. apply cancel_row_other. intros s Hs Hpk.
  apply abort_selected_elem in Hs as (_ & Hts & _).
  unfold RequestedSubtask.pk in Hpk. congruence.
Qed.

Lemma cancel_row_task selected r :
  RequestedSubtask.task (cancel_row selected r) = RequestedSubtask.task r.
Proof.
  pose proof (cancel_row_pk selected r) as H. unfold RequestedSubtask.pk in H.
  congruence.
Qed.

Lemma aborted_without_active_step σ σ' :
  subtasks_have_task σ → store_step σ σ' →
  aborted_without_active σ → aborted_without_active σ'.
Proof.
  intros Hfk Hstep Hinv task_id t r Hsel Hab Hr Htask.
  destruct Hstep as [Ht Hs|row Hnew _ Ht Hs|t0 Hsel0 Hp Ht Hs
                    |t0 row Hsel0 Hact Hst _ Ht Hs
                    |t0 s st Hsel0 Hact Hsin _ Ht Hs|t0 s Hsel0 Hact Hsin Ht Hs
                    |t0 Hsel0 Hact Ht Hs];
    rewrite Ht in Hsel; rewrite Hs in Hr.
  - by eapply Hinv.
  - rewrite select_task_app in Hsel.
    destruct (select_task task_id (tasks σ)) as [t1|] eqn:Hold.
    + simplify_eq. by eapply Hinv.
    + destruct (Hfk r Hr) as [t1 Ht1]. rewrite Htask, Hold in Ht1. done.
  - rewrite select_task_update in Hsel. case_bool_decide as E.
    + destruct (select_task task_id (tasks σ)); [|done].
      cbn in Hsel. by simplify_eq.
    + by eapply Hinv.
  - apply elem_of_app in Hr as [Hr|Hr]; [by eapply Hinv|].
    apply list_elem_of_singleton in Hr. subst r.
    rewrite Htask, Hsel in Hsel0. simplify_eq. by rewrite Hab in Hact.
  - apply update_subtask_elem in Hr as [->|Hr]; [|by eapply Hinv].
    cbn [RequestedSubtask.task RequestedSubtask.with_status] in Htask.
    rewrite Htask, Hsel in Hsel0. simplify_eq. by rewrite Hab in Hact.
  - pose proof (select_task_Some _ _ _ Hsel0) as [Hid _].
    rewrite select_task_update in Hsel. case_bool_decide as E.
    + destruct (select_task task_id (tasks σ)); [|done].
      cbn in Hsel. by simplify_eq.
    + apply update_subtask_elem in Hr as [->|Hr]; [|by eapply Hinv].
      cbn [RequestedSubtask.task RequestedSubtask.with_status
           RequestedTask.task_id RequestedTask.with_status] in *.
      congruence.
  - rewrite select_task_update in Hsel. case_bool_decide as E.
    + cbn [RequestedTask.task_id RequestedTask.with_status] in E. subst task_id.
      by eapply cancelled_rows_not_active.
    + cbn [RequestedTask.task_id RequestedTask.with_status] in E.
      apply list_elem_of_fmap in Hr as (r0 & -> & Hr0).
      rewrite cancel_row_task in Htask.
      rewrite cancel_row_other_task by congruence. by eapply Hinv.
Qed.

Lemma subtasks_of_started_have_task σ : subtasks_of_started σ → subtasks_have_task σ.
Proof. intros H r Hr. destruct (H r Hr) as (t & Ht & _). eauto. Qed.

Lemma subtasks_of_started_step σ σ' :
  store_step σ σ' → subtasks_of_started σ → subtasks_of_started σ'.
Proof.
  intros Hstep Hinv r' Hr'.
  assert (Horigin :
    (∃ r, r ∈ subtasks σ ∧ RequestedSubtask.task r = RequestedSubtask.task r')
    ∨ ∃ t, select_task (RequestedSubtask.task r') (tasks σ) = Some t
           ∧ TaskStatus.is_active (RequestedTask.status t) = true).
  { destruct Hstep as [_ Hs|row _ _ _ Hs|t0 _ _ _ Hs|t0 row Hsel0 Hact _ _ _ Hs
                      |t0 s st _ _ Hsin _ _ Hs|t0 s _ _ Hsin _ Hs|t0 _ _ _ Hs];
      rewrite Hs in Hr'; try (left; by exists r').
    - apply elem_of_app in Hr' as [Hr'|Hr']; [left; by exists r'|].
      apply list_elem_of_singleton in Hr'. subst r'. right. eauto.
    - apply update_subtask_elem in Hr' as [->|Hr']; left; [by exists s|by exists r'].
    - apply update_subtask_elem in Hr' as [->|Hr']; left; [by exists s|by exists r'].
    - apply list_elem_of_fmap in Hr' as (r & -> & Hr). left. exists r.
      by rewrite cancel_row_task. }
  assert (Hold : ∃ t, select_task (RequestedSubtask.task r') (tasks σ) = Some t
                      ∧ RequestedTask.status t ≠ TaskStatus.creating).
  { destruct Horigin as [(r & Hr & <-)|(t & Ht & Hact)]; [by apply Hinv|].
    exists t. split; [done|]. intros E. by rewrite E in Hact. }
  destruct Hold as (t & Ht & Hst).
  destruct (store_step_select_task _ _ _ _ Hstep Ht)
    as [H|[[_ H]|(_ & st & [-> | ->] & H)]]; eauto.
Qed.

Lemma no_self_assignment_step σ σ' :
  _public_key σ' = _public_key σ → store_step σ σ' →
  no_self_assignment σ → no_self_assignment σ'.
Proof.
  intros Hk Hstep Hinv r' Hr'. rewrite Hk.
  destruct Hstep as [_ Hs|row _ _ _ Hs|t0 _ _ _ Hs|t0 row _ _ _ Hnode _ Hs
                    |t0 s st _ _ Hsin _ _ Hs|t0 s _ _ Hsin _ Hs|t0 _ _ _ Hs];
    rewrite Hs in Hr'; try (by apply Hinv).
  - apply elem_of_app in Hr' as [Hr'|Hr']; [by apply Hinv|].
    apply list_elem_of_singleton in Hr'. by subst r'.
  - apply update_subtask_elem in Hr' as [->|Hr']; [|by apply Hinv].
    by apply (Hinv s).
  - apply update_subtask_elem in Hr' as [->|Hr']; [|by apply Hinv].
    by apply (Hinv s).
  - apply list_elem_of_fmap in Hr' as (r & -> & Hr).
    destruct (cancel_row_from (abort_selected (RequestedTask.task_id t0) (subtasks σ)) r)
      as [->|(s & Hsel & ->)]; [by apply Hinv|].
    apply abort_selected_elem in Hsel as (Hsin & _). by apply (Hinv s).
Qed.

Lemma finished_with_finished_step σ σ' :
  store_step σ σ' → finished_with_finished σ → finished_with_finished σ'.
Proof.
  intros Hstep Hinv task_id t Hsel Hfin.
  destruct Hstep as [Ht Hs|row Hnew Hcr Ht Hs|t0 Hsel0 Hp Ht Hs
                    |t0 row Hsel0 Hact Hst _ Ht Hs
                    |t0 s st Hsel0 Hact Hsin _ Ht Hs|t0 s Hsel0 Hact Hsin Ht Hs
                    |t0 Hsel0 Hact Ht Hs];
    rewrite Ht in Hsel; rewrite Hs.
  - by eapply Hinv.
  - rewrite select_task_app in Hsel.
    destruct (select_task task_id (tasks σ)) as [t1|] eqn:Hold.
    + simplify_eq. by eapply Hinv.
    + case_bool_decide; [|done]. simplify_eq. by rewrite Hcr in Hfin.
  - rewrite select_task_update in Hsel. case_bool_decide as E.
    + destruct (select_task task_id (tasks σ)); [|done].
      cbn in Hsel. by simplify_eq.
    + by eapply Hinv.
  - destruct (Hinv task_id t Hsel Hfin) as (r & Hr & Hrt & Hrs).
    exists r. split; [|done]. apply elem_of_app. by left.
  - destruct (Hinv task_id t Hsel Hfin) as (r & Hr & Hrt & Hrs).
    pose proof (update_subtask_elem_2 (RequestedSubtask.with_status st s) _ r Hr)
      as Hr'.
    case_bool_decide as E; [|by exists r].
    unfold RequestedSubtask.pk in E. injection E as E1 E2.
    cbn [RequestedSubtask.task RequestedSubtask.with_status] in E1.
    rewrite <- E1, Hrt, Hsel in Hsel0. simplify_eq.
    rewrite Hfin in Hact. done.
  - pose proof (select_task_Some _ _ _ Hsel0) as [Hid _].
    pose proof (update_subtask_elem_2
      (RequestedSubtask.with_status SubtaskStatus.finished s) (subtasks σ)) as Hupd.
    rewrite select_task_update in Hsel. case_bool_decide as E.
    + cbn [RequestedTask.task_id RequestedTask.with_status] in E.
      exists (RequestedSubtask.with_status SubtaskStatus.finished s).
      split; [|split; [cbn; congruence|done]].
      specialize (Hupd s Hsin). by rewrite bool_decide_true in Hupd.
    + cbn [RequestedTask.task_id RequestedTask.with_status] in E.
      destruct (Hinv task_id t Hsel Hfin) as (r & Hr & Hrt & Hrs).
      exists r. split; [|done]. specialize (Hupd r Hr).
      rewrite bool_decide_false in Hupd; [done|].
      unfold RequestedSubtask.pk. intros E'. injection E' as E1 E2.
      cbn in E1. congruence.
  - rewrite select_task_update in Hsel. case_bool_decide as E.
    + destruct (select_task task_id (tasks σ)); [|done].
      cbn in Hsel. by simplify_eq.
    + cbn [RequestedTask.task_id RequestedTask.with_status] in E.
      destruct (Hinv task_id t Hsel Hfin) as (r & Hr & Hrt & Hrs).
      exists r. split; [|done].
      rewrite <- (cancel_row_other_task (RequestedTask.task_id t0) (subtasks σ) r)
        by congruence.
      by apply (list_elem_of_fmap_2 (cancel_row _)).
Qed.

(** The invariants together, along every run from an empty store. *)
Lemma store_invariants public_key calls :
  let σ := exec_all calls (init public_key) in
  _public_key σ = public_key
  ∧ subtasks_of_started σ ∧ no_self_assignment σ
  ∧ aborted_without_active σ ∧ finished_with_finished σ.
Proof.
  apply (exec_all_invariant
    (λ σ, _public_key σ = public_key
          ∧ subtasks_of_started σ ∧ no_self_assignment σ
          ∧ aborted_without_active σ ∧ finished_with_finished σ)).
  - intros σ σ' Hk Hstep (Hpk & H1 & H2 & H3 & H4).
    split; [congruence|]. split; [by eapply subtasks_of_started_step|].
    split; [by eapply no_self_assignment_step|].
    split; [|by eapply finished_with_finished_step].
    eapply aborted_without_active_step; [|done..].
    by apply subtasks_of_started_have_task.
  - split; [done|]. split; [intros r Hr; by apply elem_of_nil in Hr|].
    split; [intros r Hr; by apply elem_of_nil in Hr|]. split.
    + intros task_id t r Hsel. done.
    + intros task_id t Hsel. done.
Qed.

(** X5.  In every state of a run from an empty store no subtask is
    assigned to the manager's own key. *)
Theorem reachable_no_self_assignment (public_key : Key) (calls : list (World * Call))
    (r : RequestedSubtask.t) :
  r ∈ subtasks (exec_all calls (init public_key)) →
  RequestedSubtask.computing_node r ≠ public_key.
Proof.
  intros Hr. destruct (store_invariants public_key calls) as (Hk & _ & Hself & _).
  rewrite <- Hk. by apply Hself.
Qed.

(** X6.  In every state of a run from an empty store each subtask row
    belongs to a task of the store, and that task has left [creating]. *)
Theorem reachable_subtask_of_started_task (public_key : Key)
    (calls : list (World * Call)) (r : RequestedSubtask.t) :
  let σ := exec_all calls (init public_key) in
  r ∈ subtasks σ →
  ∃ t, select_task (RequestedSubtask.task r) (tasks σ) = Some t
       ∧ RequestedTask.status t ≠ TaskStatus.creating
       ∧ task_exists (RequestedSubtask.task r) σ = (Ok true, σ).
Proof.
  intros σ Hr. destruct (store_invariants public_key calls) as (_ & Hst & _).
  destruct (Hst r Hr) as (t & Ht & Hne). exists t. split; [done|]. split; [done|].
  rewrite task_exists_select. rewrite bool_decide_true; [done|]. eauto.
Qed.



Lemma reachable_no_self_assignment_witness :
  ScenarioRows.subtask_row SubtaskStatus.starting ∈ subtasks (Scenario.assigned 1)
  ∧ PyStr "abc" ≠ Scenario.public_key.
Proof.
  assert (Hin : ScenarioRows.subtask_row SubtaskStatus.starting
                ∈ subtasks (Scenario.assigned 1)) by (vm_compute; by left).
  split; [exact Hin|].
  exact (reachable_no_self_assignment Scenario.public_key (Scenario.assigned_calls 1)
           (ScenarioRows.subtask_row SubtaskStatus.starting) Hin).
Defined.

Lemma reachable_subtask_of_started_task_witness :
  ScenarioRows.subtask_row SubtaskStatus.starting ∈ subtasks (Scenario.assigned 1)
  ∧ ∃ t, select_task "t1" (tasks (Scenario.assigned 1)) = Some t
         ∧ RequestedTask.status t ≠ TaskStatus.creating.
Proof.
  assert (Hin : ScenarioRows.subtask_row SubtaskStatus.starting
                ∈ subtasks (Scenario.assigned 1)) by (vm_compute; by left).
  split; [exact Hin|].
  destruct (reachable_subtask_of_started_task Scenario.public_key
              (Scenario.assigned_calls 1)
              (ScenarioRows.subtask_row SubtaskStatus.starting) Hin)
    as (t & Ht & Hst & _).
  exists t. split; [exact Ht|exact Hst].
Defined.




Lemma task_fields_immutable_witness :
  select_task "t1" (tasks ScenarioRows.created)
    = Some (ScenarioRows.task_row 1 TaskStatus.creating)
  ∧ ∃ st, select_task "t1"
            (tasks (exec_all [ (Scenario.world true, call_start_task "t1") ]
                      ScenarioRows.created))
          = Some (RequestedTask.with_status st
                    (ScenarioRows.task_row 1 TaskStatus.creating)).
Proof.
  split; [reflexivity|].
  apply (task_fields_immutable [ (Scenario.world true, call_start_task "t1") ]
           ScenarioRows.created "t1" (ScenarioRows.task_row 1 TaskStatus.creating)).
  reflexivity.
Defined.

Lemma task_exists_persistent_witness :
  (task_exists "t1" ScenarioRows.created).1 = Ok true
  ∧ (task_exists "t1"
       (exec_all [ (Scenario.world true, call_start_task "t1");
                   (Scenario.world true, call_abort_task "t1") ]
          ScenarioRows.created)).1 = Ok true.
Proof.
  split; [reflexivity|].
  rewrite (task_exists_persistent
             [ (Scenario.world true, call_start_task "t1");
               (Scenario.world true, call_abort_task "t1") ]
             ScenarioRows.created "t1"); reflexivity.
Defined.

Lemma create_task_then_exists_witness :
  select_task "t2" (tasks (Scenario.assigned 1)) = None
  ∧ (create_task ScenarioWorlds.second_task (Scenario.golem_params 1) "{}"
       (Scenario.assigned 1)).1 = Ok "t2".
Proof.
  split; [reflexivity|].
  apply (create_task_then_exists ScenarioWorlds.second_task (Scenario.golem_params 1)
           "{}" (Scenario.assigned 1)).
  reflexivity.
Defined.

(** ** Refusals and failures of [verify] *)

(** X9.  [verify] on an existing task raises and leaves the whole state
    as it was when the task is not active ([TaskNotActive]), when no row
    has the subtask id ([DoesNotExist]), and when the row found belongs
    to another task ([AssertionError]). *)
Theorem verify_refusals (w : World) (σ : RTM) (task_id : TaskId)
    (subtask_id : SubtaskId) (t : RequestedTask.t) :
  select_task task_id (tasks σ) = Some t →
  (TaskStatus.is_active (RequestedTask.status t) = false →
     verify w task_id subtask_id σ = (Raise (TaskNotActive_verify task_id), σ))
  ∧ (TaskStatus.is_active (RequestedTask.status t) = true →
     select_subtask subtask_id (subtasks σ) = None →
     verify w task_id subtask_id σ = (Raise DoesNotExist, σ))
  ∧ (∀ s, TaskStatus.is_active (RequestedTask.status t) = true →
          select_subtask subtask_id (subtasks σ) = Some s →
          RequestedSubtask.task s ≠ task_id →
          verify w task_id subtask_id σ = (Raise AssertionError, σ)).
Proof.
  intros Hsel. pose proof (select_task_Some _ _ _ Hsel) as [Hid _].
  repeat split.
  - intros Hact. unfold verify. mrun. by rewrite Hsel, Hact.
  - intros Hact Hs. unfold verify. mrun. rewrite Hsel, Hact. cbn [negb].
    by rewrite Hs.
  - intros s Hact Hs Hne. unfold verify. mrun. rewrite Hsel, Hact. cbn [negb].
    rewrite Hs. rewrite bool_decide_false by congruence. done.
Qed.

Lemma _get_app_client_trace w app_id env_id σ :
  ∃ evs, trace (_get_app_client w app_id env_id σ).2 = trace σ ++ evs
         ∧ ∀ ev, ev ∈ evs →
                 ev = ev_enabled env_id ∨ ev = ev_client_create app_id env_id.
Proof.
  unfold _get_app_client, _get_task_api_service. mrun.
  destruct (_app_clients σ !! app_id).
  { exists []. cbn. rewrite app_nil_r. split; [done|].
    intros ev Hev. by apply elem_of_nil in Hev. }
  destruct (enabled w env_id); cbn [negb].
  - exists [ev_enabled env_id; ev_client_create app_id env_id].
    split; [by destruct (client_create w) as [[]|]; cbn; rewrite <- app_assoc|].
    intros ev Hev. apply elem_of_cons in Hev as [->|Hev]; [by left|].
    apply elem_of_cons in Hev as [->|Hev]; [by right|]. by apply elem_of_nil in Hev.
  - exists [ev_enabled env_id]. split; [done|].
    intros ev Hev. apply elem_of_cons in Hev as [->|Hev]; [by left|].
    by apply elem_of_nil in Hev.
Qed.

(** X10.  When the application raises on [verify], the exception is
    propagated, the subtask's row is left in [verifying], the task table
    is unchanged, and the outside calls made are the client's creation
    (if it was needed) and [verify]: no timer is finished and no client
    shut down. *)
Theorem verify_app_error (w : World) (σ : RTM) (task_id : TaskId)
    (subtask_id : SubtaskId) (t : RequestedTask.t) (s : RequestedSubtask.t)
    (e : Exception) :
  select_task task_id (tasks σ) = Some t →
  TaskStatus.is_active (RequestedTask.status t) = true →
  select_subtask subtask_id (subtasks σ) = Some s →
  RequestedSubtask.task s = task_id →
  client_available w σ (RequestedTask.app_id t) (RequestedTask.environment t) →
  app_verify w = Raise e →
  let σ' := (verify w task_id subtask_id σ).2 in
  (verify w task_id subtask_id σ).1 = Raise e
  ∧ select_subtask subtask_id (subtasks σ')
    = Some (RequestedSubtask.with_status SubtaskStatus.verifying s)
  ∧ tasks σ' = tasks σ
  ∧ ∃ evs, trace σ' = trace σ ++ evs
           ++ [ev_verify (RequestedTask.app_id t) task_id subtask_id]
           ∧ ∀ ev, ev ∈ evs →
                   ev = ev_enabled (RequestedTask.environment t)
                   ∨ ev = ev_client_create (RequestedTask.app_id t)
                            (RequestedTask.environment t).
Proof.
  intros Hsel Hact Hs Hown Hav Hverify.
  pose proof (select_task_Some _ _ _ Hsel) as [Hid _].
  unfold verify. mrun. rewrite Hsel, Hact. cbn [negb]. rewrite Hs.
  rewrite bool_decide_true by congruence. cbn [negb].
  pose proof (_get_app_client_frame w (RequestedTask.app_id t)
                (RequestedTask.environment t) σ) as (_ & Ht & Hsub & _).
  destruct (_get_app_client_trace w (RequestedTask.app_id t)
              (RequestedTask.environment t) σ) as (evs & Htr & Hevs).
  destruct (_get_app_client_available _ _ _ _ Hav) as (c & Hc & Hin).
  destruct (_get_app_client w _ _ σ) as [[c'|e0] σ1]; simpl in *; [|done].
  rewrite Hverify. cbn [fst snd tasks subtasks trace].
  rewrite Ht, Hsub, Htr.
  split; [done|]. split; [by eapply select_subtask_update_eq|].
  split; [done|]. exists evs. rewrite <- app_assoc, Hid. done.
Qed.

(** ** The life of an application client *)

Lemma _get_app_client_Ok_lookup w app_id env_id σ client :
  (_get_app_client w app_id env_id σ).1 = Ok client →
  _app_clients (_get_app_client w app_id env_id σ).2 !! app_id = Some client.
Proof.
  unfold _get_app_client, _get_task_api_service. mrun.
  destruct (_app_clients σ !! app_id) as [c|] eqn:Hc.
  - cbn. intros H. by simplify_eq.
  - destruct (enabled w env_id); cbn [negb]; [|done].
    destruct (client_create w) as [[]|]; [|done]. cbn. intros H. simplify_eq.
    apply lookup_insert_eq.
Qed.


Lemma _get_app_client_disabled (w : World) (app_id : string) (env_id : EnvId)
    (σ : RTM) :
  _app_clients σ !! app_id = None →
  enabled w env_id = false →
  _get_app_client w app_id env_id σ
  = (Raise (RuntimeError
              ("Error connecting to app: " +:+ env_id +:+ ". environment not enabled")),
     mkRTM (_public_key σ) (_app_clients σ) (tasks σ) (subtasks σ)
           (trace σ ++ [ev_enabled env_id])).
Proof.
  intros Hc Hen. unfold _get_app_client, _get_task_api_service. mrun.
  by rewrite Hc, Hen.
Qed.

(** X12.  [init_task] on a task in [creating] whose application has no
    client yet and whose environment is not enabled raises the
    "environment not enabled" error: the temporary directory was cleared
    and the environment manager asked, but no client is created, the
    application is not called and the tables and the map are as they
    were. *)
Theorem init_task_environment_disabled (w : World) (σ : RTM) (task_id : TaskId)
    (t : RequestedTask.t) :
  select_task task_id (tasks σ) = Some t →
  RequestedTask.status t = TaskStatus.creating →
  _app_clients σ !! RequestedTask.app_id t = None →
  enabled w (RequestedTask.environment t) = false →
  init_task w task_id σ
  = (Raise (RuntimeError
              ("Error connecting to app: " +:+ RequestedTask.environment t
               +:+ ". environment not enabled")),
     mkRTM (_public_key σ) (_app_clients σ) (tasks σ) (subtasks σ)
       (trace σ ++ [ev_clear_temporary task_id;
                    ev_enabled (RequestedTask.environment t)])).
Proof.
  intros Hsel Hst Hc Hen. unfold init_task. mrun. rewrite Hsel.
  rewrite bool_decide_true by done. cbn [negb].
  rewrite _get_app_client_disabled by done.
  cbn [_public_key _app_clients tasks subtasks trace]. by rewrite <- app_assoc.
Qed.

Lemma active_tasks_count_zero app_id rows :
  scalar
    (Select (λ r : RequestedTask.t,
       bool_decide (RequestedTask.app_id r = app_id)
       && bool_decide (RequestedTask.status r ∈
            [TaskStatus.sending; TaskStatus.waiting;
             TaskStatus.starting; TaskStatus.computing]))) rows = 0
  ↔ ¬ app_has_active_task app_id rows.
Proof.
  unfold scalar, app_has_active_task. cbn [where_].
  match goal with |- context [List.filter ?f rows] => set (f0 := f) end.
  split.
  - intros Hz (r & Hr & Happ & Hact).
    assert (Hin : In r (List.filter f0 rows)).
    { apply filter_In. split; [by apply list_elem_of_In|]. unfold f0.
      rewrite TaskStatus_is_active_list, Hact. by rewrite bool_decide_true. }
    destruct (List.filter f0 rows); [done|]. cbn in Hz. lia.
  - intros Hnone. destruct (List.filter f0 rows) as [|r l] eqn:Hf; [done|].
    destruct Hnone. exists r.
    assert (Hin : In r (List.filter f0 rows)) by (rewrite Hf; by left).
    apply filter_In in Hin as [Hin Hr]. unfold f0 in Hr.
    rewrite TaskStatus_is_active_list in Hr. apply andb_true_iff in Hr as [Ha Hb].
    apply bool_decide_eq_true in Ha. split; [by apply list_elem_of_In|done].
Qed.

(** X13.  The teardown sweep does nothing while a task of the
    application is still in one of the four active statuses: it returns
    and the state, the client included, is as it was. *)
Theorem _shutdown_app_client_keeps_client (w : World) (app_id : string) (σ : RTM) :
  app_has_active_task app_id (tasks σ) →
  _shutdown_app_client w app_id σ = (Ok tt, σ).
Proof.
  intros Hact. unfold _shutdown_app_client. mrun.
  rewrite bool_decide_false; [done|].
  intros Hz. by apply active_tasks_count_zero in Hz.
Qed.

(** X14.  When no task of the application is active and the map holds
    its client, the sweep calls [shutdown] once; the entry is removed
    when [shutdown] returns, and kept, with the exception propagated,
    when it raises. *)
Theorem _shutdown_app_client_removes_client (w : World) (app_id : string) (σ : RTM)
    (client : RequestorAppClient) :
  ¬ app_has_active_task app_id (tasks σ) →
  _app_clients σ !! app_id = Some client →
  _shutdown_app_client w app_id σ
  = match app_shutdown w with
    | Ok _ =>
        (Ok tt, mkRTM (_public_key σ) (delete app_id (_app_clients σ)) (tasks σ)
                  (subtasks σ) (trace σ ++ [ev_shutdown app_id]))
    | Raise e =>
        (Raise e, mkRTM (_public_key σ) (_app_clients σ) (tasks σ)
                    (subtasks σ) (trace σ ++ [ev_shutdown app_id]))
    end.
Proof.
  intros Hnone Hc. unfold _shutdown_app_client. mrun.
  rewrite bool_decide_true by (by apply active_tasks_count_zero).
  rewrite Hc. by destruct (app_shutdown w) as [[]|].
Qed.

(** ** [init_task] again *)

(** X15.  [init_task] may be repeated on a task that was not started:
    after an [init_task] that returned, a second one returns as well when
    the application accepts [create_task]; it reuses the client already
    in the map, sends [create_task] to it again and leaves the task in
    [creating]. *)
Theorem init_task_twice (w w' : World) (σ : RTM) (task_id : TaskId)
    (t : RequestedTask.t) :
  select_task task_id (tasks σ) = Some t →
  (init_task w task_id σ).1 = Ok tt →
  app_create_task w' = Ok tt →
  let σ1 := (init_task w task_id σ).2 in
  init_task w' task_id σ1
  = (Ok tt,
     mkRTM (_public_key σ1) (_app_clients σ1) (tasks σ) (subtasks σ1)
       (trace σ1 ++ [ev_clear_temporary task_id;
                     ev_create_task (RequestedTask.app_id t) task_id
                       (RequestedTask.max_subtasks t) (RequestedTask.app_params t)]))
  ∧ RequestedTask.status t = TaskStatus.creating.
Proof.
  intros Hsel Hok Hcreate. cbn zeta.
  pose proof (select_task_Some _ _ _ Hsel) as [Hid _].
  destruct (init_task_frame w task_id σ) as (_ & Htasks & _).
  assert (Hst : RequestedTask.status t = TaskStatus.creating
                ∧ is_Some (_app_clients (init_task w task_id σ).2
                           !! RequestedTask.app_id t)).
  { revert Hok. unfold init_task. mrun. rewrite Hsel.
    case_bool_decide as Hst; cbn [negb]; [|done].
    match goal with |- context [_get_app_client ?w ?a ?e ?s] =>
      pose proof (_get_app_client_Ok_lookup w a e s) as Hlook;
      destruct (_get_app_client w a e s) as [[c|e0] σ2] eqn:Hget end; [|done].
    cbn [fst snd] in Hlook. specialize (Hlook c eq_refl).
    destruct (app_create_task w) as [[]|]; [|done]. intros _. split; [done|].
    cbn [snd _app_clients]. eauto. }
  destruct Hst as [Hst [c Hc]]. split; [|done].
  set (σ1 := (init_task w task_id σ).2) in *.
  unfold init_task. mrun. rewrite Htasks, Hsel.
  rewrite bool_decide_true by done. cbn [negb].
  rewrite (_get_app_client_present w' _ _ _ c) by done.
  rewrite Hcreate, Hid. cbn [tasks subtasks trace _app_clients _public_key].
  by rewrite <- app_assoc, Htasks.
Qed.

(** ** Outcomes of [get_next_subtask] and [has_pending_subtasks] *)

Lemma _get_app_client_no_timer w app_id env_id σ id :
  ev_timer_start id ∈ trace (_get_app_client w app_id env_id σ).2 →
  ev_timer_start id ∈ trace σ.
Proof.
  unfold _get_app_client, _get_task_api_service. mrun.
  destruct (_app_clients σ !! app_id); cbn [snd trace]; [done|].
  destruct (enabled w env_id); cbn [negb snd trace];
    [destruct (client_create w) as [[]|e]; cbn [snd trace]|].
  all: intros Hin.
  all: repeat (apply elem_of_app in Hin as [Hin|Hin];
               [|apply elem_of_cons in Hin as [Hin|Hin];
                 [discriminate|by apply elem_of_nil in Hin]]).
  all: done.
Qed.

Lemma has_pending_subtasks_no_timer w task_id σ id :
  ev_timer_start id ∈ trace (has_pending_subtasks w task_id σ).2 →
  ev_timer_start id ∈ trace σ.
Proof.
  unfold has_pending_subtasks. mrun.
  destruct (select_task task_id (tasks σ)) as [t|]; [|done].
  match goal with |- context [_get_app_client ?w ?a ?e ?s] =>
    pose proof (_get_app_client_no_timer w a e s id) as Hc;
    destruct (_get_app_client w a e s) as [[c|e0] σ1] end;
    cbn [snd] in Hc; [|done].
  destruct (app_has_pending_subtasks w); cbn [snd trace]; intros Hin.
  all: apply elem_of_app in Hin as [Hin|Hin]; [by apply Hc|].
  all: apply elem_of_cons in Hin as [Hin|Hin];
    [discriminate|by apply elem_of_nil in Hin].
Qed.

Local Ltac unchanged := split; [done|]; split; [by auto|by left].

(** X16.  [get_next_subtask] never changes the task table.  When it
    returns it has added one subtask row, in [starting], for the given
    task and provider, with the id it returns.  When it raises it has
    started no timer, and the subtask table is as it was, with one
    exception: an [OverflowError] of the deadline's date arithmetic is
    raised after the row was created, and leaves that row, in
    [starting], in the table. *)
Theorem get_next_subtask_table_outcomes (w : World) (σ : RTM) (task_id : TaskId)
    (computing_node : ComputingNode.t) :
  let run := get_next_subtask w task_id computing_node σ in
  tasks run.2 = tasks σ
  ∧ match run.1 with
    | Raise e =>
        (∀ id, ev_timer_start id ∈ trace run.2 → ev_timer_start id ∈ trace σ)
        ∧ (subtasks run.2 = subtasks σ
           ∨ e = OverflowError
             ∧ ∃ row, subtasks run.2 = subtasks σ ++ [row]
                      ∧ RequestedSubtask.task row = task_id
                      ∧ RequestedSubtask.status row = SubtaskStatus.starting
                      ∧ RequestedSubtask.computing_node row
                        = ComputingNode.node_id computing_node)
    | Ok definition =>
        ∃ row, subtasks run.2 = subtasks σ ++ [row]
               ∧ RequestedSubtask.subtask_id row
                 = SubtaskDefinition.subtask_id definition
               ∧ RequestedSubtask.task row = task_id
               ∧ RequestedSubtask.status row = SubtaskStatus.starting
               ∧ RequestedSubtask.computing_node row
                 = ComputingNode.node_id computing_node
    end.
Proof.
  cbn zeta. unfold get_next_subtask. mrun.
  destruct (select_task task_id (tasks σ)) as [t|] eqn:Hsel; [|unchanged].
  pose proof (select_task_Some _ _ _ Hsel) as [Hid _].
  case_bool_decide; [unchanged|].
  destruct (TaskStatus.is_active (RequestedTask.status t)) eqn:Hact; cbn [negb];
    [|unchanged].
  rewrite _get_unfinished_subtasks_count.
  destruct (0 <? _)%Z; [unchanged|].
  pose proof (has_pending_subtasks_frame w task_id σ) as (Hk & Ht & Hs).
  pose proof (has_pending_subtasks_no_timer w task_id σ) as Htr.
  destruct (has_pending_subtasks w task_id σ) as [[b|e] σ1];
    simpl in Hk, Ht, Hs, Htr; [|unchanged].
  destruct b; cbn [negb]; [|unchanged].
  match goal with |- context [_get_app_client ?w ?a ?e ?s] =>
    pose proof (_get_app_client_frame w a e s) as (Hk' & Ht' & Hs' & _);
    pose proof (_get_app_client_no_timer w a e s) as Htr';
    destruct (_get_app_client w a e s) as [[c|e0] σ2] end;
    simpl in Hk', Ht', Hs', Htr'; cbn [fst snd].
  2: { split; [congruence|]. split; [by auto|]. left. congruence. }
  assert (Hno : ∀ ev id, (∀ id', ev ≠ ev_timer_start id') →
            ev_timer_start id ∈ trace σ2 ++ [ev] → ev_timer_start id ∈ trace σ).
  { intros ev id Hev Hin. apply elem_of_app in Hin as [Hin|Hin]; [by auto|].
    apply elem_of_cons in Hin as [Hin|Hin]; [by destruct (Hev id)|].
    by apply elem_of_nil in Hin. }
  destruct (app_next_subtask w) as [d|e1]; cbn [fst snd tasks subtasks trace].
  2: { split; [congruence|]. split; [|left; congruence].
       intros id. by apply Hno. }
  match goal with |- context [List.existsb ?f ?l] =>
    destruct (List.existsb f l) end; cbn [fst snd tasks subtasks trace].
  { split; [congruence|]. split; [|left; congruence].
    intros id. by apply Hno. }
  cbn [RequestedSubtask.start_time].
  destruct (timedelta_milliseconds _) as [delta|e2] eqn:Hdelta; cbv beta iota.
  2: { apply timedelta_milliseconds_inv in Hdelta as [?| [= ->]]; [done|].
       cbn [fst snd tasks subtasks trace].
       split; [congruence|]. split; [intros id; by apply Hno|]. right.
       split; [done|]. eexists. split; [by rewrite Hs', Hs|]. done. }
  destruct (datetime_add _ _) as [deadline|e3] eqn:Hdate; cbv beta iota;
    cbn [fst snd tasks subtasks trace].
  2: { apply datetime_add_inv in Hdate as [?| [= ->]]; [done|].
       split; [congruence|]. split; [intros id; by apply Hno|]. right.
       split; [done|]. eexists. split; [by rewrite Hs', Hs|]. done. }
  split; [congruence|]. eexists. split; [by rewrite Hs', Hs|]. done.
Qed.

(** X17.  [has_pending_subtasks] keeps no answer of its own: on an
    existing task whose client can be handed out it returns, or raises,
    just what the application answers, and leaves both tables as they
    were. *)
Theorem has_pending_subtasks_forwards (w : World) (σ : RTM) (task_id : TaskId)
    (t : RequestedTask.t) :
  select_task task_id (tasks σ) = Some t →
  client_available w σ (RequestedTask.app_id t) (RequestedTask.environment t) →
  let run := has_pending_subtasks w task_id σ in
  run.1 = app_has_pending_subtasks w
  ∧ tasks run.2 = tasks σ ∧ subtasks run.2 = subtasks σ
  ∧ ev_has_pending_subtasks (RequestedTask.app_id t) task_id ∈ trace run.2.
Proof.
  intros Hsel Hav. cbn zeta.
  pose proof (select_task_Some _ _ _ Hsel) as [Hid _].
  unfold has_pending_subtasks. mrun. rewrite Hsel.
  pose proof (_get_app_client_frame w (RequestedTask.app_id t)
                (RequestedTask.environment t) σ) as (_ & Ht & Hs & _).
  destruct (_get_app_client_available _ _ _ _ Hav) as (c & Hc & _).
  destruct (_get_app_client w _ _ σ) as [[c'|e0] σ1]; simpl in *; [|done].
  rewrite Hid.
  destruct (app_has_pending_subtasks w); cbn [fst snd tasks subtasks trace];
    repeat split; try done.
  all: apply elem_of_app; right; apply elem_of_cons; by left.
Qed.

(** ** [quit] *)

Lemma quit_loop_state (apps : list (string * RequestorAppClient)) σ :
  fold_left
    (λ σ0 app,
       mkRTM (_public_key σ0) (_app_clients σ0) (tasks σ0) (subtasks σ0)
         (trace σ0 ++ [ev_shutdown app.1]))
    apps σ
  = mkRTM (_public_key σ) (_app_clients σ) (tasks σ) (subtasks σ)
      (trace σ ++ map (λ app, ev_shutdown app.1) apps).
Proof.
  revert σ. induction apps as [|app apps IH]; intros σ.
  - cbn. rewrite app_nil_r. by destruct σ.
  - cbn [fold_left map]. rewrite IH. cbn [_public_key _app_clients tasks subtasks trace].
    by rewrite <- app_assoc.
Qed.

Lemma quit_run (σ : RTM) :
  quit σ
  = (Ok tt,
     mkRTM (_public_key σ) (_app_clients σ) (tasks σ) (subtasks σ)
       (trace σ ++ map (λ app, ev_shutdown app.1) (map_to_list (_app_clients σ)))).
Proof.
  unfold quit. mrun. case_bool_decide as E.
  - rewrite E, map_to_list_empty. cbn. rewrite app_nil_r.
    destruct σ. cbn in *. by subst.
  - erewrite for_each_spec by (intros; reflexivity).
    by rewrite quit_loop_state.
Qed.

(** X18.  [quit] returns after telling every client of the map to shut
    down, each one once and nothing else (nothing at all when the map is
    empty); it leaves the map and both tables as they are, so the clients
    stay registered after they were shut down. *)
Theorem quit_shuts_down_every_client (σ : RTM) :
  let σ' := (quit σ).2 in
  (quit σ).1 = Ok tt
  ∧ _app_clients σ' = _app_clients σ
  ∧ tasks σ' = tasks σ ∧ subtasks σ' = subtasks σ
  ∧ ∃ evs, trace σ' = trace σ ++ evs
           ∧ NoDup evs
           ∧ ∀ ev, ev ∈ evs ↔ ∃ app_id, ev = ev_shutdown app_id
                                        ∧ is_Some (_app_clients σ !! app_id).
Proof.
  rewrite quit_run. cbn [fst snd _app_clients tasks subtasks trace].
  repeat split; try done.
  exists (map (λ app, ev_shutdown app.1) (map_to_list (_app_clients σ))).
  split; [done|]. split.
  - pose proof (NoDup_fst_map_to_list (_app_clients σ)) as Hnd.
    change (map (λ app : string * RequestorAppClient, ev_shutdown app.1)
              (map_to_list (_app_clients σ)))
      with (ev_shutdown <$> (map_to_list (_app_clients σ)).*1 : list Event)
      || rewrite <- (map_map fst ev_shutdown).
    assert (Hinj : Inj (=) (=) ev_shutdown) by (intros a b H; by injection H).
    by apply (NoDup_fmap_2 ev_shutdown).
  - intros ev. rewrite list_elem_of_fmap. split.
    + intros ([a c] & -> & Hin). exists a. split; [done|].
      apply elem_of_map_to_list in Hin. eauto.
    + intros (a & -> & [c Hc]). exists (a, c). split; [done|].
      by apply elem_of_map_to_list.
Qed.

(** ** Completed tasks *)

(** X19.  A completed task absorbs every operation: [init_task],
    [start_task], [verify], [abort_task] and [get_next_subtask] (for a
    provider other than the manager) each raise their refusal and leave
    the whole state as it was. *)
Theorem completed_task_refuses (w : World) (σ : RTM) (task_id : TaskId)
    (subtask_id : SubtaskId) (computing_node : ComputingNode.t)
    (t : RequestedTask.t) :
  select_task task_id (tasks σ) = Some t →
  TaskStatus.is_completed (RequestedTask.status t) = true →
  init_task w task_id σ = (Raise (AlreadyInitialized task_id), σ)
  ∧ start_task task_id σ = (Raise (AlreadyStarted task_id), σ)
  ∧ verify w task_id subtask_id σ = (Raise (TaskNotActive_verify task_id), σ)
  ∧ abort_task w task_id σ = (Raise (TaskNotActive_abort task_id), σ)
  ∧ (ComputingNode.node_id computing_node ≠ _public_key σ →
     get_next_subtask w task_id computing_node σ
     = (Raise (AssignmentRefused rule_task_active task_id), σ)).
Proof.
  intros Hsel Hc.
  pose proof (TaskStatus_completed_not_active _ Hc) as Hact.
  pose proof (TaskStatus_completed_not_preparing _ Hc) as Hprep.
  split; [|split; [|split; [|split]]].
  - unfold init_task. mrun. rewrite Hsel. rewrite bool_decide_false; [done|].
    intros E. by rewrite E in Hc.
  - unfold start_task. mrun. by rewrite Hsel, Hprep.
  - unfold verify. mrun. by rewrite Hsel, Hact.
  - unfold abort_task. mrun. by rewrite Hsel, Hact.
  - intros Hself. by apply (get_next_subtask_not_active w σ task_id computing_node t).
Qed.

(** ** A client shared by several tasks *)

Lemma update_task_other row rows other :
  other ∈ rows → RequestedTask.task_id other ≠ RequestedTask.task_id row →
  other ∈ update_task row rows.
Proof.
  intros Hin Hne. unfold update_task. apply list_elem_of_fmap. exists other.
  by rewrite bool_decide_false.
Qed.

Lemma cancel_loop_trace (selected : list RequestedSubtask.t) σ :
  trace
    (fold_left
       (λ σ0 s,
          mkRTM (_public_key σ0) (_app_clients σ0) (tasks σ0)
            (update_subtask (RequestedSubtask.with_status SubtaskStatus.cancelled s)
               (subtasks σ0))
            (trace σ0 ++ [ev_timer_finish (RequestedSubtask.subtask_id s)]))
       selected σ)
  = trace σ ++ map (λ s, ev_timer_finish (RequestedSubtask.subtask_id s)) selected.
Proof.
  revert σ. induction selected as [|s selected IH]; intros σ.
  - cbn. by rewrite app_nil_r.
  - cbn [fold_left map]. rewrite IH. cbn [trace]. by rewrite <- app_assoc.
Qed.

(** X20.  Aborting a task while another task of the same application is
    still active returns, sends no [shutdown] (only the timers of the
    cancelled subtasks are finished) and leaves the client map as it
    was. *)
Theorem abort_task_keeps_shared_client (w : World) (σ : RTM) (task_id : TaskId)
    (t other : RequestedTask.t) :
  select_task task_id (tasks σ) = Some t →
  TaskStatus.is_active (RequestedTask.status t) = true →
  other ∈ tasks σ →
  RequestedTask.task_id other ≠ task_id →
  RequestedTask.app_id other = RequestedTask.app_id t →
  TaskStatus.is_active (RequestedTask.status other) = true →
  let σ' := (abort_task w task_id σ).2 in
  (abort_task w task_id σ).1 = Ok tt
  ∧ _app_clients σ' = _app_clients σ
  ∧ trace σ'
    = trace σ ++ map (λ s, ev_timer_finish (RequestedSubtask.subtask_id s))
                   (abort_selected task_id (subtasks σ)).
Proof.
  intros Hsel Hact Hother Hne Happ Hoact.
  pose proof (select_task_Some _ _ _ Hsel) as [Hid _].
  unfold abort_task. mrun. rewrite Hsel, Hact. cbn [negb].
  erewrite for_each_spec by (intros; reflexivity).
  match goal with |- context [fold_left ?f ?sel ?σ1] =>
    pose proof (cancel_loop_state sel σ1) as HL; cbn zeta in HL;
    pose proof (cancel_loop_trace sel σ1) as HT;
    set (σL := fold_left f sel σ1) in *;
    cbn [tasks subtasks _public_key _app_clients trace] in HL, HT;
    destruct HL as (_ & Hcl & Ht & _)
  end.
  clearbody σL.
  change (RequestedTask.app_id (RequestedTask.with_status TaskStatus.aborted t))
    with (RequestedTask.app_id t).
  unfold _shutdown_app_client. mrun. rewrite bool_decide_false.
  - cbn [fst snd]. split; [done|]. split; [done|]. rewrite HT.
    unfold execute, abort_selected. cbn [where_]. do 2 f_equal.
    apply filter_ext. intros r. rewrite SubtaskStatus_is_active_list.
    cbn [RequestedTask.task_id RequestedTask.with_status]. by rewrite Hid.
  - intros Hz. apply active_tasks_count_zero in Hz. destruct Hz.
    exists other. rewrite Ht. split; [|done].
    apply update_task_other; [done|].
    cbn [RequestedTask.task_id RequestedTask.with_status]. congruence.
Qed.

(** X21.  A successful verification while another task of the same
    application is still active returns [true] and sends no [shutdown]:
    the client stays in the map. *)
Theorem verify_true_keeps_shared_client (w : World) (σ : RTM) (task_id : TaskId)
    (subtask_id : SubtaskId) (t other : RequestedTask.t) (s : RequestedSubtask.t) :
  select_task task_id (tasks σ) = Some t →
  TaskStatus.is_active (RequestedTask.status t) = true →
  select_subtask subtask_id (subtasks σ) = Some s →
  RequestedSubtask.task s = task_id →
  client_available w σ (RequestedTask.app_id t) (RequestedTask.environment t) →
  app_verify w = Ok true →
  other ∈ tasks σ →
  RequestedTask.task_id other ≠ task_id →
  RequestedTask.app_id other = RequestedTask.app_id t →
  TaskStatus.is_active (RequestedTask.status other) = true →
  let σ' := (verify w task_id subtask_id σ).2 in
  (verify w task_id subtask_id σ).1 = Ok true
  ∧ is_Some (_app_clients σ' !! RequestedTask.app_id t)
  ∧ ∃ evs, trace σ' = trace σ ++ evs ∧ no_shutdown evs.
Proof.
  intros Hsel Hact Hs Hown Hav Hverify Hother Hne Happ Hoact.
  pose proof (select_task_Some _ _ _ Hsel) as [Hid _].
  unfold verify. mrun. rewrite Hsel, Hact. cbn [negb]. rewrite Hs.
  rewrite bool_decide_true by congruence. cbn [negb].
  pose proof (_get_app_client_frame w (RequestedTask.app_id t)
                (RequestedTask.environment t) σ) as (_ & Ht & Hsub & evs & Htr & Hno).
  destruct (_get_app_client_available _ _ _ _ Hav) as (c & Hc & Hin).
  destruct (_get_app_client w _ _ σ) as [[c'|e0] σ1]; simpl in *; [|done].
  rewrite Hverify. cbn [truth].
  change (RequestedTask.app_id (RequestedTask.with_status TaskStatus.finished t))
    with (RequestedTask.app_id t).
  unfold _shutdown_app_client. mrun. rewrite bool_decide_false.
  - cbn [fst snd _app_clients trace]. split; [done|]. split; [done|].
    exists (evs ++ [ev_verify (RequestedTask.app_id t) (RequestedTask.task_id t)
                      subtask_id; ev_timer_finish subtask_id]).
    rewrite Htr. split; [by rewrite <- !app_assoc|].
    intros a Ha. apply elem_of_app in Ha as [Ha|Ha]; [by eapply Hno|].
    repeat (apply elem_of_cons in Ha as [Ha|Ha]; [done|]).
    by apply elem_of_nil in Ha.
  - intros Hz. apply active_tasks_count_zero in Hz. destruct Hz.
    exists other. rewrite Ht. split; [|done].
    apply update_task_other; [done|].
    cbn [RequestedTask.task_id RequestedTask.with_status]. congruence.
Qed.

(** ** The pooling marketplace *)

Module PoolingProperties.
Import RequestorPoolingMarketStrategy.

Lemma add_lookup (offer : Offer) (_pools : gmap string (list Offer)) :
  add offer _pools !! task_id offer
  = Some (default [] (_pools !! task_id offer) ++ [offer]).
Proof.
  unfold add. case_bool_decide as E.
  - destruct E as [pool Hpool]. rewrite lookup_alter_eq, Hpool. done.
  - rewrite lookup_alter_eq, lookup_insert_eq.
    destruct (_pools !! task_id offer) eqn:Hp; [|done]. destruct E. eauto.
Qed.

Lemma add_lookup_ne (offer : Offer) (_pools : gmap string (list Offer)) task :
  task ≠ task_id offer → add offer _pools !! task = _pools !! task.
Proof.
  intros Hne. unfold add. rewrite lookup_alter_ne by done.
  case_bool_decide; [done|]. by rewrite lookup_insert_ne.
Qed.

(** X22.  [add] counts: the offer count of the offer's task grows by one
    and the count of every other task is unchanged. *)
Theorem add_counts (offer : Offer) (_pools : gmap string (list Offer)) (task : string) :
  get_task_offer_count task (add offer _pools)
  = if bool_decide (task = task_id offer)
    then S (get_task_offer_count task _pools)
    else get_task_offer_count task _pools.
Proof.
  unfold get_task_offer_count. case_bool_decide as E.
  - subst task. rewrite add_lookup.
    destruct (_pools !! task_id offer); cbn; [|done].
    rewrite length_app. cbn. lia.
  - by rewrite add_lookup_ne.
Qed.

(** X23.  [clear_offers_for_task] empties the task's pool, also when
    there was none, and leaves the count of every other task as it
    was. *)
Theorem clear_offers_for_task_counts (task task' : string)
    (_pools : gmap string (list Offer)) :
  get_task_offer_count task' (clear_offers_for_task task _pools)
  = if bool_decide (task' = task) then 0%nat
    else get_task_offer_count task' _pools.
Proof.
  unfold get_task_offer_count, clear_offers_for_task.
  destruct (decide (task' = task)) as [->|Hne].
  - rewrite (bool_decide_true (task = task)) by done.
    destruct (_pools !! task) as [pool|] eqn:Hp.
    + rewrite bool_decide_true by eauto. by rewrite lookup_delete_eq.
    + rewrite bool_decide_false by (by intros [? ?]). by rewrite Hp.
  - rewrite (bool_decide_false (task' = task)) by done.
    case_bool_decide; [|done]. by rewrite lookup_delete_ne.
Qed.

(** X24.  After [reset] and any offers added in turn, the count of a
    task is the number of those offers that name it, and its pool holds
    them in the order they came. *)
Theorem add_all_counts (offers : list Offer) (task : string)
    (_pools : gmap string (list Offer)) :
  let pools := fold_left (λ pools offer, add offer pools) offers (reset _pools) in
  default [] (pools !! task) = filter (λ offer, task_id offer = task) offers
  ∧ get_task_offer_count task pools
    = length (filter (λ offer, task_id offer = task) offers).
Proof.
  cbn zeta. unfold reset.
  assert (Hgen : ∀ pools0 : gmap string (list Offer),
    default [] (fold_left (λ pools offer, add offer pools) offers pools0 !! task)
    = default [] (pools0 !! task) ++ filter (λ offer, task_id offer = task) offers).
  { induction offers as [|offer offers IH]; intros pools0.
    - cbn. by rewrite app_nil_r.
    - cbn [fold_left]. rewrite IH, filter_cons.
      destruct (decide (task_id offer = task)) as [E|E].
      + subst task. rewrite add_lookup. cbn. by rewrite <- app_assoc.
      + by rewrite add_lookup_ne. }
  specialize (Hgen ∅). rewrite lookup_empty in Hgen. cbn in Hgen.
  split; [done|]. unfold get_task_offer_count. rewrite <- Hgen.
  by destruct (_ !! task).
Qed.

End PoolingProperties.

(** ** One outstanding subtask per provider *)

Lemma get_next_subtask_Ok_inv w task_id computing_node σ definition :
  (get_next_subtask w task_id computing_node σ).1 = Ok definition →
  let σ' := (get_next_subtask w task_id computing_node σ).2 in
  ∃ t row,
    select_task task_id (tasks σ) = Some t
    ∧ TaskStatus.is_active (RequestedTask.status t) = true
    ∧ ComputingNode.node_id computing_node ≠ _public_key σ
    ∧ _public_key σ' = _public_key σ
    ∧ tasks σ' = tasks σ
    ∧ subtasks σ' = subtasks σ ++ [row]
    ∧ RequestedSubtask.task row = task_id
    ∧ RequestedSubtask.status row = SubtaskStatus.starting
    ∧ RequestedSubtask.computing_node row = ComputingNode.node_id computing_node.
Proof.
  cbn zeta. unfold get_next_subtask. mrun.
  destruct (select_task task_id (tasks σ)) as [t|] eqn:Hsel; [|done].
  pose proof (select_task_Some _ _ _ Hsel) as [Hid _].
  case_bool_decide as Hself; [done|].
  destruct (TaskStatus.is_active (RequestedTask.status t)) eqn:Hact; cbn [negb];
    [|done].
  rewrite _get_unfinished_subtasks_count.
  destruct (0 <? _)%Z; [done|].
  pose proof (has_pending_subtasks_frame w task_id σ) as (Hk & Ht & Hs).
  destruct (has_pending_subtasks w task_id σ) as [[b|e] σ1]; simpl in Hk, Ht, Hs;
    [|done].
  destruct b; cbn [negb]; [|done].
  match goal with |- context [_get_app_client ?w ?a ?e ?s] =>
    pose proof (_get_app_client_frame w a e s) as (Hk' & Ht' & Hs' & _);
    destruct (_get_app_client w a e s) as [[c|e0] σ2] end;
    simpl in Hk', Ht', Hs'; cbn [fst snd]; [|done].
  destruct (app_next_subtask w) as [d|e1]; cbn [fst snd tasks subtasks]; [|done].
  match goal with |- context [List.existsb ?f ?l] =>
    destruct (List.existsb f l) end; cbn [fst snd tasks subtasks _public_key];
    [done|].
  cbn [RequestedSubtask.start_time].
  destruct (timedelta_milliseconds _) as [delta|e2]; cbv beta iota; [|done].
  destruct (datetime_add _ _) as [deadline|e3]; cbv beta iota; [|done].
  cbn [fst snd tasks subtasks _public_key].
  intros _. exists t. eexists. split; [done|]. split; [done|]. split; [done|].
  split; [congruence|]. split; [congruence|]. split; [by rewrite Hs', Hs|]. done.
Qed.

(** X25.  One outstanding subtask per provider and task: right after a
    [get_next_subtask] that returned, a second one for the same task and
    provider raises the refusal of rule 4 and changes nothing, whatever
    the application would answer. *)
Theorem get_next_subtask_twice (w w' : World) (σ : RTM) (task_id : TaskId)
    (computing_node : ComputingNode.t) (definition : SubtaskDefinition.t) :
  (get_next_subtask w task_id computing_node σ).1 = Ok definition →
  let σ' := (get_next_subtask w task_id computing_node σ).2 in
  get_next_subtask w' task_id computing_node σ'
  = (Raise (AssignmentRefused rule_no_unfinished task_id), σ').
Proof.
  intros Hok. cbn zeta.
  destruct (get_next_subtask_Ok_inv _ _ _ _ _ Hok)
    as (t & row & Hsel & Hact & Hself & Hk & Ht & Hs & Hrt & Hrs & Hrn).
  apply (get_next_subtask_unfinished w' _ task_id computing_node t).
  - by rewrite Ht.
  - by rewrite Hk.
  - done.
  - unfold unfinished_of_provider. rewrite Hs, filter_app, length_app.
    rewrite filter_cons_True; [cbn; lia|].
    split; [done|]. split; [done|]. by rewrite Hrs.
Qed.

(** ** The further properties at the scenario of the tests *)

Lemma verify_refusals_witness :
  select_task "t1" (tasks (Scenario.verified 1 true))
    = Some (ScenarioRows.task_row 1 TaskStatus.finished)
  ∧ verify (Scenario.world true) "t1" "s1" (Scenario.verified 1 true)
    = (Raise (TaskNotActive_verify "t1"), Scenario.verified 1 true).
Proof.
  split; [reflexivity|].
  destruct (verify_refusals (Scenario.world true) (Scenario.verified 1 true) "t1" "s1"
              (ScenarioRows.task_row 1 TaskStatus.finished) eq_refl) as [H _].
  exact (H eq_refl).
Defined.

Lemma verify_app_error_witness :
  app_verify ScenarioWorlds.verify_raises = Raise (AppClientError "verify")
  ∧ (verify ScenarioWorlds.verify_raises "t1" "s1" (Scenario.assigned 1)).1
    = Raise (AppClientError "verify")
  ∧ select_subtask "s1"
      (subtasks (verify ScenarioWorlds.verify_raises "t1" "s1"
                   (Scenario.assigned 1)).2)
    = Some (ScenarioRows.subtask_row SubtaskStatus.verifying).
Proof.
  split; [reflexivity|].
  assert (Hav : client_available ScenarioWorlds.verify_raises (Scenario.assigned 1)
                  "a" "a") by (right; split; reflexivity).
  destruct (verify_app_error ScenarioWorlds.verify_raises (Scenario.assigned 1)
              "t1" "s1" (ScenarioRows.task_row 1 TaskStatus.waiting)
              (ScenarioRows.subtask_row SubtaskStatus.starting)
              (AppClientError "verify") eq_refl eq_refl eq_refl eq_refl Hav eq_refl)
    as (Hres & Hrow & _).
  split; [exact Hres|exact Hrow].
Defined.


Lemma init_task_environment_disabled_witness :
  _app_clients ScenarioRows.created !! "a" = None
  ∧ (init_task ScenarioWorlds.env_disabled "t1" ScenarioRows.created).1
    = Raise (RuntimeError "Error connecting to app: a. environment not enabled")
  ∧ _app_clients (init_task ScenarioWorlds.env_disabled "t1" ScenarioRows.created).2
    !! "a" = None.
Proof.
  split; [reflexivity|].
  rewrite (init_task_environment_disabled ScenarioWorlds.env_disabled
             ScenarioRows.created "t1" (ScenarioRows.task_row 1 TaskStatus.creating)
             eq_refl eq_refl eq_refl eq_refl).
  split; reflexivity.
Defined.

Lemma _shutdown_app_client_keeps_client_witness :
  app_has_active_task "a" (tasks (Scenario.assigned 1))
  ∧ _shutdown_app_client (Scenario.world true) "a" (Scenario.assigned 1)
    = (Ok tt, Scenario.assigned 1).
Proof.
  assert (Hact : app_has_active_task "a" (tasks (Scenario.assigned 1))).
  { exists (ScenarioRows.task_row 1 TaskStatus.waiting).
    split; [vm_compute; by left|]. split; reflexivity. }
  split; [exact Hact|].
  exact (_shutdown_app_client_keeps_client (Scenario.world true) "a"
           (Scenario.assigned 1) Hact).
Defined.

Lemma _shutdown_app_client_removes_client_witness :
  _app_clients ScenarioWorlds.initialized !! "a" = Some ScenarioWorlds.client
  ∧ _app_clients
      (_shutdown_app_client (Scenario.world true) "a" ScenarioWorlds.initialized).2
    !! "a" = None.
Proof.
  split; [reflexivity|].
  assert (Hnone : ¬ app_has_active_task "a" (tasks ScenarioWorlds.initialized)).
  { intros (r & Hr & _ & Hact). vm_compute in Hr.
    apply list_elem_of_singleton in Hr. subst r. discriminate Hact. }
  rewrite (_shutdown_app_client_removes_client (Scenario.world true) "a"
             ScenarioWorlds.initialized ScenarioWorlds.client Hnone eq_refl).
  reflexivity.
Defined.

Lemma init_task_twice_witness :
  (init_task (Scenario.world true) "t1" ScenarioRows.created).1 = Ok tt
  ∧ (init_task (Scenario.world true) "t1"
       (init_task (Scenario.world true) "t1" ScenarioRows.created).2).1 = Ok tt.
Proof.
  split; [reflexivity|].
  destruct (init_task_twice (Scenario.world true) (Scenario.world true)
              ScenarioRows.created "t1" (ScenarioRows.task_row 1 TaskStatus.creating)
              eq_refl eq_refl eq_refl)
    as [Hrun _].
  by rewrite Hrun.
Defined.

Lemma has_pending_subtasks_forwards_witness :
  select_task "t1" (tasks (Scenario.started 1))
    = Some (ScenarioRows.task_row 1 TaskStatus.waiting)
  ∧ (has_pending_subtasks (Scenario.world true) "t1" (Scenario.started 1)).1 = Ok true.
Proof.
  split; [reflexivity|].
  assert (Hav : client_available (Scenario.world true) (Scenario.started 1) "a" "a")
    by (right; split; reflexivity).
  destruct (has_pending_subtasks_forwards (Scenario.world true) (Scenario.started 1)
              "t1" (ScenarioRows.task_row 1 TaskStatus.waiting) eq_refl Hav)
    as (Hres & _).
  exact Hres.
Defined.

Lemma completed_task_refuses_witness :
  select_task "t1" (tasks (Scenario.verified 1 true))
    = Some (ScenarioRows.task_row 1 TaskStatus.finished)
  ∧ abort_task (Scenario.world true) "t1" (Scenario.verified 1 true)
    = (Raise (TaskNotActive_abort "t1"), Scenario.verified 1 true).
Proof.
  split; [reflexivity|].
  destruct (completed_task_refuses (Scenario.world true) (Scenario.verified 1 true)
              "t1" "s1" Scenario.provider
              (ScenarioRows.task_row 1 TaskStatus.finished) eq_refl eq_refl)
    as (_ & _ & _ & Habort & _).
  exact Habort.
Defined.

Lemma abort_task_keeps_shared_client_witness :
  ScenarioWorlds.second_row ∈ tasks ScenarioWorlds.two_tasks
  ∧ (abort_task (Scenario.world true) "t1" ScenarioWorlds.two_tasks).1 = Ok tt
  ∧ _app_clients (abort_task (Scenario.world true) "t1" ScenarioWorlds.two_tasks).2
    = _app_clients ScenarioWorlds.two_tasks.
Proof.
  assert (Hin : ScenarioWorlds.second_row ∈ tasks ScenarioWorlds.two_tasks).
  { vm_compute. right. by left. }
  split; [exact Hin|].
  assert (Hne : RequestedTask.task_id ScenarioWorlds.second_row ≠ "t1") by done.
  destruct (abort_task_keeps_shared_client (Scenario.world true)
              ScenarioWorlds.two_tasks "t1"
              (ScenarioRows.task_row 1 TaskStatus.waiting) ScenarioWorlds.second_row
              eq_refl eq_refl Hin Hne eq_refl eq_refl)
    as (Hres & Hcl & _).
  split; [exact Hres|exact Hcl].
Defined.

Lemma verify_true_keeps_shared_client_witness :
  ScenarioWorlds.second_row ∈ tasks ScenarioWorlds.two_tasks
  ∧ (verify (Scenario.world true) "t1" "s1" ScenarioWorlds.two_tasks).1 = Ok true
  ∧ is_Some (_app_clients
               (verify (Scenario.world true) "t1" "s1" ScenarioWorlds.two_tasks).2
             !! "a").
Proof.
  assert (Hin : ScenarioWorlds.second_row ∈ tasks ScenarioWorlds.two_tasks).
  { vm_compute. right. by left. }
  split; [exact Hin|].
  assert (Hne : RequestedTask.task_id ScenarioWorlds.second_row ≠ "t1") by done.
  assert (Hav : client_available (Scenario.world true) ScenarioWorlds.two_tasks
                  "a" "a") by (right; split; reflexivity).
  destruct (verify_true_keeps_shared_client (Scenario.world true)
              ScenarioWorlds.two_tasks "t1" "s1"
              (ScenarioRows.task_row 1 TaskStatus.waiting) ScenarioWorlds.second_row
              (ScenarioRows.subtask_row SubtaskStatus.starting)
              eq_refl eq_refl eq_refl eq_refl Hav eq_refl Hin Hne eq_refl eq_refl)
    as (Hres & Hcl & _).
  split; [exact Hres|exact Hcl].
Defined.

Lemma get_next_subtask_twice_witness :
  (get_next_subtask (Scenario.world true) "t1" Scenario.provider
     (Scenario.started 2)).1
    = Ok (SubtaskDefinition.mk "s1" [] "{}" 2000)
  ∧ (get_next_subtask Scenario.world_s2 "t1" Scenario.provider
       (get_next_subtask (Scenario.world true) "t1" Scenario.provider
          (Scenario.started 2)).2).1
    = Raise (AssignmentRefused rule_no_unfinished "t1").
Proof.
  split; [reflexivity|].
  rewrite (get_next_subtask_twice (Scenario.world true) Scenario.world_s2
             (Scenario.started 2) "t1" Scenario.provider
             (SubtaskDefinition.mk "s1" [] "{}" 2000) eq_refl).
  reflexivity.
Defined.
